(** * KubeOne live-state probes: a shallow embedding of [pkg/tasks/probes.go]

    The file embeds the host probers ([systemdStatus],
    [detectDockerStatusVersion], [detectKubeletStatusVersion],
    [detectKubeletInitialized], [investigateHost]), the cluster
    reconciliation ([investigateCluster]) and the task that runs them
    ([runProbes]) as executable functions and proves the properties the
    specification states about them, and further properties of the code.

    Conventions.
    - A Go [uint64] status word is a [Z]; the code only combines words with
      [|] and tests them with [&], which never leave the 64-bit range, so no
      wrap-around is written.
    - A Go [error] value is an [option error]: [None] is [nil].
    - [*kubeoneapi.HostConfig] is an address ([nat]) into the array
      [s.Cluster.ControlPlane.Hosts]; two live hosts holding the same address
      alias the same configuration.
    - Remote commands and collaborator calls are effects; the commands a
      connection was asked to run and the collaborator calls of a
      reconciliation are recorded, in order, in a journal.
    - Locks are not modelled: the functions are embedded as the sequential
      code they are between [Lock] and [Unlock]. *)

From Stdlib Require Import ZArith String Ascii List Bool Lia.
From stdpp Require Import base option list gmap sets strings.

Local Open Scope string_scope.
Local Open Scope list_scope.
Local Open Scope Z_scope.

(* ===================================================================== *)
(** ** Errors *)

(** Go error values as the file builds them: [errors.New], [errors.Wrap]
    and [errors.Wrapf] with one [%q] argument.  Errors returned by
    collaborators are values of the same type. *)
Inductive error : Type :=
| errors_New (msg : string)
| errors_Wrap (cause : error) (msg : string)
| errors_Wrapf (cause : error) (format : string) (arg : string).

(** [err != nil]. *)
Definition notNil (err : option error) : bool :=
  match err with Some _ => true | None => false end.

(** [contains s t]: [t] occurs in [s] as a substring. *)
Fixpoint contains (s t : string) : bool :=
  String.prefix t s ||
  match s with
  | EmptyString => false
  | String _ s' => contains s' t
  end.

(** An error carries a text when the text is a formatting argument of one of
    its wrappers or occurs in one of its messages. *)
Fixpoint carries (e : error) (raw : string) : bool :=
  match e with
  | errors_New msg => contains msg raw
  | errors_Wrap cause msg => carries cause raw || contains msg raw
  | errors_Wrapf cause _ arg => carries cause raw || String.eqb arg raw
  end.

(* ===================================================================== *)
(** ** Data model *)

(** [kubeoneapi.OperatingSystemName]: the five names the probes switch on;
    every other tag takes the [default] branch. *)
Inductive OperatingSystemName : Type :=
| OperatingSystemNameUbuntu
| OperatingSystemNameCentOS
| OperatingSystemNameRHEL
| OperatingSystemNameCoreOS
| OperatingSystemNameFlatcar
| OperatingSystemNameOther (tag : string).

(** [kubeoneapi.HostConfig], the fields the probes read or write. *)
Record HostConfig : Type := mkHostConfig {
  Hostname : string;
  OperatingSystem : OperatingSystemName;
  IsLeader : bool
}.

Global Instance HostConfig_inhabited : Inhabited HostConfig :=
  populate (mkHostConfig "" (OperatingSystemNameOther "") false).

Definition setIsLeader (b : bool) (c : HostConfig) : HostConfig :=
  mkHostConfig (Hostname c) (OperatingSystem c) b.

(** [semver.Version]: the fields of the library's struct.  [&semver.Version{}]
    is [zeroVersion]. *)
Record Version : Type := mkVersion {
  major : Z; minor : Z; patch : Z;
  pre : string; metadata : string; original : string
}.

Definition zeroVersion : Version := mkVersion 0 0 0 "" "" "".

(** [state.ComponentStatus] and [state.ContainerStatus]. *)
Record ComponentStatus : Type := mkComponentStatus {
  CVersion : option Version;
  CStatus : Z
}.

Record ContainerStatus : Type := mkContainerStatus {
  PStatus : Z
}.

(** [state.Host].  [Config] is the address of the host's [HostConfig]. *)
Record Host : Type := mkHost {
  Config : nat;
  ContainerRuntime : ComponentStatus;
  Kubelet : ComponentStatus;
  APIServer : ContainerStatus;
  Etcd : ContainerStatus;
  IsInCluster : bool
}.

(** [state.Host{Config: &hosts[i]}]: every other field has its zero value. *)
Definition newHost (i : nat) : Host :=
  mkHost i (mkComponentStatus None 0) (mkComponentStatus None 0)
         (mkContainerStatus 0) (mkContainerStatus 0) false.

Global Instance Host_inhabited : Inhabited Host := populate (newHost 0).

(** The array of configurations the [Config] addresses point into. *)
Definition deref (mem : list HostConfig) (p : nat) : HostConfig := mem !!! p.

(** Modelled from the spec: the status flags of package [state], whose
    declaration is not part of the sources.  The spec describes them as
    independent flags combined by logical OR; they are taken as eight
    parameters. *)
Record StatusFlags : Type := mkStatusFlags {
  ComponentInstalled : Z;
  SystemDStatusActive : Z;
  SystemDStatusRunning : Z;
  SystemDStatusRestarting : Z;
  SystemdDStatusDead : Z;
  SystemDStatusUnknown : Z;
  KubeletInitialized : Z;
  PodRunning : Z
}.

Definition allFlags (F : StatusFlags) : list Z :=
  [ComponentInstalled F; SystemDStatusActive F; SystemDStatusRunning F;
   SystemDStatusRestarting F; SystemdDStatusDead F; SystemDStatusUnknown F;
   KubeletInitialized F; PodRunning F].

(** [x] shares no bit with any word of the list. *)
Fixpoint disjointFrom (x : Z) (l : list Z) : bool :=
  match l with
  | [] => true
  | y :: l' => (Z.land x y =? 0) && disjointFrom x l'
  end.

Fixpoint pairwiseDisjoint (l : list Z) : bool :=
  match l with
  | [] => true
  | x :: l' => disjointFrom x l' && pairwiseDisjoint l'
  end.

(** Independent flags: 64-bit words, none empty, no two sharing a bit. *)
Definition independentFlags (F : StatusFlags) : bool :=
  forallb (fun x => (0 <? x) && (x <? 2 ^ 64)) (allFlags F)
  && pairwiseDisjoint (allFlags F).

(** [status&flag != 0]. *)
Definition isSet (status flag : Z) : bool := negb (Z.land status flag =? 0).

(* ===================================================================== *)
(** ** The remote connection *)

(** What [conn.Exec] returns: [(stdout, stderr, exitcode, err)]. *)
Record ExecResult : Type := mkExecResult {
  stdout : string;
  stderr : string;
  exitcode : Z;
  execErr : option error
}.

(** [ssh.Connection]: the answer of the remote host to each command, and the
    commands run so far. *)
Record Connection : Type := mkConnection {
  respond : string -> ExecResult;
  issued : list string
}.

Definition Exec (conn : Connection) (cmd : string) : ExecResult * Connection :=
  (respond conn cmd, mkConnection (respond conn) (issued conn ++ [cmd])).

(** ** Library functions the probes call *)

(** [yaml.Unmarshal] into a [map[string]string], [semver.NewVersion] and
    [strings.TrimSpace] belong to libraries outside the repository. *)
Record Libraries : Type := mkLibraries {
  yaml_Unmarshal : string -> gmap string string + error;
  semver_NewVersion : string -> Version + error;
  strings_TrimSpace : string -> string
}.

(** [m[key]] on a Go map: the empty string when the key is absent. *)
Definition index (m : gmap string string) (key : string) : string :=
  default "" (m !! key).

(** [strings.ReplaceAll(s, old, new)] for a one-byte [old]. *)
Fixpoint strings_ReplaceAll (s : string) (old : ascii) (new : string) : string :=
  match s with
  | EmptyString => EmptyString
  | String c s' =>
      if Ascii.eqb c old then new +:+ strings_ReplaceAll s' old new
      else String c (strings_ReplaceAll s' old new)
  end.

(* ===================================================================== *)
(** ** Commands *)

(** [fmt.Sprintf(systemdShowStatusCMD, service)]. *)
Definition systemdShowStatusCMD (service : string) : string :=
  "systemctl show " +:+ service +:+ " -p LoadState,ActiveState,SubState".

Definition dockerVersionDPKG : string :=
  "dpkg-query --show --showformat='${Version}' docker-ce | cut -d: -f2 | cut -d~ -f1".
Definition dockerVersionRPM : string :=
  "rpm -qa --queryformat '%{RPMTAG_VERSION}' docker-ce".
Definition kubeletVersionDPKG : string :=
  "dpkg-query --show --showformat='${Version}' kubelet | cut -d- -f1".
Definition kubeletVersionRPM : string :=
  "rpm -qa --queryformat '%{RPMTAG_VERSION}' kubelet".
Definition kubeletVersionCLI : string :=
  "kubelet --version | cut -d' ' -f2".
Definition kubeletInitializedCMD : string :=
  "test -f /etc/kubernetes/kubelet.conf".

Definition versionCommands : list string :=
  [dockerVersionDPKG; dockerVersionRPM;
   kubeletVersionDPKG; kubeletVersionRPM; kubeletVersionCLI].

(* ===================================================================== *)
(** ** The host probers *)

Section Probers.

Variable F : StatusFlags.
Variable L : Libraries.

(** The bits [systemdStatus] derives from the decoded map. *)
Definition decodeStatus (m : gmap string string) : Z :=
  let status := 0 in
  let status :=
    if String.eqb (index m "LoadState") "loaded"
    then Z.lor status (ComponentInstalled F) else status in
  let status :=
    if String.eqb (index m "ActiveState") "active"
       || String.eqb (index m "ActiveState") "activating"
    then Z.lor status (SystemDStatusActive F) else status in
  if String.eqb (index m "SubState") "running"
  then Z.lor status (SystemDStatusRunning F)
  else if String.eqb (index m "SubState") "auto-restart"
  then Z.lor status (SystemDStatusRestarting F)
  else if String.eqb (index m "SubState") "dead"
  then Z.lor status (SystemdDStatusDead F)
  else Z.lor status (SystemDStatusUnknown F).

Definition systemdStatus (conn : Connection) (service : string)
  : (Z * option error) * Connection :=
  let '(r, conn) := Exec conn (systemdShowStatusCMD service) in
  match execErr r with
  | Some err => ((0, Some err), conn)
  | None =>
      let out := strings_ReplaceAll (stdout r) "="%char ": " in
      match yaml_Unmarshal L out with
      | inr err => ((0, Some err), conn)
      | inl m => ((decodeStatus m, None), conn)
      end
  end.

Definition setContainerRuntime (host : Host) (c : ComponentStatus) : Host :=
  mkHost (Config host) c (Kubelet host) (APIServer host) (Etcd host)
         (IsInCluster host).

Definition setKubelet (host : Host) (c : ComponentStatus) : Host :=
  mkHost (Config host) (ContainerRuntime host) c (APIServer host) (Etcd host)
         (IsInCluster host).

Definition detectDockerStatusVersion
    (mem : list HostConfig) (host : Host) (conn : Connection)
  : option error * Host * Connection :=
  let '((status, err), conn) := systemdStatus conn "docker" in
  let host :=
    setContainerRuntime host
      (mkComponentStatus (CVersion (ContainerRuntime host)) status) in
  match err with
  | Some err => (Some err, host, conn)
  | None =>
      if Z.land (CStatus (ContainerRuntime host)) (ComponentInstalled F) =? 0
      then (None, host, conn)
      else
        let run (dockerVersionCmd : string) :=
          let '(r, conn) := Exec conn dockerVersionCmd in
          match execErr r with
          | Some err => (Some err, host, conn)
          | None =>
              match semver_NewVersion L (strings_TrimSpace L (stdout r)) with
              | inr err =>
                  (Some (errors_Wrapf err "version was: %q" (stdout r)),
                   host, conn)
              | inl ver =>
                  (None,
                   setContainerRuntime host
                     (mkComponentStatus (Some ver)
                        (CStatus (ContainerRuntime host))),
                   conn)
              end
          end in
        match OperatingSystem (deref mem (Config host)) with
        | OperatingSystemNameCentOS | OperatingSystemNameRHEL =>
            run dockerVersionRPM
        | OperatingSystemNameUbuntu =>
            run dockerVersionDPKG
        | OperatingSystemNameFlatcar | OperatingSystemNameCoreOS =>
            (None,
             setContainerRuntime host
               (mkComponentStatus (Some zeroVersion)
                  (CStatus (ContainerRuntime host))),
             conn)
        | OperatingSystemNameOther _ => (None, host, conn)
        end
  end.

Definition detectKubeletStatusVersion
    (mem : list HostConfig) (host : Host) (conn : Connection)
  : option error * Host * Connection :=
  let '((status, err), conn) := systemdStatus conn "kubelet" in
  let host :=
    setKubelet host (mkComponentStatus (CVersion (Kubelet host)) status) in
  match err with
  | Some err => (Some err, host, conn)
  | None =>
      if Z.land (CStatus (Kubelet host)) (ComponentInstalled F) =? 0
      then (None, host, conn)
      else
        let run (kubeletVersionCmd : string) :=
          let '(r, conn) := Exec conn kubeletVersionCmd in
          match execErr r with
          | Some err => (Some err, host, conn)
          | None =>
              match semver_NewVersion L (strings_TrimSpace L (stdout r)) with
              | inr err => (Some err, host, conn)
              | inl ver =>
                  (None,
                   setKubelet host
                     (mkComponentStatus (Some ver) (CStatus (Kubelet host))),
                   conn)
              end
          end in
        match OperatingSystem (deref mem (Config host)) with
        | OperatingSystemNameCentOS | OperatingSystemNameRHEL =>
            run kubeletVersionRPM
        | OperatingSystemNameUbuntu =>
            run kubeletVersionDPKG
        | OperatingSystemNameFlatcar | OperatingSystemNameCoreOS =>
            run kubeletVersionCLI
        | OperatingSystemNameOther _ => (None, host, conn)
        end
  end.

Definition detectKubeletInitialized (host : Host) (conn : Connection)
  : option error * Host * Connection :=
  let '(r, conn) := Exec conn kubeletInitializedCMD in
  if notNil (execErr r) && (exitcode r <=? 0)
  then (execErr r, host, conn)
  else if exitcode r =? 0
  then (None,
        setKubelet host
          (mkComponentStatus (CVersion (Kubelet host))
             (Z.lor (CStatus (Kubelet host)) (KubeletInitialized F))),
        conn)
  else (None, host, conn).

End Probers.

(* ===================================================================== *)
(** ** The cluster reconciliation *)

(** What the API-server status query reports for one host. *)
Record ApiserverStatus : Type := mkApiserverStatus {
  Health : bool
}.

(** What the etcd status query reports for one host. *)
Record EtcdStatus : Type := mkEtcdStatus {
  EtcdMember : bool;
  EtcdHealth : bool
}.

(** The collaborator calls of a reconciliation, as the journal records
    them. *)
Inductive Event : Type :=
| CallApiserverGet (node : HostConfig)
| CallEtcdMemberList
| CallEtcdGet (node : HostConfig)
| CallBuildKubernetesClientset
| CallListNodes.

(** What [investigateCluster] returns: the error, or, when it returns [nil],
    the two sets it prints ([hostsToBeProvisioned], [nodesToBeRemoved]). *)
Inductive Result : Type :=
| Failed (err : error)
| Reported (hostsToBeProvisioned nodesToBeRemoved : gset string).

Section Cluster.

Context {Members Client : Type}.

(** Modelled from the spec: the collaborators of the reconciliation, which
    live in packages that are not part of the sources.  [IsProvisioned] is
    the predicate of the live cluster; [apiserverstatus_Get] answers
    API-server health by host (its result is used without a nil check, so it
    is a value); [etcdstatus_MemberList] fetches the member list;
    [etcdstatus_Get] answers membership and health by host, and its status
    may be [nil]; [BuildKubernetesClientset] builds the client that
    [DynamicClient_List] lists the control-plane node names with.  Each
    answers from the arguments it is given and leaves the state it is passed
    as it is, but for the client that [BuildKubernetesClientset] stores. *)
Record Collaborators : Type := mkCollaborators {
  IsProvisioned : list HostConfig -> list Host -> bool;
  apiserverstatus_Get : HostConfig -> ApiserverStatus * option error;
  etcdstatus_MemberList : Members + error;
  etcdstatus_Get : HostConfig -> Members -> option EtcdStatus * option error;
  BuildKubernetesClientset : Client + error;
  DynamicClient_List : Client -> list string + error
}.

(** [state.State], the parts the reconciliation touches: [Hosts] is
    [s.Cluster.ControlPlane.Hosts], [ControlPlane] is
    [s.LiveCluster.ControlPlane]. *)
Record State : Type := mkState {
  Hosts : list HostConfig;
  ControlPlane : list Host;
  DynamicClient : option Client;
  journal : list Event
}.

Definition setHosts (mem : list HostConfig) (s : State) : State :=
  mkState mem (ControlPlane s) (DynamicClient s) (journal s).

Definition setControlPlane (cp : list Host) (s : State) : State :=
  mkState (Hosts s) cp (DynamicClient s) (journal s).

Definition setDynamicClient (c : option Client) (s : State) : State :=
  mkState (Hosts s) (ControlPlane s) c (journal s).

Definition record (ev : Event) (s : State) : State :=
  mkState (Hosts s) (ControlPlane s) (DynamicClient s) (journal s ++ [ev]).

(** [for i := range s.LiveCluster.ControlPlane { body }]: the length is read
    once, the indices run upwards, so [ControlPlane[i]] is always in range. *)
Definition forRange {S : Type} (n : nat) (body : nat -> S -> S) (s : S) : S :=
  foldl (fun s i => body i s) s (seq 0 n).

(** [s.LiveCluster.ControlPlane[i].Config.IsLeader = b]: a write through the
    pointer. *)
Definition storeIsLeader (b : bool) (i : nat) (s : State) : State :=
  setHosts
    (alter (setIsLeader b) (Config (ControlPlane s !!! i)) (Hosts s)) s.

(** [status |= flag] on the two pod components and the membership mark. *)
Definition orAPIServer (flag : Z) (h : Host) : Host :=
  mkHost (Config h) (ContainerRuntime h) (Kubelet h)
         (mkContainerStatus (Z.lor (PStatus (APIServer h)) flag))
         (Etcd h) (IsInCluster h).

Definition orEtcd (flag : Z) (h : Host) : Host :=
  mkHost (Config h) (ContainerRuntime h) (Kubelet h) (APIServer h)
         (mkContainerStatus (Z.lor (PStatus (Etcd h)) flag))
         (IsInCluster h).

Definition markInCluster (h : Host) : Host :=
  mkHost (Config h) (ContainerRuntime h) (Kubelet h) (APIServer h) (Etcd h)
         true.

Variable F : StatusFlags.
Variable W : Collaborators.

(** The body of the election loop; [leaderElected] is the loop's local. *)
Definition electStep (i : nat) (st : bool * State) : bool * State :=
  let '(leaderElected, s) := st in
  let node := deref (Hosts s) (Config (ControlPlane s !!! i)) in
  let s := record (CallApiserverGet node) s in
  let '(apiserverStatus, _) := apiserverstatus_Get W node in
  if Health apiserverStatus then
    let s := setControlPlane
               (alter (orAPIServer (PodRunning F)) i (ControlPlane s)) s in
    if negb leaderElected
    then (true, storeIsLeader true i s)
    else (leaderElected, s)
  else (leaderElected, s).

(** The body of the etcd loop. *)
Definition etcdStep (etcdMembers : Members) (i : nat) (s : State) : State :=
  let node := deref (Hosts s) (Config (ControlPlane s !!! i)) in
  let s := record (CallEtcdGet node) s in
  let '(etcdStatus, _) := etcdstatus_Get W node etcdMembers in
  match etcdStatus with
  | Some etcdStatus =>
      if EtcdMember etcdStatus && EtcdHealth etcdStatus
      then setControlPlane
             (alter (orEtcd (PodRunning F)) i (ControlPlane s)) s
      else s
  | None => s
  end.

(** The body of the loop that marks the hosts named like a node. *)
Definition markStep (name : string) (i : nat) (s : State) : State :=
  if String.eqb name
       (Hostname (deref (Hosts s) (Config (ControlPlane s !!! i))))
  then setControlPlane (alter markInCluster i (ControlPlane s)) s
  else s.

(** [if s.DynamicClient == nil { BuildKubernetesClientset(s) }]. *)
Definition clientset (s : State) : (Client + error) * State :=
  match DynamicClient s with
  | Some c => (inl c, s)
  | None =>
      let s := record CallBuildKubernetesClientset s in
      match BuildKubernetesClientset W with
      | inl c => (inl c, setDynamicClient (Some c) s)
      | inr err => (inr err, s)
      end
  end.

(** The loop over [nodes.Items]. *)
Definition nodeStep (knownHostsIdentities : gset string)
    (st : gset string * State) (name : string) : gset string * State :=
  let '(knownNodesIdentities, s) := st in
  (knownNodesIdentities ∪ {[name]},
   if bool_decide (name ∈ knownHostsIdentities)
   then forRange (length (ControlPlane s)) (markStep name) s
   else s).

Definition errNotProvisioned : error :=
  errors_New "unable to investigate non-provisioned cluster".

(** The error of a lost quorum. *)
Definition errQuorumLost : error :=
  errors_New "leader not elected, quorum mostly like lost".

Definition investigateCluster (s : State) : Result * State :=
  if negb (IsProvisioned W (Hosts s) (ControlPlane s))
  then (Failed errNotProvisioned, s)
  else
    let s := forRange (length (ControlPlane s)) (storeIsLeader false) s in
    let '(leaderElected, s) :=
      forRange (length (ControlPlane s)) electStep (false, s) in
    if negb leaderElected
    then (Failed errQuorumLost, s)
    else
      let s := record CallEtcdMemberList s in
      match etcdstatus_MemberList W with
      | inr err => (Failed err, s)
      | inl etcdMembers =>
          let s := forRange (length (ControlPlane s)) (etcdStep etcdMembers) s in
          let '(client, s) := clientset s in
          match client with
          | inr err => (Failed err, s)
          | inl client =>
              let s := record CallListNodes s in
              match DynamicClient_List W client with
              | inr err => (Failed (errors_Wrap err "unable to list nodes"), s)
              | inl nodes =>
                  let knownHostsIdentities :=
                    foldl (fun set host =>
                             set ∪ {[Hostname (deref (Hosts s) (Config host))]})
                          ∅ (ControlPlane s) in
                  let '(knownNodesIdentities, s) :=
                    foldl (nodeStep knownHostsIdentities) (∅, s) nodes in
                  (Reported (knownHostsIdentities ∖ knownNodesIdentities)
                            (knownNodesIdentities ∖ knownHostsIdentities),
                   s)
              end
          end
      end.

End Cluster.

(* ===================================================================== *)
(** ** The investigation of one host *)

Section Investigation.

Context {Client : Type}.
Variable F : StatusFlags.
Variable L : Libraries.

(** [runProbes] builds the live cluster: one live host per configured host,
    in order, each pointing at its configuration. *)
Definition newLiveCluster (hosts : list HostConfig) : list Host :=
  newHost <$> seq 0 (length hosts).

(** The search loop of [investigateHost]: the first live host whose
    configuration has the host name, and its index. *)
Fixpoint findHost (mem : list HostConfig) (hostname : string)
    (cp : list Host) (i : nat) : option (nat * Host) :=
  match cp with
  | [] => None
  | host :: cp =>
      if String.eqb (Hostname (deref mem (Config host))) hostname
      then Some (i, host)
      else findHost mem hostname cp (S i)
  end.

Definition errNoMatch : error :=
  errors_New "didn't matched live cluster against provided".

(** [investigateHost] probes a copy of the live host and writes the copy
    back at its index once the three checks have passed. *)
Definition investigateHost (s : @State Client) (node : HostConfig)
    (conn : Connection) : option error * @State Client * Connection :=
  match findHost (Hosts s) (Hostname node) (ControlPlane s) 0 with
  | None => (Some errNoMatch, s, conn)
  | Some (idx, h) =>
      let '(err, h, conn) := detectDockerStatusVersion F L (Hosts s) h conn in
      match err with
      | Some err => (Some err, s, conn)
      | None =>
          let '(err, h, conn) :=
            detectKubeletStatusVersion F L (Hosts s) h conn in
          match err with
          | Some err => (Some err, s, conn)
          | None =>
              let '(err, h, conn) := detectKubeletInitialized F h conn in
              match err with
              | Some err => (Some err, s, conn)
              | None =>
                  (None,
                   setControlPlane (<[idx := h]> (ControlPlane s)) s, conn)
              end
          end
      end
  end.

End Investigation.

(* ===================================================================== *)
(** ** Vocabulary of the statements *)

Section ProberVocabulary.

Variable F : StatusFlags.

(** The four flags of which a decoded status word holds exactly one. *)
Definition subStateFlags : list Z :=
  [SystemDStatusRunning F; SystemDStatusRestarting F;
   SystemdDStatusDead F; SystemDStatusUnknown F].

Definition immutableOS (os : OperatingSystemName) : bool :=
  match os with
  | OperatingSystemNameFlatcar | OperatingSystemNameCoreOS => true
  | _ => false
  end.

Definition unknownOS (os : OperatingSystemName) : bool :=
  match os with
  | OperatingSystemNameOther _ => true
  | _ => false
  end.

(** The command each check selects for an operating-system family, when it
    runs one. *)
Definition dockerVersionCmdOf (os : OperatingSystemName) : option string :=
  match os with
  | OperatingSystemNameCentOS | OperatingSystemNameRHEL => Some dockerVersionRPM
  | OperatingSystemNameUbuntu => Some dockerVersionDPKG
  | _ => None
  end.

Definition kubeletVersionCmdOf (os : OperatingSystemName) : option string :=
  match os with
  | OperatingSystemNameCentOS | OperatingSystemNameRHEL => Some kubeletVersionRPM
  | OperatingSystemNameUbuntu => Some kubeletVersionDPKG
  | OperatingSystemNameFlatcar | OperatingSystemNameCoreOS =>
      Some kubeletVersionCLI
  | OperatingSystemNameOther _ => None
  end.

(** The reading of the marker-file command with the first case worded as
    "exit code 0 sets the bit and succeeds", whatever else is reported. *)
Definition exitZeroAlwaysInitializes : Prop :=
  forall (host : Host) (conn : Connection),
    let r := respond conn kubeletInitializedCMD in
    let res := detectKubeletInitialized F host conn in
    exitcode r = 0 ->
    res.1.1 = None
    /\ isSet (CStatus (Kubelet res.1.2)) (KubeletInitialized F) = true.

End ProberVocabulary.

(** The loops of [investigateCluster] in closed form: what each loop leaves
    behind, as a function of the lists it runs over. *)
Section ClosedForms.

Context {Members Client : Type}.
Variable F : StatusFlags.
Variable W : @Collaborators Members Client.

(** Clearing the leader flag behind each address of a list, in order. *)
Definition clearAll (ptrs : list nat) (mem : list HostConfig) : list HostConfig :=
  foldl (fun mem a => alter (setIsLeader false) a mem) mem ptrs.

(** What the API-server query reports for the host behind a live host. *)
Definition healthyAt (mem : list HostConfig) (h : Host) : bool :=
  Health (apiserverstatus_Get W (deref mem (Config h))).1.

(** The election loop over a list of hosts: the flag, the store, the hosts
    and the calls it leaves. *)
Fixpoint electOver (hosts : list Host) (leaderElected : bool)
    (mem : list HostConfig)
  : bool * list HostConfig * list Host * list Event :=
  match hosts with
  | [] => (leaderElected, mem, [], [])
  | h :: hosts =>
      let call := CallApiserverGet (deref mem (Config h)) in
      if healthyAt mem h then
        let mem' :=
          if leaderElected then mem
          else alter (setIsLeader true) (Config h) mem in
        let '(b, mem'', hs, evs) := electOver hosts true mem' in
        (b, mem'', orAPIServer (PodRunning F) h :: hs, call :: evs)
      else
        let '(b, mem'', hs, evs) := electOver hosts leaderElected mem in
        (b, mem'', h :: hs, call :: evs)
  end.

(** Both answers of the etcd query true, on a status that is not [nil]. *)
Definition memberAndHealthy (st : option EtcdStatus) : bool :=
  match st with
  | Some st => EtcdMember st && EtcdHealth st
  | None => false
  end.

Definition etcdOK (mem : list HostConfig) (etcdMembers : Members) (h : Host)
  : bool :=
  memberAndHealthy (etcdstatus_Get W (deref mem (Config h)) etcdMembers).1.

Definition etcdUpdate (mem : list HostConfig) (etcdMembers : Members)
    (h : Host) : Host :=
  if etcdOK mem etcdMembers h then orEtcd (PodRunning F) h else h.

(** A host after the loop that marks the hosts named [name]. *)
Definition markIf (mem : list HostConfig) (name : string) (h : Host) : Host :=
  if String.eqb name (Hostname (deref mem (Config h)))
  then markInCluster h else h.

(** A host after the loop over the node names. *)
Definition markNodes (known : gset string) (mem : list HostConfig)
    (nodes : list string) (h : Host) : Host :=
  foldl (fun h name =>
           if bool_decide (name ∈ known) then markIf mem name h else h)
        h nodes.

(** The host names behind the live hosts. *)
Definition hostnames (mem : list HostConfig) (cp : list Host) : list string :=
  (fun h => Hostname (deref mem (Config h))) <$> cp.

(** What the API-server query reports for a host once the flags are
    cleared: the configuration is passed with its leader flag off. *)
Definition reported (mem : list HostConfig) (h : Host) : bool :=
  Health (apiserverstatus_Get W (setIsLeader false (deref mem (Config h)))).1.

(** A live host after the election loop. *)
Definition apiUpdate (mem : list HostConfig) (h : Host) : Host :=
  if healthyAt mem h then orAPIServer (PodRunning F) h else h.

(** The store after the election loop. *)
Definition electedStore (hosts : list Host) (leaderElected : bool)
    (mem : list HostConfig) : list HostConfig :=
  if leaderElected then mem
  else match List.find (healthyAt mem) hosts with
       | Some h => alter (setIsLeader true) (Config h) mem
       | None => mem
       end.

(** The live hosts point at distinct configurations of the array, as
    [runProbes] builds them. *)
Definition wellFormed (s : @State Client) : bool :=
  bool_decide (NoDup (Config <$> ControlPlane s))
  && forallb (fun h => Nat.ltb (Config h) (length (Hosts s))) (ControlPlane s).

(** The leader flag of the configuration behind a live host. *)
Definition leaderFlag (s : @State Client) (h : Host) : bool :=
  IsLeader (deref (Hosts s) (Config h)).

(** The calls the election makes: one query per live host, in order, each
    on the host's configuration with its leader flag cleared. *)
Definition healthQueries (s : @State Client) : list Event :=
  (fun h => CallApiserverGet (setIsLeader false (deref (Hosts s) (Config h))))
    <$> ControlPlane s.

(** The collaborators with every error of the health query dropped. *)
Definition ignoringHealthErrors (W0 : @Collaborators Members Client)
  : @Collaborators Members Client :=
  mkCollaborators (IsProvisioned W0)
    (fun node => ((apiserverstatus_Get W0 node).1, None))
    (etcdstatus_MemberList W0) (etcdstatus_Get W0)
    (BuildKubernetesClientset W0) (DynamicClient_List W0).


(** The reading of the election with a failed health query worded as "a
    host whose query returns an error is handled like an unhealthy host",
    whatever status comes with the error: such a host has no PodRunning flag
    and is not the leader, and errors on every host give the quorum error. *)
Definition failedQueryIsUnhealthy (s : @State Client) : Prop :=
  let failed (h : Host) :=
    (apiserverstatus_Get W (setIsLeader false (deref (Hosts s) (Config h)))).2
    <> None in
  let res := investigateCluster F W s in
  wellFormed s = true ->
  IsProvisioned W (Hosts s) (ControlPlane s) = true ->
  (forall i h h',
      ControlPlane s !! i = Some h ->
      ControlPlane res.2 !! i = Some h' ->
      failed h ->
      isSet (PStatus (APIServer h')) (PodRunning F) = false
      /\ leaderFlag res.2 h' = false)
  /\ ((forall h, h ∈ ControlPlane s -> failed h) ->
      res.1 = Failed errQuorumLost).

(** A live host as the probes may have changed it: the configuration
    address, the two pod components and the membership mark are those of
    the host before. *)
Definition sameClusterFields (h h' : Host) : Prop :=
  Config h' = Config h /\ APIServer h' = APIServer h
  /\ Etcd h' = Etcd h /\ IsInCluster h' = IsInCluster h.

(** A live host as [runProbes] creates it, as far as the reconciliation
    is concerned: not marked, no pod flag. *)
Definition unmarked (h : Host) : Prop :=
  IsInCluster h = false /\ PStatus (APIServer h) = 0 /\ PStatus (Etcd h) = 0.

End ClosedForms.

(* ===================================================================== *)
(** ** Vocabulary of the statements on the investigation *)

Definition dockerVersionCommands : list string :=
  [dockerVersionRPM; dockerVersionDPKG].

Definition kubeletVersionCommands : list string :=
  [kubeletVersionRPM; kubeletVersionDPKG; kubeletVersionCLI].

(** No command, or one command of a list. *)
Definition atMostOneOf (cmds l : list string) : Prop :=
  l = [] \/ exists c, l = [c] /\ c ∈ cmds.

(** The commands of a complete investigation of a host, in order, given the
    version commands the two checks ran. *)
Definition probeTrace (dv kv : list string) : list string :=
  [systemdShowStatusCMD "docker"] ++ dv
  ++ [systemdShowStatusCMD "kubelet"] ++ kv ++ [kubeletInitializedCMD].

(** A live host after a reconciliation, against the host before: the
    address and the two probed components are the same, the pod status
    words have every bit they had, and a mark stays. *)
Definition grows (h h' : Host) : Prop :=
  Config h' = Config h
  /\ ContainerRuntime h' = ContainerRuntime h
  /\ Kubelet h' = Kubelet h
  /\ Z.land (PStatus (APIServer h)) (PStatus (APIServer h'))
     = PStatus (APIServer h)
  /\ Z.land (PStatus (Etcd h)) (PStatus (Etcd h')) = PStatus (Etcd h)
  /\ (IsInCluster h = true -> IsInCluster h' = true).

Section Investigations.

Context {Client : Type}.
Variable F : StatusFlags.
Variable L : Libraries.

(** The states reached from a state by investigations run one after
    another: any number of them, of any hosts, over any connections. *)
Inductive probed (s : @State Client) : @State Client -> Prop :=
| probed_refl : probed s s
| probed_step (s' : @State Client) (node : HostConfig) (conn : Connection) :
    probed s s' -> probed s (investigateHost F L s' node conn).1.2.

End Investigations.

Section Reconciliation.

Context {Members Client : Type}.
Variable F : StatusFlags.
Variable W : @Collaborators Members Client.

(** A live host after the three loops of a reconciliation that reports:
    [mem1] is the store the election reads, [mem2] the store it leaves. *)
Definition reconciled (mem1 mem2 : list HostConfig) (etcdMembers : Members)
    (known : gset string) (nodes : list string) (h : Host) : Host :=
  markNodes known mem2 nodes
    (etcdUpdate F W mem2 etcdMembers (apiUpdate F W mem1 h)).

End Reconciliation.

(* ===================================================================== *)
(** ** The probe task *)

Section Probes.

Context {Members Client : Type}.
Variable F : StatusFlags.
Variable L : Libraries.
Variable W : @Collaborators Members Client.

(** [s.RunTaskOnControlPlane(investigateHost, state.RunParallel)].  The
    runner belongs to the state package: it is given the state and answers
    with its error and the state the investigations left. *)
Variable RunTaskOnControlPlane
  : @State Client -> option error * @State Client.

(** [runProbes], for the Kubernetes version of the configuration.  The
    second component is [LiveCluster.ExpectedVersion]; it is [None] when
    the function returns before it creates the live cluster. *)
Definition runProbes (kubernetes : string) (s : @State Client)
  : option error * option Version * @State Client :=
  match semver_NewVersion L kubernetes with
  | inr err => (Some err, None, s)
  | inl expectedVersion =>
      let s := setControlPlane (newLiveCluster (Hosts s)) s in
      match RunTaskOnControlPlane s with
      | (Some err, s) => (Some err, Some expectedVersion, s)
      | (None, s) =>
          if IsProvisioned W (Hosts s) (ControlPlane s)
          then match investigateCluster F W s with
               | (Failed err, s) => (Some err, Some expectedVersion, s)
               | (Reported _ _, s) => (None, Some expectedVersion, s)
               end
          else (None, Some expectedVersion, s)
      end
  end.

End Probes.

(* ===================================================================== *)
(** ** Concrete instances

    Stand-ins for the parameters, used to run the embedding on concrete
    inputs. *)

(** Eight one-bit flags. *)
Definition flags8 : StatusFlags := mkStatusFlags 8 16 32 4 2 1 64 128.

Definition isSpace (c : ascii) : bool :=
  match c with
  | " "%char | "009"%char | "010"%char | "011"%char | "012"%char
  | "013"%char => true
  | _ => false
  end.

Fixpoint trimLeft (s : string) : string :=
  match s with
  | String c s' => if isSpace c then trimLeft s' else s
  | EmptyString => EmptyString
  end.

Fixpoint trimRight (s : string) : string :=
  match s with
  | String c s' =>
      match trimRight s' with
      | EmptyString => if isSpace c then EmptyString else String c EmptyString
      | t => String c t
      end
  | EmptyString => EmptyString
  end.

(** Trimming of ASCII white space. *)
Definition trimSpaceAscii (s : string) : string := trimRight (trimLeft s).

(** The text up to the first occurrence of [sep], and the text after it. *)
Fixpoint cut (s : string) (sep : ascii) : string * option string :=
  match s with
  | EmptyString => (EmptyString, None)
  | String c s' =>
      if Ascii.eqb c sep then (EmptyString, Some s')
      else let '(a, b) := cut s' sep in (String c a, b)
  end.

Fixpoint splitLines (fuel : nat) (s : string) : list string :=
  match fuel with
  | O => [s]
  | S fuel =>
      match cut s "010"%char with
      | (l, Some rest) => l :: splitLines fuel rest
      | (l, None) => [l]
      end
  end.

(** A decoder of [key: value] lines: a line without a colon is refused. *)
Fixpoint decodeLines (ls : list string) : gmap string string + error :=
  match ls with
  | [] => inl ∅
  | l :: ls =>
      if String.eqb (trimSpaceAscii l) "" then decodeLines ls
      else
        match cut l ":"%char, decodeLines ls with
        | (k, Some v), inl m => inl (<[trimSpaceAscii k := trimSpaceAscii v]> m)
        | (_, None), _ => inr (errors_New "yaml: could not find expected ':'")
        | _, inr e => inr e
        end
  end.

Definition yamlLines (out : string) : gmap string string + error :=
  decodeLines (splitLines (String.length out) out).

Definition isDigit (c : ascii) : bool :=
  (48 <=? Z.of_nat (nat_of_ascii c)) && (Z.of_nat (nat_of_ascii c) <=? 57).

(** A version parser that accepts a text starting with a digit and answers
    every other text with one fixed error. *)
Definition parseLeadingDigit (v : string) : Version + error :=
  match v with
  | String c _ =>
      if isDigit c then inl (mkVersion 0 0 0 "" "" v)
      else inr (errors_New "Invalid Semantic Version")
  | EmptyString => inr (errors_New "Invalid Semantic Version")
  end.

Definition libs : Libraries :=
  mkLibraries yamlLines parseLeadingDigit trimSpaceAscii.

(** A remote host that answers from a table; an unknown command exits 127. *)
Fixpoint answer (table : list (string * ExecResult)) (cmd : string)
  : ExecResult :=
  match table with
  | [] => mkExecResult "" "command not found" 127 None
  | (c, r) :: table => if String.eqb c cmd then r else answer table cmd
  end.

Definition connect (table : list (string * ExecResult)) : Connection :=
  mkConnection (answer table) [].

Definition ok (out : string) : ExecResult := mkExecResult out "" 0 None.

Definition statusText (load active sub : string) : string :=
  "LoadState=" +:+ load +:+ "
ActiveState=" +:+ active +:+ "
SubState=" +:+ sub +:+ "
".

(** A host whose docker and kubelet answer as loaded, active and running. *)
Definition runningTable (dockerVersion kubeletVersion : string * ExecResult)
  : list (string * ExecResult) :=
  [(systemdShowStatusCMD "docker", ok (statusText "loaded" "active" "running"));
   (systemdShowStatusCMD "kubelet", ok (statusText "loaded" "active" "running"));
   dockerVersion; kubeletVersion;
   (kubeletInitializedCMD, ok "")].

(** An Ubuntu host whose package queries answer with a version. *)
Definition ubuntuConn : Connection :=
  connect (runningTable (dockerVersionDPKG, ok "19.03.5
") (kubeletVersionDPKG, ok "1.17.3
")).

(** An Ubuntu host whose package queries answer with a text that is no
    version. *)
Definition brokenConn : Connection :=
  connect (runningTable (dockerVersionDPKG, ok "no packages found
")
                        (kubeletVersionDPKG, ok "no packages found
")).

(** A Flatcar host. *)
Definition flatcarConn : Connection :=
  connect (runningTable (dockerVersionDPKG, ok "")
                        (kubeletVersionCLI, ok "v1.17.3
")).

(** The marker-file command answered with an exit code and, maybe, an
    error. *)
Definition markerConn (code : Z) (err : option error) : Connection :=
  connect [(kubeletInitializedCMD, mkExecResult "" "" code err)].

Definition oneHost (os : OperatingSystemName) : list HostConfig :=
  [mkHostConfig "node1" os false].

(** A table keyed by host name, with a default answer. *)
Fixpoint lookupBy {A : Type} (table : list (string * A)) (d : A)
    (name : string) : A :=
  match table with
  | [] => d
  | (k, a) :: table => if String.eqb k name then a else lookupBy table d name
  end.

Definition errRefused : error := errors_New "connection refused".

(** Collaborators that answer from tables keyed by host name.  A cluster
    counts as provisioned when the container runtime and the kubelet of
    some host are installed; a host missing from the health table is not
    reachable; a host missing from the etcd table has no status. *)
Definition tableCollaborators
    (health : list (string * (ApiserverStatus * option error)))
    (members : list string + error)
    (etcd : list (string * (option EtcdStatus * option error)))
    (client : unit + error)
    (nodes : list string + error)
  : @Collaborators (list string) unit :=
  mkCollaborators
    (fun _ cp =>
       existsb (fun h =>
                  isSet (CStatus (ContainerRuntime h)) (ComponentInstalled flags8)
                  && isSet (CStatus (Kubelet h)) (ComponentInstalled flags8))
               cp)
    (fun node =>
       lookupBy health (mkApiserverStatus false, Some errRefused)
                (Hostname node))
    members
    (fun node _ => lookupBy etcd (None, Some errRefused) (Hostname node))
    client
    (fun _ => nodes).

Definition healthy : ApiserverStatus * option error :=
  (mkApiserverStatus true, None).

Definition unhealthy : ApiserverStatus * option error :=
  (mkApiserverStatus false, None).

Definition member : option EtcdStatus * option error :=
  (Some (mkEtcdStatus true true), None).

(** A probed host: runtime and kubelet loaded, active and running. *)
Definition probedHost (i : nat) : Host :=
  mkHost i (mkComponentStatus None 56) (mkComponentStatus None 56)
         (mkContainerStatus 0) (mkContainerStatus 0) false.

(** Three Ubuntu hosts in order; the last one still carries a leader flag
    from the configuration. *)
Definition configsOf (a b c : string) : list HostConfig :=
  [mkHostConfig a OperatingSystemNameUbuntu false;
   mkHostConfig b OperatingSystemNameUbuntu false;
   mkHostConfig c OperatingSystemNameUbuntu true].

Definition clusterOf (a b c : string) : @State unit :=
  mkState (configsOf a b c) (probedHost <$> [0; 1; 2]%nat) None [].

(** Hosts A (unhealthy), B (healthy), C (healthy); etcd answers for A and B
    and fails for C; the live nodes are B, C and D. *)
Definition abcWorld : @Collaborators (list string) unit :=
  tableCollaborators
    [("A", unhealthy); ("B", healthy); ("C", healthy)]
    (inl ["A"; "B"])
    [("A", member); ("B", member)]
    (inl tt)
    (inl ["B"; "C"; "D"]).

(** No host answers the health query. *)
Definition downWorld : @Collaborators (list string) unit :=
  tableCollaborators [] (inl []) [] (inl tt) (inl []).

(** The member list cannot be fetched. *)
Definition noMembersWorld : @Collaborators (list string) unit :=
  tableCollaborators
    [("A", unhealthy); ("B", healthy); ("C", healthy)]
    (inr errRefused) [] (inl tt) (inl []).

(** Configured h1, h2, h3; live h2, h3, h4. *)
Definition driftWorld : @Collaborators (list string) unit :=
  tableCollaborators
    [("h1", healthy); ("h2", healthy); ("h3", healthy)]
    (inl ["h1"; "h2"; "h3"])
    [("h1", member); ("h2", member); ("h3", member)]
    (inl tt)
    (inl ["h2"; "h3"; "h4"]).

(** Every health query fails with an error, and the status that comes
    with the error reports health. *)
Definition staleHealthWorld : @Collaborators (list string) unit :=
  tableCollaborators
    [("A", (mkApiserverStatus true, Some errRefused));
     ("B", (mkApiserverStatus true, Some errRefused));
     ("C", (mkApiserverStatus true, Some errRefused))]
    (inl ["A"; "B"; "C"])
    [("A", member); ("B", member); ("C", member)]
    (inl tt)
    (inl ["A"; "B"; "C"]).

(** A remote host that knows no command: every answer is empty. *)
Definition silentConn : Connection := connect [].

(** A remote host that cannot be reached: the status queries report an
    error. *)
Definition unreachableConn : Connection :=
  connect
    [(systemdShowStatusCMD "docker", mkExecResult "" "" (-1) (Some errRefused));
     (systemdShowStatusCMD "kubelet", mkExecResult "" "" (-1) (Some errRefused))].

(** A remote host that answers the docker status query with the separators
    already written out, and exit code 3. *)
Definition colonConn : Connection :=
  connect
    [(systemdShowStatusCMD "docker",
      mkExecResult "LoadState: loaded
ActiveState: active
SubState: running
" "" 3 None)].

(** An Ubuntu host whose package queries report an error. *)
Definition failingQueryConn : Connection :=
  connect (runningTable
             (dockerVersionDPKG, mkExecResult "" "" 1 (Some errRefused))
             (kubeletVersionDPKG, mkExecResult "" "" 1 (Some errRefused))).

(** The three hosts as [runProbes] sets them up, before any probe. *)
Definition freshCluster (a b c : string) : @State unit :=
  mkState (configsOf a b c) (newLiveCluster (configsOf a b c)) None [].

(** The three probed hosts, with a client at hand. *)
Definition connectedCluster (a b c : string) : @State unit :=
  mkState (configsOf a b c) (probedHost <$> [0; 1; 2]%nat) (Some tt) [].

(** As [abcWorld], but no client can be built. *)
Definition noClientWorld : @Collaborators (list string) unit :=
  tableCollaborators
    [("A", unhealthy); ("B", healthy); ("C", healthy)]
    (inl ["A"; "B"])
    [("A", member); ("B", member)]
    (inr errRefused)
    (inl ["B"; "C"; "D"]).

(** As [abcWorld], but the nodes cannot be listed. *)
Definition noNodesWorld : @Collaborators (list string) unit :=
  tableCollaborators
    [("A", unhealthy); ("B", healthy); ("C", healthy)]
    (inl ["A"; "B"])
    [("A", member); ("B", member)]
    (inl tt)
    (inr errRefused).

(** A runner that investigates two hosts, one after the other, and answers
    with the first error. *)
Definition investigateTwo (a b : HostConfig * Connection) (s : @State unit)
  : option error * @State unit :=
  let r1 := investigateHost flags8 libs s a.1 a.2 in
  let r2 := investigateHost flags8 libs r1.1.2 b.1 b.2 in
  (match r1.1.1 with Some err => Some err | None => r2.1.1 end, r2.1.2).

Definition hostA : HostConfig := mkHostConfig "A" OperatingSystemNameUbuntu false.
Definition hostC : HostConfig := mkHostConfig "C" OperatingSystemNameUbuntu true.

(* ===================================================================== *)
(** ** Status words *)

Section FlagFacts.

Variable F : StatusFlags.
Hypothesis HF : independentFlags F = true.

Lemma isSet_lor (a b f : Z) : isSet (Z.lor a b) f = isSet a f || isSet b f.
Proof.
  unfold isSet. rewrite Z.land_lor_distr_l.
  destruct (Z.eqb_spec (Z.land a f) 0) as [Ha | Ha],
           (Z.eqb_spec (Z.land b f) 0) as [Hb | Hb]; simpl.
  - rewrite Ha, Hb. reflexivity.
  - rewrite Ha, Z.lor_0_l. apply negb_true_iff, Z.eqb_neq, Hb.
  - apply negb_true_iff, Z.eqb_neq. intros H. apply Z.lor_eq_0_iff in H. tauto.
  - apply negb_true_iff, Z.eqb_neq. intros H. apply Z.lor_eq_0_iff in H. tauto.
Qed.

Lemma isSet_0 (f : Z) : isSet 0 f = false.
Proof. unfold isSet. rewrite Z.land_0_l. reflexivity. Qed.

Lemma isSet_self (f : Z) : 0 < f -> isSet f f = true.
Proof.
  intros Hf. unfold isSet. rewrite Z.land_diag.
  apply negb_true_iff, Z.eqb_neq. lia.
Qed.

Lemma isSet_comm_false (a b : Z) : Z.land a b = 0 -> isSet b a = false.
Proof.
  intros H. unfold isSet. rewrite Z.land_comm, H. reflexivity.
Qed.

Lemma isSet_disjoint (a b : Z) : Z.land a b = 0 -> isSet a b = false.
Proof. intros H. unfold isSet. rewrite H. reflexivity. Qed.

(** The facts [independentFlags] packs, one per flag and per pair. *)
Lemma flags_positive : Forall (fun x => 0 < x) (allFlags F).
Proof.
  unfold independentFlags in HF. apply andb_true_iff in HF as [Hpos _].
  rewrite forallb_forall in Hpos. apply List.Forall_forall. intros x Hx.
  specialize (Hpos x Hx). apply andb_true_iff in Hpos as [Hpos _].
  apply Z.ltb_lt, Hpos.
Qed.

Lemma disjointFrom_spec (x : Z) (l : list Z) :
  disjointFrom x l = true -> Forall (fun y => Z.land x y = 0) l.
Proof.
  induction l as [| y l IH]; simpl; intros H; constructor.
  - apply andb_true_iff in H as [H _]. apply Z.eqb_eq, H.
  - apply IH. apply andb_true_iff in H as [_ H]. exact H.
Qed.

Lemma flags_disjoint :
  pairwiseDisjoint (allFlags F) = true.
Proof.
  unfold independentFlags in HF. apply andb_true_iff in HF as [_ H]. exact H.
Qed.

End FlagFacts.

(** Rewrites the test of a flag in a status word built with [Z.lor] from
    the independent flags of [F]. *)
Ltac flag_tests F HF :=
  let Hpos := fresh "Hpos" in
  let Hdis := fresh "Hdis" in
  pose proof (flags_positive F HF) as Hpos;
  pose proof (flags_disjoint F HF) as Hdis;
  unfold allFlags in Hpos, Hdis; simpl in Hdis;
  repeat rewrite andb_true_iff in Hdis; rewrite ?Z.eqb_eq in Hdis;
  destruct_and!;
  repeat match goal with
         | H : Forall _ (_ :: _) |- _ =>
             let Hx := fresh "Hp" in
             apply Forall_cons in H as [Hx H]
         end;
  rewrite ?isSet_lor, ?isSet_0;
  repeat match goal with
         | H : 0 < ?f |- _ => rewrite (isSet_self f H)
         | H : Z.land ?a ?b = 0 |- _ =>
             first [ rewrite (isSet_disjoint a b H)
                   | rewrite (isSet_comm_false a b H) ]
         end;
  simpl.

(* ===================================================================== *)
(** ** Properties of the host probers *)

Section ProberProperties.

Variable F : StatusFlags.
Variable L : Libraries.

Lemma decodeStatus_substate (m : gmap string string) :
  independentFlags F = true ->
  let status := decodeStatus F m in
  length (List.filter (isSet status) (subStateFlags F)) = 1%nat
  /\ (isSet status (SystemDStatusRunning F) = true
      <-> index m "SubState" = "running")
  /\ (isSet status (SystemDStatusRestarting F) = true
      <-> index m "SubState" = "auto-restart")
  /\ (isSet status (SystemdDStatusDead F) = true
      <-> index m "SubState" = "dead")
  /\ (isSet status (SystemDStatusUnknown F) = true
      <-> index m "SubState" <> "running"
          /\ index m "SubState" <> "auto-restart"
          /\ index m "SubState" <> "dead").
Proof.
  intros HF status. subst status. unfold decodeStatus, subStateFlags.
  destruct (String.eqb_spec (index m "SubState") "running") as [E1 | E1];
  [| destruct (String.eqb_spec (index m "SubState") "auto-restart") as [E2 | E2];
     [| destruct (String.eqb_spec (index m "SubState") "dead") as [E3 | E3]]];
  destruct (String.eqb (index m "LoadState") "loaded");
  destruct (String.eqb (index m "ActiveState") "active"
            || String.eqb (index m "ActiveState") "activating");
  simpl List.filter; flag_tests F HF;
  try rewrite E1; try rewrite E2; try rewrite E3;
  repeat split; intros; try congruence; try discriminate; try tauto.
Qed.

(** C3. Whenever [systemdStatus] decodes the status text, the status word
    has exactly one of the flags Running, Restarting, Dead and Unknown:
    Running exactly when SubState is "running", Restarting exactly when it is
    "auto-restart", Dead exactly when it is "dead", and Unknown exactly when
    it is none of the three. *)
Theorem systemdStatus_exactly_one_substate
    (conn conn' : Connection) (service : string) (status : Z) :
  independentFlags F = true ->
  systemdStatus F L conn service = ((status, None), conn') ->
  exists m : gmap string string,
    yaml_Unmarshal L
      (strings_ReplaceAll
         (stdout (respond conn (systemdShowStatusCMD service))) "="%char ": ")
    = inl m
    /\ length (List.filter (isSet status) (subStateFlags F)) = 1%nat
    /\ (isSet status (SystemDStatusRunning F) = true
        <-> index m "SubState" = "running")
    /\ (isSet status (SystemDStatusRestarting F) = true
        <-> index m "SubState" = "auto-restart")
    /\ (isSet status (SystemdDStatusDead F) = true
        <-> index m "SubState" = "dead")
    /\ (isSet status (SystemDStatusUnknown F) = true
        <-> index m "SubState" <> "running"
            /\ index m "SubState" <> "auto-restart"
            /\ index m "SubState" <> "dead").
Proof.
  intros HF. unfold systemdStatus, Exec.
  destruct (execErr (respond conn (systemdShowStatusCMD service))); [discriminate |].
  destruct (yaml_Unmarshal L _) as [m | e] eqn:Hm; [| discriminate].
  intros H. injection H as Hst _. subst status.
  exists m. split; [reflexivity |]. apply decodeStatus_substate, HF.
Qed.

(** The status query runs one command, whatever it answers. *)
Lemma systemdStatus_issued (conn : Connection) (service : string) :
  snd (systemdStatus F L conn service)
  = mkConnection (respond conn)
                 (issued conn ++ [systemdShowStatusCMD service]).
Proof.
  unfold systemdStatus, Exec.
  destruct (execErr _); [reflexivity |].
  destruct (yaml_Unmarshal L _); reflexivity.
Qed.

Lemma installed_test (status : Z) :
  isSet status (ComponentInstalled F) = true ->
  (Z.land status (ComponentInstalled F) =? 0) = false.
Proof. unfold isSet. intros H. apply negb_true_iff, H. Qed.

(** C6. On a host of the immutable-OS family whose component is installed,
    the container-runtime check runs the status command only and assigns the
    zero version, while the kubelet check runs the status command and then
    the kubelet CLI self-report command.  On a host of any other, unknown
    family both checks run the status command only, report no error and
    leave the version as it was. *)
Theorem version_commands_by_os_family
    (mem : list HostConfig) (host : Host) (conn : Connection) :
  let os := OperatingSystem (deref mem (Config host)) in
  (forall status conn',
      systemdStatus F L conn "docker" = ((status, None), conn') ->
      (immutableOS os = true ->
       isSet status (ComponentInstalled F) = true ->
       detectDockerStatusVersion F L mem host conn
       = (None,
          setContainerRuntime host (mkComponentStatus (Some zeroVersion) status),
          conn')
       /\ issued conn' = issued conn ++ [systemdShowStatusCMD "docker"])
      /\ (unknownOS os = true ->
          detectDockerStatusVersion F L mem host conn
          = (None,
             setContainerRuntime host
               (mkComponentStatus (CVersion (ContainerRuntime host)) status),
             conn')
          /\ issued conn' = issued conn ++ [systemdShowStatusCMD "docker"]))
  /\
  (forall status conn',
      systemdStatus F L conn "kubelet" = ((status, None), conn') ->
      (immutableOS os = true ->
       isSet status (ComponentInstalled F) = true ->
       issued (snd (detectKubeletStatusVersion F L mem host conn))
       = issued conn ++ [systemdShowStatusCMD "kubelet"; kubeletVersionCLI])
      /\ (unknownOS os = true ->
          detectKubeletStatusVersion F L mem host conn
          = (None,
             setKubelet host
               (mkComponentStatus (CVersion (Kubelet host)) status),
             conn')
          /\ issued conn' = issued conn ++ [systemdShowStatusCMD "kubelet"])).
Proof.
  intros os. split; intros status conn' Hsys;
    pose proof (systemdStatus_issued conn) as Hiss;
    (split; [intros Hos Hinst | intros Hos]).
  - unfold detectDockerStatusVersion. rewrite Hsys. simpl.
    rewrite (installed_test _ Hinst).
    specialize (Hiss "docker"). rewrite Hsys in Hiss. simpl in Hiss.
    fold os. destruct os; try discriminate; (split; [reflexivity |]);
      subst conn'; reflexivity.
  - unfold detectDockerStatusVersion. rewrite Hsys. simpl.
    specialize (Hiss "docker"). rewrite Hsys in Hiss. simpl in Hiss.
    fold os. destruct os; try discriminate.
    destruct (Z.land status (ComponentInstalled F) =? 0);
      (split; [reflexivity |]); subst conn'; reflexivity.
  - unfold detectKubeletStatusVersion. rewrite Hsys. simpl.
    rewrite (installed_test _ Hinst).
    specialize (Hiss "kubelet"). rewrite Hsys in Hiss. simpl in Hiss.
    fold os. subst conn'.
    destruct os; try discriminate; unfold Exec; simpl;
      destruct (execErr _); simpl; try (rewrite <- app_assoc; reflexivity);
      destruct (semver_NewVersion L _); simpl; rewrite <- app_assoc; reflexivity.
  - unfold detectKubeletStatusVersion. rewrite Hsys. simpl.
    specialize (Hiss "kubelet"). rewrite Hsys in Hiss. simpl in Hiss.
    fold os. destruct os; try discriminate.
    destruct (Z.land status (ComponentInstalled F) =? 0);
      (split; [reflexivity |]); subst conn'; reflexivity.
Qed.

(** The status command is not one of the version-extraction commands. *)
Lemma systemdShowStatusCMD_not_version (service : string) :
  systemdShowStatusCMD service ∉ versionCommands.
Proof.
  unfold versionCommands. rewrite !not_elem_of_cons. repeat split;
    try discriminate. apply not_elem_of_nil.
Qed.

(** When the container-runtime check runs a version command, it parses the
    trimmed output; a parse error is wrapped together with the raw output. *)
Lemma detectDockerStatusVersion_parses
    (mem : list HostConfig) (host : Host) (conn conn' : Connection)
    (status : Z) (cmd : string) :
  systemdStatus F L conn "docker" = ((status, None), conn') ->
  isSet status (ComponentInstalled F) = true ->
  dockerVersionCmdOf (OperatingSystem (deref mem (Config host))) = Some cmd ->
  execErr (respond conn cmd) = None ->
  let out := stdout (respond conn cmd) in
  detectDockerStatusVersion F L mem host conn
  = match semver_NewVersion L (strings_TrimSpace L out) with
    | inl ver =>
        (None, setContainerRuntime host (mkComponentStatus (Some ver) status),
         (Exec conn' cmd).2)
    | inr err =>
        (Some (errors_Wrapf err "version was: %q" out),
         setContainerRuntime host
           (mkComponentStatus (CVersion (ContainerRuntime host)) status),
         (Exec conn' cmd).2)
    end.
Proof.
  intros Hsys Hinst Hcmd Herr out.
  pose proof (systemdStatus_issued conn "docker") as Hiss.
  rewrite Hsys in Hiss. simpl in Hiss. subst conn'.
  unfold detectDockerStatusVersion. rewrite Hsys. simpl.
  rewrite (installed_test _ Hinst).
  destruct (OperatingSystem (deref mem (Config host))); simpl in Hcmd;
    try discriminate; injection Hcmd as <-; unfold Exec; simpl;
    rewrite Herr; fold out;
    destruct (semver_NewVersion L (strings_TrimSpace L out)); reflexivity.
Qed.

(** When the kubelet check runs a version command, it parses the trimmed
    output; a parse error is returned as the parser made it. *)
Lemma detectKubeletStatusVersion_parses
    (mem : list HostConfig) (host : Host) (conn conn' : Connection)
    (status : Z) (cmd : string) :
  systemdStatus F L conn "kubelet" = ((status, None), conn') ->
  isSet status (ComponentInstalled F) = true ->
  kubeletVersionCmdOf (OperatingSystem (deref mem (Config host))) = Some cmd ->
  execErr (respond conn cmd) = None ->
  let out := stdout (respond conn cmd) in
  detectKubeletStatusVersion F L mem host conn
  = match semver_NewVersion L (strings_TrimSpace L out) with
    | inl ver =>
        (None, setKubelet host (mkComponentStatus (Some ver) status),
         (Exec conn' cmd).2)
    | inr err =>
        (Some err,
         setKubelet host (mkComponentStatus (CVersion (Kubelet host)) status),
         (Exec conn' cmd).2)
    end.
Proof.
  intros Hsys Hinst Hcmd Herr out.
  pose proof (systemdStatus_issued conn "kubelet") as Hiss.
  rewrite Hsys in Hiss. simpl in Hiss. subst conn'.
  unfold detectKubeletStatusVersion. rewrite Hsys. simpl.
  rewrite (installed_test _ Hinst).
  destruct (OperatingSystem (deref mem (Config host))); simpl in Hcmd;
    try discriminate; injection Hcmd as <-; unfold Exec; simpl;
    rewrite Herr; fold out;
    destruct (semver_NewVersion L (strings_TrimSpace L out)); reflexivity.
Qed.

(** C4, as amended. The kubelet-initialized check reads the result of the
    marker-file command three ways: exit code 0 with no reported error sets
    the Initialized bit and succeeds; a positive exit code leaves the host as
    it was and is not an error; a reported error together with a negative
    exit code is returned as the error and leaves the host as it was. *)
Theorem detectKubeletInitialized_three_way (host : Host) (conn : Connection) :
  independentFlags F = true ->
  let r := respond conn kubeletInitializedCMD in
  let res := detectKubeletInitialized F host conn in
  (exitcode r = 0 -> execErr r = None ->
   res.1.1 = None
   /\ CStatus (Kubelet res.1.2)
      = Z.lor (CStatus (Kubelet host)) (KubeletInitialized F)
   /\ isSet (CStatus (Kubelet res.1.2)) (KubeletInitialized F) = true)
  /\ (0 < exitcode r -> res.1.1 = None /\ res.1.2 = host)
  /\ (exitcode r < 0 -> execErr r <> None ->
      res.1.1 = execErr r /\ res.1.2 = host).
Proof.
  intros HF r res. subst res. unfold detectKubeletInitialized, Exec. fold r.
  assert (Hinit : forall st, isSet (Z.lor st (KubeletInitialized F))
                               (KubeletInitialized F) = true).
  { intros st. rewrite isSet_lor.
    pose proof (flags_positive F HF) as Hpos. unfold allFlags in Hpos.
    rewrite !Forall_cons in Hpos. destruct_and!.
    rewrite (isSet_self (KubeletInitialized F)) by assumption.
    apply orb_true_r. }
  split; [| split].
  - intros H0 He. rewrite He, H0. simpl. rewrite Hinit. auto.
  - intros Hpos. destruct (notNil (execErr r)); simpl;
      destruct (Z.leb_spec (exitcode r) 0); try lia;
      destruct (Z.eqb_spec (exitcode r) 0); try lia; auto.
  - intros Hneg He. destruct (execErr r); [| congruence]. simpl.
    destruct (Z.leb_spec (exitcode r) 0); [auto | lia].
Qed.

(** C10. In the kubelet-initialized check the error branch is taken exactly
    when an error is reported together with an exit code that is at most 0,
    exit code 0 included, and it returns the reported error; the Initialized
    bit gets set exactly when the exit code is 0 and no error was reported. *)
Theorem detectKubeletInitialized_error_branch (host : Host) (conn : Connection) :
  independentFlags F = true ->
  isSet (CStatus (Kubelet host)) (KubeletInitialized F) = false ->
  let r := respond conn kubeletInitializedCMD in
  let res := detectKubeletInitialized F host conn in
  (res.1.1 <> None <-> execErr r <> None /\ exitcode r <= 0)
  /\ (execErr r <> None -> exitcode r <= 0 ->
      res.1.1 = execErr r /\ res.1.2 = host)
  /\ (execErr r <> None -> exitcode r = 0 ->
      res.1.1 = execErr r /\ res.1.2 = host)
  /\ (isSet (CStatus (Kubelet res.1.2)) (KubeletInitialized F) = true
      <-> exitcode r = 0 /\ execErr r = None).
Proof.
  intros HF Hunset r res. subst res. unfold detectKubeletInitialized, Exec.
  fold r.
  assert (Hinit : forall st, isSet (Z.lor st (KubeletInitialized F))
                               (KubeletInitialized F) = true).
  { intros st. rewrite isSet_lor.
    pose proof (flags_positive F HF) as Hpos. unfold allFlags in Hpos.
    rewrite !Forall_cons in Hpos. destruct_and!.
    rewrite (isSet_self (KubeletInitialized F)) by assumption.
    apply orb_true_r. }
  destruct (execErr r) as [e |] eqn:He; simpl;
    destruct (Z.leb_spec (exitcode r) 0) as [Hle | Hgt];
    destruct (Z.eqb_spec (exitcode r) 0) as [H0 | Hn0]; simpl;
    rewrite ?Hinit, ?Hunset;
    repeat split; intros; destruct_and?; try congruence; try lia;
    try discriminate.
Qed.

End ProberProperties.

(* ===================================================================== *)
(** ** The loops of the reconciliation in closed form *)

Lemma alter_middle {A : Type} (f : A -> A) (pre : list A) (x : A) (rest : list A) :
  alter f (length pre) (pre ++ x :: rest) = pre ++ f x :: rest.
Proof.
  rewrite <- (Nat.add_0_r (length pre)). rewrite alter_app_r. reflexivity.
Qed.

Lemma snoc_middle {A : Type} (pre : list A) (x : A) (rest : list A) :
  pre ++ x :: rest = (pre ++ [x]) ++ rest.
Proof. rewrite <- app_assoc. reflexivity. Qed.

Lemma length_snoc {A : Type} (pre : list A) (x : A) :
  S (length pre) = length (pre ++ [x]).
Proof. rewrite length_app. simpl. lia. Qed.

Section ClusterLoops.

Context {Members Client : Type}.
Variable F : StatusFlags.
Variable W : @Collaborators Members Client.

Lemma clear_loop_from (pre rest : list Host) (mem : list HostConfig)
    (c : option Client) (j : list Event) :
  foldl (fun s i => storeIsLeader false i s) (mkState mem (pre ++ rest) c j)
        (seq (length pre) (length rest))
  = mkState (clearAll (Config <$> rest) mem) (pre ++ rest) c j.
Proof.
  revert pre mem. induction rest as [| x rest IH]; intros pre mem; simpl.
  - reflexivity.
  - unfold storeIsLeader at 2. unfold setHosts. simpl.
    rewrite list_lookup_total_middle by reflexivity.
    rewrite (snoc_middle pre x rest), (length_snoc pre x).
    apply IH.
Qed.

Lemma clear_loop (cp : list Host) (mem : list HostConfig)
    (c : option Client) (j : list Event) :
  forRange (length cp) (storeIsLeader false) (mkState mem cp c j)
  = mkState (clearAll (Config <$> cp) mem) cp c j.
Proof. apply (clear_loop_from [] cp). Qed.

Lemma electStep_middle (pre rest : list Host) (x : Host) (b : bool)
    (mem : list HostConfig) (c : option Client) (j : list Event) :
  electStep F W (length pre) (b, mkState mem (pre ++ x :: rest) c j)
  = if healthyAt W mem x
    then (true,
          mkState
            (if b then mem else alter (setIsLeader true) (Config x) mem)
            (pre ++ orAPIServer (PodRunning F) x :: rest) c
            (j ++ [CallApiserverGet (deref mem (Config x))]))
    else (b,
          mkState mem (pre ++ x :: rest) c
            (j ++ [CallApiserverGet (deref mem (Config x))])).
Proof.
  unfold electStep, healthyAt, record. cbn [Hosts ControlPlane DynamicClient journal].
  rewrite list_lookup_total_middle by reflexivity.
  destruct (apiserverstatus_Get W (deref mem (Config x))) as [st e].
  cbn [fst]. destruct (Health st); [| reflexivity].
  unfold storeIsLeader, setHosts, setControlPlane.
  cbn [Hosts ControlPlane DynamicClient journal].
  rewrite alter_middle, list_lookup_total_middle by reflexivity.
  destruct b; reflexivity.
Qed.

Lemma elect_loop_from (pre rest : list Host) (b : bool) (mem : list HostConfig)
    (c : option Client) (j : list Event) :
  foldl (fun st i => electStep F W i st) (b, mkState mem (pre ++ rest) c j)
        (seq (length pre) (length rest))
  = let '(b', mem', rest', evs) := electOver F W rest b mem in
    (b', mkState mem' (pre ++ rest') c (j ++ evs)).
Proof.
  revert pre b mem j. induction rest as [| x rest IH]; intros pre b mem j.
  - cbn. rewrite !app_nil_r. reflexivity.
  - cbn [length seq foldl electOver]. rewrite electStep_middle.
    destruct (healthyAt W mem x).
    + rewrite (snoc_middle pre _ rest), (length_snoc pre (orAPIServer (PodRunning F) x)).
      rewrite IH. destruct (electOver F W rest true _) as [[[b' mem'] rest'] evs].
      rewrite <- !app_assoc. reflexivity.
    + rewrite (snoc_middle pre x rest), (length_snoc pre x).
      rewrite IH. destruct (electOver F W rest b mem) as [[[b' mem'] rest'] evs].
      rewrite <- !app_assoc. reflexivity.
Qed.

Lemma elect_loop (cp : list Host) (mem : list HostConfig)
    (c : option Client) (j : list Event) :
  forRange (length cp) (electStep F W) (false, mkState mem cp c j)
  = let '(b', mem', cp', evs) := electOver F W cp false mem in
    (b', mkState mem' cp' c (j ++ evs)).
Proof. apply (elect_loop_from [] cp). Qed.

Lemma etcdStep_middle (etcdMembers : Members) (pre rest : list Host) (x : Host)
    (mem : list HostConfig) (c : option Client) (j : list Event) :
  etcdStep F W etcdMembers (length pre) (mkState mem (pre ++ x :: rest) c j)
  = mkState mem (pre ++ etcdUpdate F W mem etcdMembers x :: rest) c
            (j ++ [CallEtcdGet (deref mem (Config x))]).
Proof.
  unfold etcdStep, etcdUpdate, etcdOK, record, setControlPlane.
  cbn [Hosts ControlPlane DynamicClient journal].
  rewrite list_lookup_total_middle by reflexivity.
  destruct (etcdstatus_Get W (deref mem (Config x)) etcdMembers) as [[st |] e];
    cbn [fst memberAndHealthy]; [| reflexivity].
  destruct (EtcdMember st && EtcdHealth st); [| reflexivity].
  cbn [Hosts ControlPlane DynamicClient journal].
  rewrite alter_middle. reflexivity.
Qed.

Lemma etcd_loop_from (etcdMembers : Members) (pre rest : list Host)
    (mem : list HostConfig) (c : option Client) (j : list Event) :
  foldl (fun s i => etcdStep F W etcdMembers i s)
        (mkState mem (pre ++ rest) c j) (seq (length pre) (length rest))
  = mkState mem (pre ++ (etcdUpdate F W mem etcdMembers <$> rest)) c
            (j ++ ((fun h => CallEtcdGet (deref mem (Config h))) <$> rest)).
Proof.
  revert pre j. induction rest as [| x rest IH]; intros pre j.
  - cbn. rewrite !app_nil_r. reflexivity.
  - cbn [length seq foldl fmap list_fmap]. rewrite etcdStep_middle.
    rewrite (snoc_middle pre _ rest), (length_snoc pre (etcdUpdate F W mem etcdMembers x)).
    rewrite IH. rewrite <- !app_assoc. reflexivity.
Qed.

Lemma etcd_loop (etcdMembers : Members) (cp : list Host)
    (mem : list HostConfig) (c : option Client) (j : list Event) :
  forRange (length cp) (etcdStep F W etcdMembers) (mkState mem cp c j)
  = mkState mem (etcdUpdate F W mem etcdMembers <$> cp) c
            (j ++ ((fun h => CallEtcdGet (deref mem (Config h))) <$> cp)).
Proof. apply (etcd_loop_from etcdMembers [] cp). Qed.

Lemma markStep_middle (name : string) (pre rest : list Host) (x : Host)
    (mem : list HostConfig) (c : option Client) (j : list Event) :
  markStep name (length pre) (mkState mem (pre ++ x :: rest) c j)
  = mkState mem (pre ++ markIf mem name x :: rest) c j.
Proof.
  unfold markStep, markIf, setControlPlane.
  cbn [Hosts ControlPlane DynamicClient journal].
  rewrite list_lookup_total_middle by reflexivity.
  destruct (String.eqb name _); [| reflexivity].
  rewrite alter_middle. reflexivity.
Qed.

Lemma mark_loop_from (name : string) (pre rest : list Host)
    (mem : list HostConfig) (c : option Client) (j : list Event) :
  foldl (fun s i => markStep name i s)
        (mkState mem (pre ++ rest) c j) (seq (length pre) (length rest))
  = mkState mem (pre ++ (markIf mem name <$> rest)) c j.
Proof.
  revert pre. induction rest as [| x rest IH]; intros pre.
  - reflexivity.
  - cbn [length seq foldl fmap list_fmap]. rewrite markStep_middle.
    rewrite (snoc_middle pre _ rest), (length_snoc pre (markIf mem name x)).
    rewrite IH. rewrite <- !app_assoc. reflexivity.
Qed.

Lemma mark_loop (name : string) (cp : list Host)
    (mem : list HostConfig) (c : option Client) (j : list Event) :
  forRange (length cp) (markStep name) (mkState mem cp c j)
  = mkState mem (markIf mem name <$> cp) c j.
Proof. apply (mark_loop_from name [] cp). Qed.

Lemma node_loop (known : gset string) (nodes : list string)
    (kn : gset string) (cp : list Host) (mem : list HostConfig)
    (c : option Client) (j : list Event) :
  foldl (nodeStep known) (kn, mkState mem cp c j) nodes
  = (kn ∪ list_to_set nodes,
     mkState mem (markNodes known mem nodes <$> cp) c j).
Proof.
  revert kn cp. induction nodes as [| name nodes IH]; intros kn cp.
  - cbn. rewrite list_fmap_id, (right_id_L ∅ (∪)). reflexivity.
  - cbn [foldl nodeStep]. cbn [ControlPlane]. rewrite mark_loop.
    rewrite list_to_set_cons, (assoc_L (∪)).
    destruct (bool_decide (name ∈ known)) eqn:Hname; rewrite IH; f_equal.
    + rewrite <- list_fmap_compose. f_equal. apply list_fmap_ext.
      intros i x _. unfold markNodes. cbn. rewrite Hname. reflexivity.
    + f_equal. apply list_fmap_ext.
      intros i x _. unfold markNodes. cbn. rewrite Hname. reflexivity.
Qed.

Lemma known_hosts_loop (mem : list HostConfig) (cp : list Host)
    (acc : gset string) :
  foldl (fun set host => set ∪ {[Hostname (deref mem (Config host))]}) acc cp
  = acc ∪ list_to_set ((fun h => Hostname (deref mem (Config h))) <$> cp).
Proof.
  revert acc. induction cp as [| h cp IH]; intros acc; cbn.
  - rewrite (right_id_L ∅ (∪)). reflexivity.
  - rewrite IH, (assoc_L (∪)). reflexivity.
Qed.

Lemma record_mk (ev : Event) (mem : list HostConfig) (cp : list Host)
    (c : option Client) (j : list Event) :
  record ev (mkState mem cp c j) = mkState mem cp c (j ++ [ev]).
Proof. reflexivity. Qed.

(** [investigateCluster] with its loops in closed form. *)
Lemma investigateCluster_run (mem : list HostConfig) (cp : list Host)
    (c : option Client) (j : list Event) :
  investigateCluster F W (mkState mem cp c j)
  = if negb (IsProvisioned W mem cp)
    then (Failed errNotProvisioned, mkState mem cp c j)
    else
      let '(b, mem2, cp2, evs) :=
        electOver F W cp false (clearAll (Config <$> cp) mem) in
      if negb b
      then (Failed errQuorumLost, mkState mem2 cp2 c (j ++ evs))
      else
        let j3 := (j ++ evs) ++ [CallEtcdMemberList] in
        match etcdstatus_MemberList W with
        | inr err => (Failed err, mkState mem2 cp2 c j3)
        | inl etcdMembers =>
            let cp3 := etcdUpdate F W mem2 etcdMembers <$> cp2 in
            let j4 := j3 ++ ((fun h => CallEtcdGet (deref mem2 (Config h)))
                               <$> cp2) in
            let cs := clientset W (mkState mem2 cp3 c j4) in
            match cs.1 with
            | inr err => (Failed err, cs.2)
            | inl client =>
                match DynamicClient_List W client with
                | inr err =>
                    (Failed (errors_Wrap err "unable to list nodes"),
                     record CallListNodes cs.2)
                | inl nodes =>
                    let known : gset string :=
                      list_to_set (hostnames mem2 cp3) in
                    let live : gset string := list_to_set nodes in
                    (Reported (known ∖ live) (live ∖ known),
                     mkState mem2 (markNodes known mem2 nodes <$> cp3)
                             (DynamicClient cs.2)
                             (journal cs.2 ++ [CallListNodes]))
                end
            end
        end.
Proof.
  unfold investigateCluster. cbn [Hosts ControlPlane DynamicClient journal].
  destruct (negb (IsProvisioned W mem cp)); [reflexivity |].
  rewrite clear_loop. cbn [ControlPlane]. rewrite elect_loop.
  destruct (electOver F W cp false _) as [[[b mem2] cp2] evs].
  destruct (negb b); [reflexivity |].
  rewrite record_mk.
  destruct (etcdstatus_MemberList W) as [etcdMembers | err]; [| reflexivity].
  cbn [ControlPlane]. rewrite etcd_loop. cbn zeta.
  assert (Hcs : Hosts (clientset W (mkState mem2 (etcdUpdate F W mem2 etcdMembers <$> cp2) c
              (((j ++ evs) ++ [CallEtcdMemberList]) ++
               ((fun h => CallEtcdGet (deref mem2 (Config h))) <$> cp2)))).2 = mem2
          /\ ControlPlane (clientset W (mkState mem2 (etcdUpdate F W mem2 etcdMembers <$> cp2) c
              (((j ++ evs) ++ [CallEtcdMemberList]) ++
               ((fun h => CallEtcdGet (deref mem2 (Config h))) <$> cp2)))).2
             = etcdUpdate F W mem2 etcdMembers <$> cp2).
  { unfold clientset. cbn. destruct c; [split; reflexivity |].
    destruct (BuildKubernetesClientset W); split; reflexivity. }
  destruct Hcs as [Hmem Hcp].
  destruct (clientset W _) as [[client | err] s] eqn:Hclient; [| reflexivity].
  cbn [fst snd] in *.
  destruct s as [smem scp sc sj]. cbn in Hmem, Hcp. subst smem scp.
  rewrite !record_mk. cbn [Hosts ControlPlane DynamicClient journal].
  destruct (DynamicClient_List W client) as [nodes | err]; [| reflexivity].
  rewrite known_hosts_loop, node_loop, !(left_id_L ∅ (∪)). reflexivity.
Qed.

(* --------------------------------------------------------------------- *)
(** *** What the loops leave behind *)

Lemma deref_alter_ne (f : HostConfig -> HostConfig) (a p : nat)
    (mem : list HostConfig) :
  a <> p -> deref (alter f a mem) p = deref mem p.
Proof. intros Hne. unfold deref. apply list_lookup_total_alter_ne, Hne. Qed.

Lemma deref_alter_setIsLeader (b : bool) (a p : nat) (mem : list HostConfig) :
  deref (alter (setIsLeader b) a mem) p
  = if decide (a = p /\ (a < length mem)%nat)
    then setIsLeader b (deref mem p) else deref mem p.
Proof.
  unfold deref. rewrite list_lookup_total_alter.
  case_decide as H; [destruct H as [-> _] |]; reflexivity.
Qed.

Lemma deref_out_of_range (mem : list HostConfig) (p : nat) :
  (length mem <= p)%nat -> deref mem p = inhabitant.
Proof.
  intros Hp. unfold deref. rewrite list_lookup_total_alt.
  rewrite lookup_ge_None_2 by exact Hp. reflexivity.
Qed.

(** The store after clearing: the configuration behind a cleared address has
    its flag off, every other configuration is as it was. *)
Lemma deref_clearAll (ptrs : list nat) (mem : list HostConfig) (p : nat) :
  deref (clearAll ptrs mem) p
  = if bool_decide (p ∈ ptrs) then setIsLeader false (deref mem p)
    else deref mem p.
Proof.
  revert mem. induction ptrs as [| a ptrs IH]; intros mem.
  - reflexivity.
  - change (clearAll (a :: ptrs) mem)
      with (clearAll ptrs (alter (setIsLeader false) a mem)).
    rewrite IH, deref_alter_setIsLeader.
    destruct (decide (a = p)) as [-> | Hne].
    + rewrite (bool_decide_eq_true_2 (p ∈ p :: ptrs)) by (left).
      destruct (decide (p < length mem)%nat) as [Hlt | Hge].
      * rewrite decide_True by auto.
        destruct (bool_decide (p ∈ ptrs)); reflexivity.
      * rewrite decide_False by tauto.
        rewrite deref_out_of_range by lia.
        destruct (bool_decide (p ∈ ptrs)); reflexivity.
    + rewrite decide_False by tauto.
      destruct (bool_decide (p ∈ ptrs)) eqn:Hin.
      * apply bool_decide_eq_true in Hin.
        rewrite bool_decide_eq_true_2 by (right; exact Hin). reflexivity.
      * apply bool_decide_eq_false in Hin.
        rewrite bool_decide_eq_false_2; [reflexivity |].
        rewrite elem_of_cons. intros [Heq | Hin']; [congruence | tauto].
Qed.

Lemma length_clearAll (ptrs : list nat) (mem : list HostConfig) :
  length (clearAll ptrs mem) = length mem.
Proof.
  revert mem. induction ptrs as [| a ptrs IH]; intros mem; [reflexivity |].
  change (clearAll (a :: ptrs) mem)
    with (clearAll ptrs (alter (setIsLeader false) a mem)).
  rewrite IH. apply length_alter.
Qed.

Lemma healthyAt_cleared (cp : list Host) (mem : list HostConfig) (h : Host) :
  h ∈ cp -> healthyAt W (clearAll (Config <$> cp) mem) h = reported W mem h.
Proof.
  intros Hh. unfold healthyAt, reported. rewrite deref_clearAll.
  rewrite bool_decide_eq_true_2; [reflexivity |].
  apply list_elem_of_fmap_2, Hh.
Qed.

Lemma electOver_spec (hosts : list Host) (b : bool) (mem : list HostConfig) :
  NoDup (Config <$> hosts) ->
  electOver F W hosts b mem
  = (b || existsb (healthyAt W mem) hosts,
     electedStore W hosts b mem,
     apiUpdate F W mem <$> hosts,
     (fun h => CallApiserverGet (deref mem (Config h))) <$> hosts).
Proof.
  revert b mem. induction hosts as [| h hosts IH]; intros b mem Hnd.
  - cbn. unfold electedStore. rewrite orb_false_r. destruct b; reflexivity.
  - rewrite fmap_cons in Hnd. apply NoDup_cons in Hnd as [Hh Hnd].
    cbn [electOver existsb fmap list_fmap]. unfold apiUpdate at 1.
    destruct (healthyAt W mem h) eqn:Hhealthy.
    + rewrite IH by exact Hnd. cbn [orb]. rewrite !orb_true_r.
      unfold electedStore. cbn [List.find]. rewrite Hhealthy.
      assert (Hsame : forall x, x ∈ hosts ->
                deref (if b then mem
                       else alter (setIsLeader true) (Config h) mem) (Config x)
                = deref mem (Config x)).
      { intros x Hx. destruct b; [reflexivity |].
        apply deref_alter_ne. intros Heq. apply Hh. rewrite Heq.
        apply list_elem_of_fmap_2, Hx. }
      f_equal; [f_equal |].
      * f_equal. apply list_fmap_ext. intros i x Hx.
        unfold apiUpdate, healthyAt. rewrite Hsame; [reflexivity |].
        eapply list_elem_of_lookup_2, Hx.
      * f_equal. apply list_fmap_ext. intros i x Hx.
        rewrite Hsame; [reflexivity |]. eapply list_elem_of_lookup_2, Hx.
    + rewrite IH by exact Hnd. cbn [orb].
      unfold electedStore. cbn [List.find]. rewrite Hhealthy. reflexivity.
Qed.

Lemma find_first (P : Host -> bool) (hosts : list Host) (i : nat) (h : Host) :
  hosts !! i = Some h -> P h = true ->
  (forall j h', (j < i)%nat -> hosts !! j = Some h' -> P h' = false) ->
  List.find P hosts = Some h.
Proof.
  revert i. induction hosts as [| x hosts IH]; intros i Hi Hh Hbefore.
  - discriminate.
  - destruct i as [| i].
    + injection Hi as ->. cbn. rewrite Hh. reflexivity.
    + cbn. rewrite (Hbefore 0%nat x) by (lia || reflexivity).
      apply (IH i); [exact Hi | exact Hh |].
      intros j h' Hj Hl. apply (Hbefore (S j) h'); [lia | exact Hl].
Qed.

Lemma find_none (P : Host -> bool) (hosts : list Host) :
  (forall h, h ∈ hosts -> P h = false) -> List.find P hosts = None.
Proof.
  induction hosts as [| x hosts IH]; intros Hall; [reflexivity |].
  cbn. rewrite (Hall x) by left. apply IH. intros h Hh. apply Hall. right.
  exact Hh.
Qed.

Lemma existsb_none (P : Host -> bool) (hosts : list Host) :
  (forall h, h ∈ hosts -> P h = false) -> existsb P hosts = false.
Proof.
  induction hosts as [| x hosts IH]; intros Hall; [reflexivity |].
  cbn. rewrite (Hall x) by left. apply IH. intros h Hh. apply Hall. right.
  exact Hh.
Qed.

Lemma existsb_some (P : Host -> bool) (hosts : list Host) (h : Host) :
  h ∈ hosts -> P h = true -> existsb P hosts = true.
Proof.
  intros Hh HP. apply existsb_exists. exists h. split; [| exact HP].
  apply list_elem_of_In, Hh.
Qed.

Lemma electOver_none (hosts : list Host) (b : bool) (mem : list HostConfig) :
  (forall h, h ∈ hosts -> healthyAt W mem h = false) ->
  electOver F W hosts b mem
  = (b, mem, hosts,
     (fun h => CallApiserverGet (deref mem (Config h))) <$> hosts).
Proof.
  induction hosts as [| h hosts IH]; intros Hall; [reflexivity |].
  cbn [electOver fmap list_fmap]. rewrite (Hall h) by left.
  rewrite IH; [reflexivity |]. intros x Hx. apply Hall. right. exact Hx.
Qed.

(** Each loop changes one field of a live host and nothing else. *)
Lemma apiUpdate_cases (mem : list HostConfig) (h : Host) :
  apiUpdate F W mem h = h \/ apiUpdate F W mem h = orAPIServer (PodRunning F) h.
Proof. unfold apiUpdate. destruct (healthyAt W mem h); auto. Qed.

Lemma etcdUpdate_cases (mem : list HostConfig) (etcdMembers : Members)
    (h : Host) :
  etcdUpdate F W mem etcdMembers h = h
  \/ etcdUpdate F W mem etcdMembers h = orEtcd (PodRunning F) h.
Proof. unfold etcdUpdate. destruct (etcdOK W mem etcdMembers h); auto. Qed.

Lemma markNodes_cons (known : gset string) (mem : list HostConfig)
    (name : string) (nodes : list string) (h : Host) :
  markNodes known mem (name :: nodes) h
  = markNodes known mem nodes
      (if bool_decide (name ∈ known) then markIf mem name h else h).
Proof. reflexivity. Qed.

Lemma markNodes_cases (known : gset string) (mem : list HostConfig)
    (nodes : list string) (h : Host) :
  markNodes known mem nodes h = h
  \/ markNodes known mem nodes h = markInCluster h.
Proof.
  revert h. induction nodes as [| name nodes IH]; intros h; [left; reflexivity |].
  rewrite markNodes_cons.
  destruct (bool_decide (name ∈ known)); [| apply IH].
  unfold markIf. destruct (String.eqb name _); [| apply IH].
  destruct (IH (markInCluster h)) as [-> | ->]; right; reflexivity.
Qed.

Lemma markNodes_IsInCluster (known : gset string) (mem : list HostConfig)
    (nodes : list string) (h : Host) :
  IsInCluster (markNodes known mem nodes h)
  = IsInCluster h
    || bool_decide (Hostname (deref mem (Config h)) ∈ nodes
                    /\ Hostname (deref mem (Config h)) ∈ known).
Proof.
  revert h. induction nodes as [| name nodes IH]; intros h.
  - cbn. rewrite bool_decide_eq_false_2, orb_false_r; [reflexivity |].
    intros [H _]. inversion H.
  - rewrite markNodes_cons.
    destruct (bool_decide (name ∈ known)) eqn:Hk.
    + apply bool_decide_eq_true in Hk. unfold markIf.
      destruct (String.eqb_spec name (Hostname (deref mem (Config h))))
        as [Heq | Hne].
      * rewrite IH. cbn [IsInCluster markInCluster Config]. rewrite orb_true_l.
        rewrite bool_decide_eq_true_2, orb_true_r; [reflexivity |].
        rewrite <- Heq. split; [left | exact Hk].
      * rewrite IH. f_equal. apply bool_decide_ext.
        rewrite elem_of_cons. intuition congruence.
    + apply bool_decide_eq_false in Hk. rewrite IH. f_equal.
      apply bool_decide_ext. rewrite elem_of_cons.
      split; [intros [H1 H2]; auto |].
      intros [[Heq | H1] H2]; [| auto]. rewrite <- Heq in Hk. tauto.
Qed.

(** The journal appended by [clientset] holds at most the client build. *)
Lemma clientset_state (s : @State Client) :
  Hosts (clientset W s).2 = Hosts s
  /\ ControlPlane (clientset W s).2 = ControlPlane s
  /\ (exists evs, journal (clientset W s).2 = journal s ++ evs
                  /\ (evs = [] \/ evs = [CallBuildKubernetesClientset]))
  /\ (forall client, (clientset W s).1 = inl client ->
                     DynamicClient (clientset W s).2 = Some client).
Proof.
  unfold clientset. destruct (DynamicClient s) as [client |] eqn:Hc.
  - cbn. repeat split; try reflexivity.
    + exists []. rewrite app_nil_r. auto.
    + intros client' H. injection H as <-. exact Hc.
  - destruct (BuildKubernetesClientset W) as [client | err]; cbn;
      repeat split; try reflexivity; try (eexists; split; [reflexivity | auto]).
    + intros client' H. injection H as <-. reflexivity.
    + intros client' H. discriminate.
Qed.

(** A field the loops do not write is the same before and after. *)
Lemma electOver_proj {A : Type} (p : Host -> A)
    (hosts : list Host) (b : bool) (mem : list HostConfig) :
  (forall f h, p (orAPIServer f h) = p h) ->
  p <$> (electOver F W hosts b mem).1.2 = p <$> hosts.
Proof.
  intros Hp. revert b mem. induction hosts as [| h hosts IH]; intros b mem;
    [reflexivity |].
  cbn [electOver]. destruct (healthyAt W mem h).
  - specialize (IH true (if b then mem
                         else alter (setIsLeader true) (Config h) mem)).
    destruct (electOver F W hosts true _) as [[[b' mem'] hs] evs].
    cbn in *. rewrite IH, Hp. reflexivity.
  - specialize (IH b mem).
    destruct (electOver F W hosts b mem) as [[[b' mem'] hs] evs].
    cbn in *. rewrite IH. reflexivity.
Qed.

Lemma etcdUpdate_proj {A : Type} (p : Host -> A)
    (mem : list HostConfig) (etcdMembers : Members) (l : list Host) :
  (forall f h, p (orEtcd f h) = p h) ->
  p <$> (etcdUpdate F W mem etcdMembers <$> l) = p <$> l.
Proof.
  intros Hp. rewrite <- list_fmap_compose. apply list_fmap_ext.
  intros i x _. cbn.
  destruct (etcdUpdate_cases mem etcdMembers x) as [-> | ->];
    [reflexivity | apply Hp].
Qed.

Lemma markNodes_proj {A : Type} (p : Host -> A)
    (known : gset string) (mem : list HostConfig) (nodes : list string)
    (l : list Host) :
  (forall h, p (markInCluster h) = p h) ->
  p <$> (markNodes known mem nodes <$> l) = p <$> l.
Proof.
  intros Hp. rewrite <- list_fmap_compose. apply list_fmap_ext.
  intros i x _. cbn.
  destruct (markNodes_cases known mem nodes x) as [-> | ->];
    [reflexivity | apply Hp].
Qed.

(** A field that only the election may write is, at the end, as the
    election left it. *)
Lemma investigateCluster_proj {A : Type} (p : Host -> A)
    (mem : list HostConfig) (cp : list Host) (c : option Client)
    (j : list Event) :
  (forall f h, p (orEtcd f h) = p h) ->
  (forall h, p (markInCluster h) = p h) ->
  IsProvisioned W mem cp = true ->
  p <$> ControlPlane (investigateCluster F W (mkState mem cp c j)).2
  = p <$> (electOver F W cp false (clearAll (Config <$> cp) mem)).1.2.
Proof.
  intros Hetcd Hmark Hprov. rewrite investigateCluster_run, Hprov. cbn [negb].
  destruct (electOver F W cp false _) as [[[b mem2] cp2] evs]. cbn [fst snd].
  destruct (negb b); [reflexivity |].
  destruct (etcdstatus_MemberList W) as [etcdMembers | err]; [| reflexivity].
  cbn zeta.
  match goal with
  | |- context [clientset W ?s0] =>
      destruct (clientset_state s0) as (_ & Hcp & _ & _)
  end.
  destruct (clientset W _) as [[client | err] s'];
    cbn [fst snd ControlPlane] in *.
  - destruct (DynamicClient_List W client) as [nodes | err];
      cbn [snd ControlPlane record].
    + rewrite markNodes_proj, etcdUpdate_proj by assumption. reflexivity.
    + rewrite Hcp, etcdUpdate_proj by assumption. reflexivity.
  - rewrite Hcp, etcdUpdate_proj by assumption. reflexivity.
Qed.

(** The live hosts keep their configuration addresses. *)
Lemma investigateCluster_configs (s : @State Client) :
  Config <$> ControlPlane (investigateCluster F W s).2
  = Config <$> ControlPlane s.
Proof.
  destruct s as [mem cp c j]. cbn [ControlPlane].
  destruct (IsProvisioned W mem cp) eqn:Hprov.
  - rewrite investigateCluster_proj by (reflexivity || assumption).
    apply electOver_proj. reflexivity.
  - rewrite investigateCluster_run, Hprov. reflexivity.
Qed.

(** Once the cluster is provisioned the store ends as the election left
    it. *)
Lemma investigateCluster_store (mem : list HostConfig) (cp : list Host)
    (c : option Client) (j : list Event) :
  IsProvisioned W mem cp = true ->
  Hosts (investigateCluster F W (mkState mem cp c j)).2
  = (electOver F W cp false (clearAll (Config <$> cp) mem)).1.1.2.
Proof.
  intros Hprov. rewrite investigateCluster_run, Hprov. cbn [negb].
  destruct (electOver F W cp false _) as [[[b mem2] cp2] evs]. cbn [fst snd].
  destruct (negb b); [reflexivity |].
  destruct (etcdstatus_MemberList W) as [etcdMembers | err]; [| reflexivity].
  cbn zeta.
  destruct (clientset_state (mkState mem2 (etcdUpdate F W mem2 etcdMembers <$> cp2) c
              (((j ++ evs) ++ [CallEtcdMemberList]) ++
               ((fun h => CallEtcdGet (deref mem2 (Config h))) <$> cp2))))
    as (Hmem & _ & _ & _).
  destruct (clientset W _) as [[client | err] s'];
    cbn [fst snd Hosts] in *; [| exact Hmem].
  destruct (DynamicClient_List W client) as [nodes | err];
    cbn [snd Hosts record]; [reflexivity | exact Hmem].
Qed.

End ClusterLoops.

Section Election.

Context {Members Client : Type}.
Variable F : StatusFlags.
Variable W : @Collaborators Members Client.

Lemma wellFormed_NoDup (s : @State Client) :
  wellFormed s = true -> NoDup (Config <$> ControlPlane s).
Proof.
  unfold wellFormed. intros H. apply andb_true_iff in H as [H _].
  apply bool_decide_eq_true in H. exact H.
Qed.

Lemma wellFormed_in_range (s : @State Client) (h : Host) :
  wellFormed s = true -> h ∈ ControlPlane s ->
  (Config h < length (Hosts s))%nat.
Proof.
  unfold wellFormed. intros H Hh. apply andb_true_iff in H as [_ H].
  rewrite forallb_forall in H. apply Nat.ltb_lt, H, list_elem_of_In, Hh.
Qed.

Lemma queries_cleared (cp : list Host) (mem : list HostConfig) :
  (fun h => CallApiserverGet (deref (clearAll (Config <$> cp) mem) (Config h)))
    <$> cp
  = (fun h => CallApiserverGet (setIsLeader false (deref mem (Config h))))
      <$> cp.
Proof.
  apply list_fmap_ext. intros i h Hh. rewrite deref_clearAll.
  rewrite bool_decide_eq_true_2; [reflexivity |].
  apply list_elem_of_fmap_2. eapply list_elem_of_lookup_2, Hh.
Qed.

(** The reconciliation of a cluster none of whose hosts is reported
    healthy. *)
Lemma quorum_lost_run (mem : list HostConfig) (cp : list Host)
    (c : option Client) (j : list Event) :
  IsProvisioned W mem cp = true ->
  (forall h, h ∈ cp -> reported W mem h = false) ->
  investigateCluster F W (mkState mem cp c j)
  = (Failed errQuorumLost,
     mkState (clearAll (Config <$> cp) mem) cp c
             (j ++ healthQueries (mkState mem cp c j))).
Proof.
  intros Hprov Hnone. rewrite investigateCluster_run, Hprov. cbn [negb].
  rewrite electOver_none.
  - cbn [negb]. unfold healthQueries. cbn [Hosts ControlPlane].
    rewrite queries_cleared. reflexivity.
  - intros h Hh. rewrite healthyAt_cleared by exact Hh. apply Hnone, Hh.
Qed.

(** The journal of a provisioned cluster's reconciliation starts with the
    health queries. *)
Lemma investigateCluster_queries_first (mem : list HostConfig)
    (cp : list Host) (c : option Client) (j : list Event) :
  IsProvisioned W mem cp = true ->
  NoDup (Config <$> cp) ->
  exists rest,
    journal (investigateCluster F W (mkState mem cp c j)).2
    = j ++ healthQueries (mkState mem cp c j) ++ rest.
Proof.
  intros Hprov Hnd. rewrite investigateCluster_run, Hprov. cbn [negb].
  rewrite electOver_spec by exact Hnd. rewrite queries_cleared.
  fold (healthQueries (mkState mem cp c j)).
  set (q := healthQueries (mkState mem cp c j)).
  destruct (negb _).
  { exists []. cbn. rewrite app_nil_r. reflexivity. }
  destruct (etcdstatus_MemberList W) as [etcdMembers | err].
  2:{ eexists. cbn. rewrite <- app_assoc. reflexivity. }
  cbn zeta.
  match goal with
  | |- context [clientset W ?s0] =>
      destruct (clientset_state W s0) as (_ & _ & (evs & Hj & _) & _)
  end.
  destruct (clientset W _) as [[client | err] s'];
    cbn [fst snd journal] in *.
  - destruct (DynamicClient_List W client) as [nodes | err];
      cbn [snd journal record]; rewrite Hj; eexists;
      rewrite <- !app_assoc; reflexivity.
  - rewrite Hj. eexists. rewrite <- !app_assoc. reflexivity.
Qed.

(** Where the leader flag is on after the election over cleared flags. *)
Lemma leader_after_election (mem : list HostConfig) (cp : list Host)
    (h : Host) :
  h ∈ cp ->
  let mem1 := clearAll (Config <$> cp) mem in
  IsLeader (deref (electedStore W cp false mem1) (Config h)) = true
  <-> exists l, List.find (healthyAt W mem1) cp = Some l
                /\ Config l = Config h
                /\ (Config l < length mem)%nat.
Proof.
  intros Hh mem1.
  assert (Hoff : IsLeader (deref mem1 (Config h)) = false).
  { unfold mem1. rewrite deref_clearAll.
    rewrite bool_decide_eq_true_2 by (apply list_elem_of_fmap_2, Hh).
    reflexivity. }
  unfold electedStore. destruct (List.find (healthyAt W mem1) cp) as [l |].
  - rewrite deref_alter_setIsLeader.
    replace (length mem1) with (length mem)
      by (symmetry; apply length_clearAll).
    case_decide as Hd.
    + split; [intros _; exists l; tauto | reflexivity].
    + rewrite Hoff. split; [discriminate |].
      intros (l' & Hl' & H1 & H2). injection Hl' as <-. tauto.
  - rewrite Hoff. split; [discriminate | intros (l' & Hl' & _); discriminate].
Qed.

(** C1. In the reconciliation of a provisioned cluster the election queries
    the hosts in their configured order, each with its leader flag cleared;
    afterwards at most one live host has the leader flag on, and when some
    host is reported healthy, the first such host in order is the one, and
    the only one, with the flag on. *)
Theorem first_healthy_host_is_leader (s : @State Client) :
  wellFormed s = true ->
  IsProvisioned W (Hosts s) (ControlPlane s) = true ->
  let s' := (investigateCluster F W s).2 in
  (exists rest, journal s' = journal s ++ healthQueries s ++ rest)
  /\ (forall i j hi hj,
         ControlPlane s' !! i = Some hi -> ControlPlane s' !! j = Some hj ->
         leaderFlag s' hi = true -> leaderFlag s' hj = true -> i = j)
  /\ (forall i h,
         ControlPlane s !! i = Some h ->
         reported W (Hosts s) h = true ->
         (forall j h', (j < i)%nat -> ControlPlane s !! j = Some h' ->
                       reported W (Hosts s) h' = false) ->
         forall k hk, ControlPlane s' !! k = Some hk ->
                      (leaderFlag s' hk = true <-> k = i)).
Proof.
  intros Hwf Hprov s'.
  pose proof (wellFormed_NoDup s Hwf) as Hnd.
  pose proof (investigateCluster_configs F W s) as Hcfg. fold s' in Hcfg.
  assert (Hstore : Hosts s'
                   = electedStore W (ControlPlane s) false
                       (clearAll (Config <$> ControlPlane s) (Hosts s))).
  { subst s'. destruct s as [mem cp c j]. cbn [Hosts ControlPlane] in *.
    rewrite investigateCluster_store by exact Hprov.
    rewrite electOver_spec by exact Hnd. reflexivity. }
  (* a live host of the final state sits over the same address as before *)
  assert (Hsame : forall k hk, ControlPlane s' !! k = Some hk ->
            exists h0, ControlPlane s !! k = Some h0 /\ Config h0 = Config hk).
  { intros k hk Hk.
    assert (H : (Config <$> ControlPlane s) !! k = Some (Config hk)).
    { rewrite <- Hcfg, list_lookup_fmap, Hk. reflexivity. }
    rewrite list_lookup_fmap in H.
    destruct (ControlPlane s !! k) as [h0 |]; [| discriminate].
    injection H as H. exists h0. auto. }
  assert (Hflag : forall k hk h0,
            ControlPlane s !! k = Some h0 -> Config h0 = Config hk ->
            leaderFlag s' hk = true
            <-> exists l,
                List.find
                  (healthyAt W (clearAll (Config <$> ControlPlane s) (Hosts s)))
                  (ControlPlane s) = Some l
                /\ Config l = Config h0
                /\ (Config l < length (Hosts s))%nat).
  { intros k hk h0 Hk Hc. unfold leaderFlag. rewrite Hstore, <- Hc.
    apply leader_after_election. eapply list_elem_of_lookup_2, Hk. }
  split; [| split].
  - subst s'. destruct s as [mem cp c j].
    apply investigateCluster_queries_first; assumption.
  - intros i j hi hj Hi Hj Li Lj.
    destruct (Hsame i hi Hi) as (h0i & H0i & Hci).
    destruct (Hsame j hj Hj) as (h0j & H0j & Hcj).
    apply (Hflag i hi h0i H0i Hci) in Li as (l & Hl & Hli & _).
    apply (Hflag j hj h0j H0j Hcj) in Lj as (l' & Hl' & Hlj & _).
    rewrite Hl in Hl'. injection Hl' as <-.
    eapply (NoDup_lookup (Config <$> ControlPlane s) i j (Config l)); [exact Hnd | |];
      rewrite list_lookup_fmap.
    + rewrite H0i. cbn. congruence.
    + rewrite H0j. cbn. congruence.
  - intros i h Hi Hrep Hbefore k hk Hk.
    destruct (Hsame k hk Hk) as (h0 & H0 & Hc).
    rewrite (Hflag k hk h0 H0 Hc).
    assert (Hfind : List.find
                      (healthyAt W (clearAll (Config <$> ControlPlane s) (Hosts s)))
                      (ControlPlane s) = Some h).
    { apply (find_first _ _ i); [exact Hi | |].
      - rewrite healthyAt_cleared by (eapply list_elem_of_lookup_2, Hi).
        exact Hrep.
      - intros j h' Hj Hl.
        rewrite healthyAt_cleared by (eapply list_elem_of_lookup_2, Hl).
        apply (Hbefore j h' Hj Hl). }
    rewrite Hfind. split.
    + intros (l & Hl & Hlc & _). injection Hl as <-.
      eapply (NoDup_lookup (Config <$> ControlPlane s) k i (Config h)); [exact Hnd | |];
        rewrite list_lookup_fmap.
      * rewrite H0. cbn. congruence.
      * rewrite Hi. reflexivity.
    + intros ->. exists h. rewrite Hi in H0. injection H0 as <-.
      split; [reflexivity | split; [reflexivity |]].
      apply wellFormed_in_range; [exact Hwf |].
      eapply list_elem_of_lookup_2, Hi.
Qed.

(** C2. When no control-plane host is reported healthy, the reconciliation
    of a provisioned cluster fails with the quorum error; the only calls it
    made are the health queries, so neither the etcd phase nor the node-set
    phase ran; the live hosts are as they were, and no host has its leader
    flag on. *)
Theorem no_healthy_host_quorum_lost (s : @State Client) :
  IsProvisioned W (Hosts s) (ControlPlane s) = true ->
  existsb (reported W (Hosts s)) (ControlPlane s) = false ->
  let res := investigateCluster F W s in
  res.1 = Failed errQuorumLost
  /\ journal res.2 = journal s ++ healthQueries s
  /\ ControlPlane res.2 = ControlPlane s
  /\ DynamicClient res.2 = DynamicClient s
  /\ (forall h, h ∈ ControlPlane res.2 -> leaderFlag res.2 h = false).
Proof.
  intros Hprov Hnone res. subst res. destruct s as [mem cp c j].
  cbn [Hosts ControlPlane DynamicClient journal] in *.
  assert (Hall : forall h, h ∈ cp -> reported W mem h = false).
  { intros h Hh. apply not_true_is_false. intros Hrep.
    rewrite (existsb_some _ _ h Hh Hrep) in Hnone. discriminate. }
  rewrite quorum_lost_run by assumption.
  cbn [fst snd Hosts ControlPlane DynamicClient journal].
  repeat split. intros h Hh. unfold leaderFlag. cbn [Hosts].
  rewrite deref_clearAll.
  rewrite bool_decide_eq_true_2 by (apply list_elem_of_fmap_2, Hh).
  reflexivity.
Qed.

Lemma investigateCluster_ignores_health_errors (s : @State Client) :
  investigateCluster F (ignoringHealthErrors W) s = investigateCluster F W s.
Proof.
  destruct s as [mem cp c j]. rewrite !investigateCluster_run. reflexivity.
Qed.


Lemma lookup_fmap_eq {A : Type} (p : Host -> A) (l l' : list Host)
    (i : nat) (h h' : Host) :
  p <$> l' = p <$> l -> l !! i = Some h -> l' !! i = Some h' -> p h' = p h.
Proof.
  intros Heq Hl Hl'.
  assert (H : (p <$> l') !! i = Some (p h')) by (rewrite list_lookup_fmap, Hl'; reflexivity).
  rewrite Heq, list_lookup_fmap, Hl in H. injection H as H. congruence.
Qed.

Lemma healthyAt_Config (mem : list HostConfig) (h l : Host) :
  Config l = Config h -> healthyAt W mem l = healthyAt W mem h.
Proof. unfold healthyAt. intros ->. reflexivity. Qed.

(** A host that is not reported healthy keeps its API-server status word
    and is not the leader. *)
Lemma unhealthy_host_untouched (s : @State Client) (i : nat) (h h' : Host) :
  wellFormed s = true ->
  IsProvisioned W (Hosts s) (ControlPlane s) = true ->
  ControlPlane s !! i = Some h ->
  ControlPlane (investigateCluster F W s).2 !! i = Some h' ->
  reported W (Hosts s) h = false ->
  APIServer h' = APIServer h /\ leaderFlag (investigateCluster F W s).2 h' = false.
Proof.
  intros Hwf Hprov Hi Hi' Hrep.
  pose proof (wellFormed_NoDup s Hwf) as Hnd.
  pose proof (investigateCluster_configs F W s) as Hcfg.
  pose proof (lookup_fmap_eq Config _ _ i h h' Hcfg Hi Hi') as Hc.
  destruct s as [mem cp c j]. cbn [Hosts ControlPlane] in *.
  assert (Hin : h ∈ cp) by (eapply list_elem_of_lookup_2, Hi).
  assert (Hunhealthy : healthyAt W (clearAll (Config <$> cp) mem) h = false).
  { rewrite healthyAt_cleared by exact Hin. exact Hrep. }
  split.
  - pose proof (investigateCluster_proj F W APIServer mem cp c j
                  ltac:(reflexivity) ltac:(reflexivity) Hprov) as Hapi.
    rewrite electOver_spec in Hapi by exact Hnd. cbn [fst snd] in Hapi.
    assert (Hi2 : (apiUpdate F W (clearAll (Config <$> cp) mem) <$> cp) !! i
                  = Some h).
    { rewrite list_lookup_fmap, Hi. cbn. unfold apiUpdate.
      rewrite Hunhealthy. reflexivity. }
    apply (lookup_fmap_eq APIServer _ _ i h h' Hapi Hi2 Hi').
  - unfold leaderFlag. rewrite investigateCluster_store by exact Hprov.
    rewrite electOver_spec by exact Hnd. cbn [fst snd]. rewrite Hc.
    apply not_true_is_false. intros Hlead.
    apply leader_after_election in Hlead as (l & Hl & Hlc & _); [| exact Hin].
    apply find_some in Hl as [_ Hl].
    rewrite (healthyAt_Config _ h l Hlc) in Hl. congruence.
Qed.

(** A host that is reported healthy gets the PodRunning flag in its
    API-server status word. *)
Lemma healthy_host_flagged (s : @State Client) (i : nat) (h h' : Host) :
  wellFormed s = true ->
  IsProvisioned W (Hosts s) (ControlPlane s) = true ->
  ControlPlane s !! i = Some h ->
  ControlPlane (investigateCluster F W s).2 !! i = Some h' ->
  reported W (Hosts s) h = true ->
  PStatus (APIServer h') = Z.lor (PStatus (APIServer h)) (PodRunning F).
Proof.
  intros Hwf Hprov Hi Hi' Hrep.
  pose proof (wellFormed_NoDup s Hwf) as Hnd.
  destruct s as [mem cp c j]. cbn [Hosts ControlPlane] in *.
  assert (Hin : h ∈ cp) by (eapply list_elem_of_lookup_2, Hi).
  assert (Hhealthy : healthyAt W (clearAll (Config <$> cp) mem) h = true).
  { rewrite healthyAt_cleared by exact Hin. exact Hrep. }
  pose proof (investigateCluster_proj F W APIServer mem cp c j
                ltac:(reflexivity) ltac:(reflexivity) Hprov) as Hapi.
  rewrite electOver_spec in Hapi by exact Hnd. cbn [fst snd] in Hapi.
  assert (Hi2 : (apiUpdate F W (clearAll (Config <$> cp) mem) <$> cp) !! i
                = Some (orAPIServer (PodRunning F) h)).
  { rewrite list_lookup_fmap, Hi. cbn. unfold apiUpdate.
    rewrite Hhealthy. reflexivity. }
  rewrite (lookup_fmap_eq APIServer _ _ i _ h' Hapi Hi2 Hi'). reflexivity.
Qed.

(** C9, as amended.  The error of the per-host health query is discarded
    and only the health that the returned status reports is read: the
    reconciliation does the same with every such error dropped, and, error
    or not, a host gets the PodRunning flag exactly as that status reports
    health and only a host whose status reports health is the leader.  So a
    host whose query fails, returning an error with an unhealthy status,
    keeps its API-server status word and is not the leader; and when the
    query fails so on every host, the reconciliation fails with the quorum
    error. *)
Theorem health_query_error_is_unhealthy (s : @State Client) :
  let answer (h : Host) :=
    apiserverstatus_Get W (setIsLeader false (deref (Hosts s) (Config h))) in
  let failing (h : Host) :=
    exists e, answer h = (mkApiserverStatus false, Some e) in
  investigateCluster F W s = investigateCluster F (ignoringHealthErrors W) s
  /\ (wellFormed s = true ->
      IsProvisioned W (Hosts s) (ControlPlane s) = true ->
      forall i h h',
        ControlPlane s !! i = Some h ->
        ControlPlane (investigateCluster F W s).2 !! i = Some h' ->
        PStatus (APIServer h')
        = (if Health (answer h).1
           then Z.lor (PStatus (APIServer h)) (PodRunning F)
           else PStatus (APIServer h))
        /\ (leaderFlag (investigateCluster F W s).2 h' = true ->
            Health (answer h).1 = true)
        /\ (failing h ->
            APIServer h' = APIServer h
            /\ leaderFlag (investigateCluster F W s).2 h' = false))
  /\ (IsProvisioned W (Hosts s) (ControlPlane s) = true ->
      (forall h, h ∈ ControlPlane s -> failing h) ->
      (investigateCluster F W s).1 = Failed errQuorumLost
      /\ ControlPlane (investigateCluster F W s).2 = ControlPlane s).
Proof.
  intros answer failing. split; [| split].
  - symmetry. apply investigateCluster_ignores_health_errors.
  - intros Hwf Hprov i h h' Hi Hi'.
    change (Health (answer h).1) with (reported W (Hosts s) h).
    split; [| split].
    + destruct (reported W (Hosts s) h) eqn:Hrep.
      * apply (healthy_host_flagged s i h h'); assumption.
      * destruct (unhealthy_host_untouched s i h h') as [-> _];
          try assumption; reflexivity.
    + intros Hlead. destruct (reported W (Hosts s) h) eqn:Hrep;
        [reflexivity |].
      destruct (unhealthy_host_untouched s i h h') as [_ Hoff];
        try assumption; congruence.
    + intros [e He].
      apply (unhealthy_host_untouched s i h h'); try assumption.
      unfold reported. subst answer. cbv beta in He. rewrite He. reflexivity.
  - intros Hprov Hall. destruct s as [mem cp c j].
    cbn [Hosts ControlPlane] in *.
    rewrite quorum_lost_run; [split; reflexivity | exact Hprov |].
    intros h Hh. destruct (Hall h Hh) as [e He].
    unfold reported. subst answer. cbv beta in He. rewrite He. reflexivity.
Qed.

Lemma elected_when_reported (mem : list HostConfig) (cp : list Host) :
  NoDup (Config <$> cp) ->
  existsb (reported W mem) cp = true ->
  electOver F W cp false (clearAll (Config <$> cp) mem)
  = (true,
     electedStore W cp false (clearAll (Config <$> cp) mem),
     apiUpdate F W (clearAll (Config <$> cp) mem) <$> cp,
     healthQueries (@mkState Client mem cp None [])).
Proof.
  intros Hnd Hex. rewrite electOver_spec by exact Hnd.
  rewrite queries_cleared. cbn [orb]. f_equal. f_equal. f_equal.
  apply existsb_exists in Hex as (h & Hh & Hrep).
  apply list_elem_of_In in Hh.
  apply (existsb_some _ _ h Hh). rewrite healthyAt_cleared by exact Hh.
  exact Hrep.
Qed.


End Election.

Section NodeSet.

Context {Members Client : Type}.
Variable F : StatusFlags.
Variable W : @Collaborators Members Client.

(** The loops never write a host name. *)
Lemma hostname_alter (b : bool) (a p : nat) (mem : list HostConfig) :
  Hostname (deref (alter (setIsLeader b) a mem) p) = Hostname (deref mem p).
Proof. rewrite deref_alter_setIsLeader. case_decide; reflexivity. Qed.

Lemma hostname_clearAll (ptrs : list nat) (mem : list HostConfig) (p : nat) :
  Hostname (deref (clearAll ptrs mem) p) = Hostname (deref mem p).
Proof.
  rewrite deref_clearAll. destruct (bool_decide (p ∈ ptrs)); reflexivity.
Qed.

Lemma hostname_electOver (hosts : list Host) (b : bool)
    (mem : list HostConfig) (p : nat) :
  Hostname (deref (electOver F W hosts b mem).1.1.2 p)
  = Hostname (deref mem p).
Proof.
  revert b mem. induction hosts as [| h hosts IH]; intros b mem;
    [reflexivity |].
  cbn [electOver]. destruct (healthyAt W mem h).
  - specialize (IH true (if b then mem
                         else alter (setIsLeader true) (Config h) mem)).
    destruct (electOver F W hosts true _) as [[[b' mem'] hs] evs].
    cbn [fst snd] in *. rewrite IH. destruct b; [reflexivity |].
    apply hostname_alter.
  - specialize (IH b mem).
    destruct (electOver F W hosts b mem) as [[[b' mem'] hs] evs].
    cbn [fst snd] in *. exact IH.
Qed.

Lemma hostnames_eq (mem mem' : list HostConfig) (cp cp' : list Host) :
  (forall p, Hostname (deref mem' p) = Hostname (deref mem p)) ->
  Config <$> cp' = Config <$> cp ->
  hostnames mem' cp' = hostnames mem cp.
Proof.
  intros Hmem Hcp. unfold hostnames.
  change (fun h => Hostname (deref mem' (Config h)))
    with ((fun p => Hostname (deref mem' p)) ∘ Config).
  change (fun h => Hostname (deref mem (Config h)))
    with ((fun p => Hostname (deref mem p)) ∘ Config).
  rewrite !list_fmap_compose, Hcp. apply list_fmap_ext.
  intros i p _. apply Hmem.
Qed.

(** C8. When the reconciliation reports, the two sets it reports are the
    set differences of the configured host names and the names of the live
    control-plane nodes: to be provisioned is configured minus live, to be
    removed is live minus configured; and a live host is marked InCluster
    when its host name is a live node name, which, for a host not marked
    before, is the only way it gets marked. *)
Theorem node_set_differences
    (s s' : @State Client) (toProvision toRemove : gset string) :
  investigateCluster F W s = (Reported toProvision toRemove, s') ->
  exists client nodes,
    DynamicClient s' = Some client
    /\ DynamicClient_List W client = inl nodes
    /\ let configured : gset string :=
         list_to_set (hostnames (Hosts s) (ControlPlane s)) in
       let live : gset string := list_to_set nodes in
       toProvision = configured ∖ live
       /\ toRemove = live ∖ configured
       /\ forall i h h',
           ControlPlane s !! i = Some h -> ControlPlane s' !! i = Some h' ->
           let name := Hostname (deref (Hosts s) (Config h)) in
           IsInCluster h' = IsInCluster h || bool_decide (name ∈ live)
           /\ (IsInCluster h = false ->
               (IsInCluster h' = true <-> name ∈ live)).
Proof.
  destruct s as [mem cp c j]. rewrite investigateCluster_run.
  destruct (negb (IsProvisioned W mem cp)); [discriminate |].
  pose proof (electOver_proj F W Config cp false (clearAll (Config <$> cp) mem)
                ltac:(reflexivity)) as Hcfg2.
  pose proof (electOver_proj F W IsInCluster cp false
                (clearAll (Config <$> cp) mem) ltac:(reflexivity)) as Hin2.
  pose proof (fun p => hostname_electOver cp false
                         (clearAll (Config <$> cp) mem) p) as Hname2.
  destruct (electOver F W cp false _) as [[[b mem2] cp2] evs].
  cbn [fst snd] in Hcfg2, Hin2, Hname2.
  destruct (negb b); [discriminate |].
  destruct (etcdstatus_MemberList W) as [etcdMembers | err]; [| discriminate].
  cbn zeta.
  match goal with
  | |- context [clientset W ?s0] =>
      destruct (clientset_state W s0) as (_ & _ & _ & Hclient)
  end.
  destruct (clientset W _) as [[client | err] cs]; cbn [fst snd] in *;
    [| discriminate].
  destruct (DynamicClient_List W client) as [nodes | err] eqn:Hlist;
    [| discriminate].
  intros H. injection H as <- <- <-.
  cbn [Hosts ControlPlane DynamicClient].
  set (cp3 := etcdUpdate F W mem2 etcdMembers <$> cp2).
  assert (Hcfg3 : Config <$> cp3 = Config <$> cp).
  { unfold cp3. rewrite etcdUpdate_proj by reflexivity. exact Hcfg2. }
  assert (Hin3 : IsInCluster <$> cp3 = IsInCluster <$> cp).
  { unfold cp3. rewrite etcdUpdate_proj by reflexivity. exact Hin2. }
  assert (Hnames : hostnames mem2 cp3 = hostnames mem cp).
  { apply hostnames_eq; [| exact Hcfg3].
    intros p. rewrite Hname2. apply hostname_clearAll. }
  exists client, nodes. split; [apply Hclient; reflexivity |].
  split; [exact Hlist |]. rewrite Hnames. cbn zeta.
  split; [reflexivity |]. split; [reflexivity |].
  intros i h h' Hi Hi'.
  rewrite list_lookup_fmap in Hi'.
  destruct (cp3 !! i) as [h3 |] eqn:Hi3; [| discriminate].
  injection Hi' as <-.
  pose proof (lookup_fmap_eq Config _ _ i h h3 Hcfg3 Hi Hi3) as Hc.
  pose proof (lookup_fmap_eq IsInCluster _ _ i h h3 Hin3 Hi Hi3) as Hm.
  assert (Hn : Hostname (deref mem2 (Config h3)) = Hostname (deref mem (Config h))).
  { rewrite Hc, Hname2. apply hostname_clearAll. }
  assert (Hmark : IsInCluster
                    (markNodes (list_to_set (hostnames mem cp)) mem2 nodes h3)
                  = IsInCluster h
                    || bool_decide (Hostname (deref mem (Config h))
                                    ∈ (list_to_set nodes : gset string))).
  { rewrite markNodes_IsInCluster, Hm, Hn. f_equal. apply bool_decide_ext.
    rewrite !elem_of_list_to_set. split; [tauto |]. intros Hl.
    split; [exact Hl |]. unfold hostnames.
    apply (list_elem_of_fmap_2 (fun x => Hostname (deref mem (Config x)))).
    eapply list_elem_of_lookup_2, Hi. }
  split; [exact Hmark |].
  intros Hfresh. rewrite Hmark, Hfresh. cbn [orb].
  rewrite bool_decide_eq_true. reflexivity.
Qed.

End NodeSet.

(* ===================================================================== *)
(** ** The live cluster that the reconciliation starts from *)

Section Probing.

Context {Client : Type}.
Variable F : StatusFlags.
Variable L : Libraries.

Ltac split_matches :=
  repeat match goal with
         | |- context [match ?x with _ => _ end] => destruct x; cbn
         | |- context [if ?x then _ else _] => destruct x; cbn
         end.

Lemma detectDockerStatusVersion_same
    (mem : list HostConfig) (h : Host) (conn : Connection) :
  sameClusterFields h (detectDockerStatusVersion F L mem h conn).1.2.
Proof.
  unfold detectDockerStatusVersion, sameClusterFields.
  destruct (systemdStatus F L conn "docker") as [[status err] conn'].
  unfold Exec. cbn. split_matches; repeat split; reflexivity.
Qed.

Lemma detectKubeletStatusVersion_same
    (mem : list HostConfig) (h : Host) (conn : Connection) :
  sameClusterFields h (detectKubeletStatusVersion F L mem h conn).1.2.
Proof.
  unfold detectKubeletStatusVersion, sameClusterFields.
  destruct (systemdStatus F L conn "kubelet") as [[status err] conn'].
  unfold Exec. cbn. split_matches; repeat split; reflexivity.
Qed.

Lemma detectKubeletInitialized_same (h : Host) (conn : Connection) :
  sameClusterFields h (detectKubeletInitialized F h conn).1.2.
Proof.
  unfold detectKubeletInitialized, sameClusterFields, Exec.
  cbn. split_matches; repeat split; reflexivity.
Qed.

Lemma sameClusterFields_trans (a b c : Host) :
  sameClusterFields a b -> sameClusterFields b c -> sameClusterFields a c.
Proof. unfold sameClusterFields. intros; destruct_and!; repeat split; congruence. Qed.

Lemma sameClusterFields_refl (a : Host) : sameClusterFields a a.
Proof. repeat split. Qed.

Lemma findHost_lookup (mem : list HostConfig) (name : string)
    (cp : list Host) (k idx : nat) (h : Host) :
  findHost mem name cp k = Some (idx, h) ->
  exists i : nat, idx = (k + i)%nat /\ cp !! i = Some h.
Proof.
  revert k. induction cp as [| x cp IH]; intros k; cbn; [discriminate |].
  destruct (String.eqb _ name).
  - intros H. injection H as <- <-. exists 0%nat. split; [lia | reflexivity].
  - intros H. apply IH in H as (i & -> & Hi). exists (S i).
    split; [lia | exact Hi].
Qed.

(** Probing a host leaves the store alone and changes, in the live hosts,
    the container runtime and the kubelet of one host at most. *)
Lemma investigateHost_preserves (s : @State Client) (node : HostConfig)
    (conn : Connection) :
  let s' := (investigateHost F L s node conn).1.2 in
  Hosts s' = Hosts s
  /\ Forall2 sameClusterFields (ControlPlane s) (ControlPlane s').
Proof.
  assert (Hrefl : forall l : list Host, Forall2 sameClusterFields l l).
  { intros l. apply Forall_Forall2_diag, Forall_forall. intros x _.
    apply sameClusterFields_refl. }
  unfold investigateHost.
  destruct (findHost (Hosts s) (Hostname node) (ControlPlane s) 0)
    as [[idx h] |] eqn:Hfind; [| cbn; auto].
  apply findHost_lookup in Hfind as (i & -> & Hi). cbn [Nat.add] in *.
  pose proof (detectDockerStatusVersion_same (Hosts s) h conn) as H1.
  destruct (detectDockerStatusVersion F L (Hosts s) h conn) as [[e1 h1] c1].
  cbn [fst snd] in H1. destruct e1; [cbn; auto |].
  pose proof (detectKubeletStatusVersion_same (Hosts s) h1 c1) as H2.
  destruct (detectKubeletStatusVersion F L (Hosts s) h1 c1) as [[e2 h2] c2].
  cbn [fst snd] in H2. destruct e2; [cbn; auto |].
  pose proof (detectKubeletInitialized_same h2 c2) as H3.
  destruct (detectKubeletInitialized F h2 c2) as [[e3 h3] c3].
  cbn [fst snd] in H3. destruct e3; [cbn; auto |].
  cbn. split; [reflexivity |].
  rewrite <- (list_insert_id (ControlPlane s) i h Hi) at 1.
  apply Forall2_insert; [apply Hrefl |].
  eapply sameClusterFields_trans; [| exact H3].
  eapply sameClusterFields_trans; [exact H1 | exact H2].
Qed.

Lemma sameClusterFields_configs (l l' : list Host) :
  Forall2 sameClusterFields l l' -> Config <$> l' = Config <$> l.
Proof.
  induction 1 as [| x y l l' Hxy _ IH]; [reflexivity |].
  cbn. rewrite IH. destruct Hxy as [-> _]. reflexivity.
Qed.

(** The live cluster [runProbes] builds is well formed, none of its hosts is
    marked and none has a pod flag; probing keeps all of that. *)
Lemma newLiveCluster_wellFormed (hosts : list HostConfig)
    (c : option Client) (j : list Event) :
  wellFormed (mkState hosts (newLiveCluster hosts) c j) = true.
Proof.
  unfold wellFormed, newLiveCluster. cbn [Hosts ControlPlane].
  apply andb_true_iff. split.
  - apply bool_decide_eq_true. rewrite <- list_fmap_compose.
    rewrite (list_fmap_ext _ id (seq 0 (length hosts))) by reflexivity.
    rewrite list_fmap_id. apply NoDup_seq.
  - apply forallb_forall. intros h Hh. apply list_elem_of_In in Hh.
    apply list_elem_of_fmap in Hh as (i & -> & Hi). cbn.
    apply Nat.ltb_lt. apply elem_of_seq in Hi. lia.
Qed.

Lemma newLiveCluster_unmarked (hosts : list HostConfig) :
  Forall unmarked (newLiveCluster hosts).
Proof.
  apply Forall_forall. intros h Hh. unfold newLiveCluster in Hh.
  apply list_elem_of_fmap in Hh as (i & -> & _). repeat split.
Qed.

Lemma investigateHost_wellFormed (s : @State Client) (node : HostConfig)
    (conn : Connection) :
  wellFormed s = true ->
  wellFormed (investigateHost F L s node conn).1.2 = true.
Proof.
  destruct (investigateHost_preserves s node conn) as [Hmem Hcp].
  apply sameClusterFields_configs in Hcp as Hcfg.
  unfold wellFormed. rewrite Hmem, Hcfg. intros H.
  apply andb_true_iff in H as [H1 H2]. rewrite H1. cbn [andb].
  apply forallb_forall. intros h' Hh'. rewrite forallb_forall in H2.
  apply list_elem_of_In in Hh'.
  apply list_elem_of_lookup in Hh' as [i Hi'].
  destruct (Forall2_lookup_r _ _ _ _ _ Hcp Hi') as (h & Hi & Hs).
  destruct Hs as [-> _]. apply H2, list_elem_of_In.
  eapply list_elem_of_lookup_2, Hi.
Qed.

Lemma investigateHost_unmarked (s : @State Client) (node : HostConfig)
    (conn : Connection) :
  Forall unmarked (ControlPlane s) ->
  Forall unmarked (ControlPlane (investigateHost F L s node conn).1.2).
Proof.
  destruct (investigateHost_preserves s node conn) as [_ Hcp].
  intros Hall. apply Forall_forall. intros h' Hh'.
  apply list_elem_of_lookup in Hh' as [i Hi'].
  destruct (Forall2_lookup_r _ _ _ _ _ Hcp Hi') as (h & Hi & Hs).
  rewrite Forall_forall in Hall.
  specialize (Hall h ltac:(eapply list_elem_of_lookup_2, Hi)).
  destruct Hs as (_ & Ha & He & Hm), Hall as (H1 & H2 & H3).
  unfold unmarked. rewrite Ha, He, Hm. auto.
Qed.

End Probing.

(* ===================================================================== *)
(** ** More on the status decoder *)

Lemma lor_below (n a b : Z) :
  0 <= n -> 0 <= a < 2 ^ n -> 0 <= b < 2 ^ n -> 0 <= Z.lor a b < 2 ^ n.
Proof.
  intros Hn [Ha0 Ha] [Hb0 Hb].
  assert (H0 : 0 <= Z.lor a b) by (apply Z.lor_nonneg; auto).
  split; [exact H0 |].
  destruct (Z.eq_dec (Z.lor a b) 0) as [-> | Hne];
    [apply Z.pow_pos_nonneg; lia |].
  assert (Hn' : 0 < n).
  { destruct (Z.eq_dec n 0) as [E | E]; [| lia]. subst n. exfalso. apply Hne.
    change (2 ^ 0) with 1 in Ha, Hb.
    replace a with 0 by lia. replace b with 0 by lia. reflexivity. }
  apply Z.log2_lt_pow2; [lia |].
  rewrite Z.log2_lor by assumption.
  apply Z.max_lub_lt.
  - destruct (Z.eq_dec a 0) as [-> | Ha']; [cbn; lia |].
    apply Z.log2_lt_pow2; lia.
  - destruct (Z.eq_dec b 0) as [-> | Hb']; [cbn; lia |].
    apply Z.log2_lt_pow2; lia.
Qed.

(** The facts about the flags of [F], and the rewriting of flag tests with
    them. *)
Ltac flag_facts F HF :=
  let Hpos := fresh "Hpos" in
  let Hdis := fresh "Hdis" in
  pose proof (flags_positive F HF) as Hpos;
  pose proof (flags_disjoint F HF) as Hdis;
  unfold allFlags in Hpos, Hdis; simpl in Hdis;
  repeat rewrite andb_true_iff in Hdis; rewrite ?Z.eqb_eq in Hdis;
  destruct_and!;
  repeat match goal with
         | H : Forall _ (_ :: _) |- _ =>
             let Hx := fresh "Hp" in
             apply Forall_cons in H as [Hx H]
         end.

Ltac flag_rewrite :=
  repeat match goal with
         | H : 0 < ?f |- _ => rewrite (isSet_self f H)
         | H : Z.land ?a ?b = 0 |- _ =>
             first [ rewrite (isSet_disjoint a b H)
                   | rewrite (isSet_comm_false a b H) ]
         end;
  simpl.

Section DecoderProperties.

Variable F : StatusFlags.
Variable L : Libraries.

Lemma flags_in_range :
  independentFlags F = true ->
  Forall (fun x => 0 <= x < 2 ^ 64) (allFlags F).
Proof.
  unfold independentFlags. intros H. apply andb_true_iff in H as [H _].
  rewrite forallb_forall in H. apply List.Forall_forall. intros x Hx.
  specialize (H x Hx). apply andb_true_iff in H as [H1 H2].
  apply Z.ltb_lt in H1, H2. lia.
Qed.

Lemma decodeStatus_word (m : gmap string string) :
  independentFlags F = true ->
  let status := decodeStatus F m in
  (isSet status (ComponentInstalled F) = true
   <-> index m "LoadState" = "loaded")
  /\ (isSet status (SystemDStatusActive F) = true
      <-> index m "ActiveState" = "active"
          \/ index m "ActiveState" = "activating")
  /\ isSet status (KubeletInitialized F) = false
  /\ isSet status (PodRunning F) = false
  /\ 0 <= status < 2 ^ 64.
Proof.
  intros HF status. subst status.
  pose proof (flags_in_range HF) as Hr. unfold allFlags in Hr.
  rewrite !Forall_cons in Hr. destruct Hr as (R1 & R2 & R3 & R4 & R5 & R6 & _).
  flag_facts F HF.
  unfold decodeStatus.
  destruct (String.eqb_spec (index m "LoadState") "loaded") as [E1 | E1];
  destruct (String.eqb_spec (index m "ActiveState") "active") as [E2 | E2];
  destruct (String.eqb_spec (index m "ActiveState") "activating") as [E3 | E3];
  cbn [orb];
  (split; [| split; [| split; [| split]]]);
  try (destruct (String.eqb (index m "SubState") "running");
       [| destruct (String.eqb (index m "SubState") "auto-restart");
          [| destruct (String.eqb (index m "SubState") "dead")]];
       repeat apply lor_below; lia);
  rewrite ?isSet_lor, ?isSet_0;
  repeat match goal with
         | |- context [if ?b then _ else _] => destruct b
         end;
  rewrite ?isSet_lor, ?isSet_0; flag_rewrite; try reflexivity;
  try (split; intros; try tauto; try discriminate; try congruence;
       intuition congruence).
Qed.

(** The word of a status query, whatever the query answers. *)
Lemma systemdStatus_word (conn : Connection) (service : string) :
  independentFlags F = true ->
  0 <= (systemdStatus F L conn service).1.1 < 2 ^ 64
  /\ isSet (systemdStatus F L conn service).1.1 (KubeletInitialized F) = false
  /\ isSet (systemdStatus F L conn service).1.1 (PodRunning F) = false.
Proof.
  intros HF. unfold systemdStatus, Exec.
  destruct (execErr (respond conn (systemdShowStatusCMD service)));
    [cbn; rewrite !isSet_0; repeat split; lia |].
  destruct (yaml_Unmarshal L _) as [m | e];
    [| cbn; rewrite !isSet_0; repeat split; lia].
  cbn [fst]. destruct (decodeStatus_word m HF) as (_ & _ & H3 & H4 & H5).
  auto.
Qed.

End DecoderProperties.

Section ProberExtras.

Variable F : StatusFlags.
Variable L : Libraries.

(** X1. Whenever [systemdStatus] decodes the status text, the Installed flag
    is set exactly when LoadState is "loaded" and the Active flag exactly
    when ActiveState is "active" or "activating", whatever SubState is. *)
Theorem systemdStatus_installed_and_active
    (conn conn' : Connection) (service : string) (status : Z) :
  independentFlags F = true ->
  systemdStatus F L conn service = ((status, None), conn') ->
  exists m : gmap string string,
    yaml_Unmarshal L
      (strings_ReplaceAll
         (stdout (respond conn (systemdShowStatusCMD service))) "="%char ": ")
    = inl m
    /\ (isSet status (ComponentInstalled F) = true
        <-> index m "LoadState" = "loaded")
    /\ (isSet status (SystemDStatusActive F) = true
        <-> index m "ActiveState" = "active"
            \/ index m "ActiveState" = "activating").
Proof.
  intros HF. unfold systemdStatus, Exec.
  destruct (execErr (respond conn (systemdShowStatusCMD service)));
    [discriminate |].
  destruct (yaml_Unmarshal L _) as [m | e] eqn:Hm; [| discriminate].
  intros H. injection H as Hst _. subst status.
  exists m. split; [reflexivity |].
  destruct (decodeStatus_word F m HF) as (H1 & H2 & _). auto.
Qed.

(** X2. The status word [systemdStatus] returns, on success or on failure,
    fits in 64 bits and never has the Initialized or the PodRunning flag. *)
Theorem systemdStatus_word_in_range (conn : Connection) (service : string) :
  independentFlags F = true ->
  let status := (systemdStatus F L conn service).1.1 in
  0 <= status < 2 ^ 64
  /\ isSet status (KubeletInitialized F) = false
  /\ isSet status (PodRunning F) = false.
Proof. intros HF. apply systemdStatus_word, HF. Qed.

Lemma systemdStatus_error_word (conn : Connection) (service : string) :
  (systemdStatus F L conn service).1.2 <> None ->
  (systemdStatus F L conn service).1.1 = 0.
Proof.
  unfold systemdStatus, Exec.
  destruct (execErr (respond conn (systemdShowStatusCMD service)));
    [reflexivity |].
  destruct (yaml_Unmarshal L _); cbn; [congruence | reflexivity].
Qed.

(** X3. [systemdStatus] fails exactly when the command reports an error,
    which it returns, or the normalised output cannot be decoded, in which
    case it returns the decoder's error; the status word of a failure
    is 0. *)
Theorem systemdStatus_failure (conn : Connection) (service : string) :
  let r := respond conn (systemdShowStatusCMD service) in
  let res := systemdStatus F L conn service in
  (forall err,
      res.1.2 = Some err
      <-> execErr r = Some err
          \/ (execErr r = None
              /\ yaml_Unmarshal L
                   (strings_ReplaceAll (stdout r) "="%char ": ") = inr err))
  /\ (res.1.2 <> None -> res.1.1 = 0).
Proof.
  intros r res. subst res. unfold systemdStatus, Exec. fold r.
  destruct (execErr r) as [e |].
  - cbn. split; [| reflexivity]. intros err. split.
    + intros H. left. exact H.
    + intros [H | [H _]]; [exact H | discriminate].
  - destruct (yaml_Unmarshal L _) as [m | e]; cbn.
    + split; [| congruence]. intros err. split; [discriminate |].
      intros [H | [_ H]]; discriminate.
    + split; [| reflexivity]. intros err. split.
      * intros H. right. split; [reflexivity |]. congruence.
      * intros [H | [_ H]]; [discriminate | congruence].
Qed.

(** X4. [systemdStatus] reads the error and the output of the command and
    nothing else, and the output only up to the separator: two answers with
    the same error whose outputs agree once every "=" is written ": " give
    the same status word and the same error, whatever their exit codes
    are. *)
Theorem systemdStatus_reads_normalised_output
    (conn1 conn2 : Connection) (service : string) :
  let r1 := respond conn1 (systemdShowStatusCMD service) in
  let r2 := respond conn2 (systemdShowStatusCMD service) in
  execErr r1 = execErr r2 ->
  strings_ReplaceAll (stdout r1) "="%char ": "
  = strings_ReplaceAll (stdout r2) "="%char ": " ->
  (systemdStatus F L conn1 service).1 = (systemdStatus F L conn2 service).1.
Proof.
  intros r1 r2 Herr Hout. unfold systemdStatus, Exec. fold r1 r2.
  rewrite Herr, Hout. destruct (execErr r2); [reflexivity |].
  destruct (yaml_Unmarshal L _); reflexivity.
Qed.

(** X5. A check whose component is not installed runs the status command
    only, returns no error and keeps the version the host had. *)
Theorem not_installed_skips_version
    (mem : list HostConfig) (host : Host) (conn conn' : Connection)
    (status : Z) :
  isSet status (ComponentInstalled F) = false ->
  (systemdStatus F L conn "docker" = ((status, None), conn') ->
   detectDockerStatusVersion F L mem host conn
   = (None,
      setContainerRuntime host
        (mkComponentStatus (CVersion (ContainerRuntime host)) status),
      conn')
   /\ issued conn' = issued conn ++ [systemdShowStatusCMD "docker"])
  /\ (systemdStatus F L conn "kubelet" = ((status, None), conn') ->
      detectKubeletStatusVersion F L mem host conn
      = (None,
         setKubelet host (mkComponentStatus (CVersion (Kubelet host)) status),
         conn')
      /\ issued conn' = issued conn ++ [systemdShowStatusCMD "kubelet"]).
Proof.
  intros Hinst.
  assert (Htest : (Z.land status (ComponentInstalled F) =? 0) = true).
  { unfold isSet in Hinst. apply negb_false_iff in Hinst. exact Hinst. }
  split; intros Hsys.
  - pose proof (systemdStatus_issued F L conn "docker") as Hiss.
    rewrite Hsys in Hiss. cbn [snd] in Hiss. subst conn'.
    unfold detectDockerStatusVersion. rewrite Hsys. cbn. rewrite Htest.
    split; reflexivity.
  - pose proof (systemdStatus_issued F L conn "kubelet") as Hiss.
    rewrite Hsys in Hiss. cbn [snd] in Hiss. subst conn'.
    unfold detectKubeletStatusVersion. rewrite Hsys. cbn. rewrite Htest.
    split; reflexivity.
Qed.

(** X6. When the status query of a check fails, the check returns that
    error, has run the status command only, keeps the version, and leaves
    the status word of the component at 0, whatever it was before. *)
Theorem status_failure_resets_word
    (mem : list HostConfig) (host : Host) (conn : Connection) (err : error) :
  ((systemdStatus F L conn "docker").1.2 = Some err ->
   detectDockerStatusVersion F L mem host conn
   = (Some err,
      setContainerRuntime host
        (mkComponentStatus (CVersion (ContainerRuntime host)) 0),
      mkConnection (respond conn)
        (issued conn ++ [systemdShowStatusCMD "docker"])))
  /\ ((systemdStatus F L conn "kubelet").1.2 = Some err ->
      detectKubeletStatusVersion F L mem host conn
      = (Some err,
         setKubelet host (mkComponentStatus (CVersion (Kubelet host)) 0),
         mkConnection (respond conn)
           (issued conn ++ [systemdShowStatusCMD "kubelet"]))).
Proof.
  split; intros Herr.
  - pose proof (systemdStatus_issued F L conn "docker") as Hiss.
    pose proof (systemdStatus_error_word conn "docker") as Hzero.
    unfold detectDockerStatusVersion.
    destruct (systemdStatus F L conn "docker") as [[st e] c].
    cbn [fst snd] in *. subst e c. rewrite Hzero by discriminate.
    reflexivity.
  - pose proof (systemdStatus_issued F L conn "kubelet") as Hiss.
    pose proof (systemdStatus_error_word conn "kubelet") as Hzero.
    unfold detectKubeletStatusVersion.
    destruct (systemdStatus F L conn "kubelet") as [[st e] c].
    cbn [fst snd] in *. subst e c. rewrite Hzero by discriminate.
    reflexivity.
Qed.

(** X7. When the version command of a check reports an error, the check
    returns that error as it is and keeps the version; the status word it
    has stored stays.  The command is the rpm query on CentOS and RHEL, the
    dpkg query on Ubuntu and, for the kubelet, the CLI on Flatcar and
    CoreOS. *)
Theorem version_command_failure
    (mem : list HostConfig) (host : Host) (conn conn' : Connection)
    (status : Z) (cmd : string) (err : error) :
  isSet status (ComponentInstalled F) = true ->
  execErr (respond conn cmd) = Some err ->
  (systemdStatus F L conn "docker" = ((status, None), conn') ->
   dockerVersionCmdOf (OperatingSystem (deref mem (Config host))) = Some cmd ->
   detectDockerStatusVersion F L mem host conn
   = (Some err,
      setContainerRuntime host
        (mkComponentStatus (CVersion (ContainerRuntime host)) status),
      mkConnection (respond conn)
        (issued conn ++ [systemdShowStatusCMD "docker"; cmd])))
  /\ (systemdStatus F L conn "kubelet" = ((status, None), conn') ->
      kubeletVersionCmdOf (OperatingSystem (deref mem (Config host)))
      = Some cmd ->
      detectKubeletStatusVersion F L mem host conn
      = (Some err,
         setKubelet host (mkComponentStatus (CVersion (Kubelet host)) status),
         mkConnection (respond conn)
           (issued conn ++ [systemdShowStatusCMD "kubelet"; cmd]))).
Proof.
  intros Hinst Herr. split; intros Hsys Hcmd.
  - pose proof (systemdStatus_issued F L conn "docker") as Hiss.
    rewrite Hsys in Hiss. cbn [snd] in Hiss. subst conn'.
    unfold detectDockerStatusVersion. rewrite Hsys. simpl.
    rewrite (installed_test F _ Hinst).
    destruct (OperatingSystem (deref mem (Config host))); cbn in Hcmd;
      try discriminate; injection Hcmd as <-; unfold Exec; simpl;
      rewrite Herr, <- app_assoc; reflexivity.
  - pose proof (systemdStatus_issued F L conn "kubelet") as Hiss.
    rewrite Hsys in Hiss. cbn [snd] in Hiss. subst conn'.
    unfold detectKubeletStatusVersion. rewrite Hsys. simpl.
    rewrite (installed_test F _ Hinst).
    destruct (OperatingSystem (deref mem (Config host))); cbn in Hcmd;
      try discriminate; injection Hcmd as <-; unfold Exec; simpl;
      rewrite Herr, <- app_assoc; reflexivity.
Qed.

(** X8. When the version command of a check answers a text that parses once
    trimmed, the check returns no error, stores the parsed version beside
    the decoded status word, and has run the status command and then the
    version command, in that order. *)
Theorem version_command_success
    (mem : list HostConfig) (host : Host) (conn conn' : Connection)
    (status : Z) (cmd : string) (ver : Version) :
  isSet status (ComponentInstalled F) = true ->
  execErr (respond conn cmd) = None ->
  semver_NewVersion L (strings_TrimSpace L (stdout (respond conn cmd)))
  = inl ver ->
  (systemdStatus F L conn "docker" = ((status, None), conn') ->
   dockerVersionCmdOf (OperatingSystem (deref mem (Config host))) = Some cmd ->
   detectDockerStatusVersion F L mem host conn
   = (None,
      setContainerRuntime host (mkComponentStatus (Some ver) status),
      mkConnection (respond conn)
        (issued conn ++ [systemdShowStatusCMD "docker"; cmd])))
  /\ (systemdStatus F L conn "kubelet" = ((status, None), conn') ->
      kubeletVersionCmdOf (OperatingSystem (deref mem (Config host)))
      = Some cmd ->
      detectKubeletStatusVersion F L mem host conn
      = (None,
         setKubelet host (mkComponentStatus (Some ver) status),
         mkConnection (respond conn)
           (issued conn ++ [systemdShowStatusCMD "kubelet"; cmd]))).
Proof.
  intros Hinst Herr Hver. split; intros Hsys Hcmd.
  - rewrite (detectDockerStatusVersion_parses F L mem host conn conn' status cmd)
      by assumption.
    cbv zeta. rewrite Hver.
    pose proof (systemdStatus_issued F L conn "docker") as Hiss.
    rewrite Hsys in Hiss. cbn [snd] in Hiss. subst conn'.
    unfold Exec. cbn. rewrite <- app_assoc. reflexivity.
  - rewrite (detectKubeletStatusVersion_parses F L mem host conn conn' status cmd)
      by assumption.
    cbv zeta. rewrite Hver.
    pose proof (systemdStatus_issued F L conn "kubelet") as Hiss.
    rewrite Hsys in Hiss. cbn [snd] in Hiss. subst conn'.
    unfold Exec. cbn. rewrite <- app_assoc. reflexivity.
Qed.

(** X9. When the version command of a check answers a text that does not
    parse once trimmed, the container-runtime check returns the parser's
    error wrapped with the output as the command gave it, not trimmed,
    while the kubelet check returns the parser's error as it is; both keep
    the version the host had beside the decoded status word. *)
Theorem version_parse_failure
    (mem : list HostConfig) (host : Host) (conn conn' : Connection)
    (status : Z) (cmd : string) (err : error) :
  isSet status (ComponentInstalled F) = true ->
  execErr (respond conn cmd) = None ->
  semver_NewVersion L (strings_TrimSpace L (stdout (respond conn cmd)))
  = inr err ->
  (systemdStatus F L conn "docker" = ((status, None), conn') ->
   dockerVersionCmdOf (OperatingSystem (deref mem (Config host))) = Some cmd ->
   detectDockerStatusVersion F L mem host conn
   = (Some (errors_Wrapf err "version was: %q" (stdout (respond conn cmd))),
      setContainerRuntime host
        (mkComponentStatus (CVersion (ContainerRuntime host)) status),
      mkConnection (respond conn)
        (issued conn ++ [systemdShowStatusCMD "docker"; cmd])))
  /\ (systemdStatus F L conn "kubelet" = ((status, None), conn') ->
      kubeletVersionCmdOf (OperatingSystem (deref mem (Config host)))
      = Some cmd ->
      detectKubeletStatusVersion F L mem host conn
      = (Some err,
         setKubelet host (mkComponentStatus (CVersion (Kubelet host)) status),
         mkConnection (respond conn)
           (issued conn ++ [systemdShowStatusCMD "kubelet"; cmd]))).
Proof.
  intros Hinst Herr Hver. split; intros Hsys Hcmd.
  - rewrite (detectDockerStatusVersion_parses F L mem host conn conn' status cmd)
      by assumption.
    cbv zeta. rewrite Hver.
    pose proof (systemdStatus_issued F L conn "docker") as Hiss.
    rewrite Hsys in Hiss. cbn [snd] in Hiss. subst conn'.
    unfold Exec. cbn. rewrite <- app_assoc. reflexivity.
  - rewrite (detectKubeletStatusVersion_parses F L mem host conn conn' status cmd)
      by assumption.
    cbv zeta. rewrite Hver.
    pose proof (systemdStatus_issued F L conn "kubelet") as Hiss.
    rewrite Hsys in Hiss. cbn [snd] in Hiss. subst conn'.
    unfold Exec. cbn. rewrite <- app_assoc. reflexivity.
Qed.

End ProberExtras.

(* ===================================================================== *)
(** ** The investigation of one host *)

Section HostInvestigation.

Context {Client : Type}.
Variable F : StatusFlags.
Variable L : Libraries.

Ltac split_all :=
  repeat match goal with
         | |- context [match ?x with _ => _ end] => destruct x; cbn
         | |- context [if ?x then _ else _] => destruct x; cbn
         end.

(** What each check runs, and that a check never changes what the remote
    host answers. *)
Lemma detectDockerStatusVersion_issued
    (mem : list HostConfig) (h : Host) (conn : Connection) :
  let conn' := (detectDockerStatusVersion F L mem h conn).2 in
  respond conn' = respond conn
  /\ exists dv, issued conn'
                = issued conn ++ systemdShowStatusCMD "docker" :: dv
                /\ atMostOneOf dockerVersionCommands dv.
Proof.
  unfold detectDockerStatusVersion.
  pose proof (systemdStatus_issued F L conn "docker") as Hiss.
  destruct (systemdStatus F L conn "docker") as [[status err] c].
  cbn [snd] in Hiss. subst c. unfold Exec, atMostOneOf, dockerVersionCommands.
  cbn. split_all; (split; [reflexivity |]);
    first [ exists []; split; [reflexivity | left; reflexivity]
          | eexists [_]; split;
            [rewrite <- app_assoc; reflexivity
            | right; eexists; split; [reflexivity |];
              rewrite !elem_of_cons; auto ] ].
Qed.

Lemma detectKubeletStatusVersion_issued
    (mem : list HostConfig) (h : Host) (conn : Connection) :
  let conn' := (detectKubeletStatusVersion F L mem h conn).2 in
  respond conn' = respond conn
  /\ exists kv, issued conn'
                = issued conn ++ systemdShowStatusCMD "kubelet" :: kv
                /\ atMostOneOf kubeletVersionCommands kv.
Proof.
  unfold detectKubeletStatusVersion.
  pose proof (systemdStatus_issued F L conn "kubelet") as Hiss.
  destruct (systemdStatus F L conn "kubelet") as [[status err] c].
  cbn [snd] in Hiss. subst c. unfold Exec, atMostOneOf, kubeletVersionCommands.
  cbn. split_all; (split; [reflexivity |]);
    first [ exists []; split; [reflexivity | left; reflexivity]
          | eexists [_]; split;
            [rewrite <- app_assoc; reflexivity
            | right; eexists; split; [reflexivity |];
              rewrite !elem_of_cons; auto ] ].
Qed.

Lemma detectKubeletInitialized_issued (h : Host) (conn : Connection) :
  (detectKubeletInitialized F h conn).2
  = mkConnection (respond conn) (issued conn ++ [kubeletInitializedCMD]).
Proof. unfold detectKubeletInitialized, Exec. split_all; reflexivity. Qed.

(** The kubelet check leaves, as status word of the kubelet, the word the
    status query returned. *)
Lemma detectKubeletStatusVersion_word
    (mem : list HostConfig) (h : Host) (conn : Connection) :
  CStatus (Kubelet (detectKubeletStatusVersion F L mem h conn).1.2)
  = (systemdStatus F L conn "kubelet").1.1.
Proof.
  unfold detectKubeletStatusVersion.
  destruct (systemdStatus F L conn "kubelet") as [[status err] c].
  unfold Exec. cbn. split_all; reflexivity.
Qed.

(** [investigateHost] as the chain of its three checks. *)
Lemma investigateHost_run (s : @State Client) (node : HostConfig)
    (conn : Connection) (idx : nat) (h : Host) :
  findHost (Hosts s) (Hostname node) (ControlPlane s) 0 = Some (idx, h) ->
  let r1 := detectDockerStatusVersion F L (Hosts s) h conn in
  let r2 := detectKubeletStatusVersion F L (Hosts s) r1.1.2 r1.2 in
  let r3 := detectKubeletInitialized F r2.1.2 r2.2 in
  investigateHost F L s node conn
  = match r1.1.1 with
    | Some err => (Some err, s, r1.2)
    | None =>
        match r2.1.1 with
        | Some err => (Some err, s, r2.2)
        | None =>
            match r3.1.1 with
            | Some err => (Some err, s, r3.2)
            | None =>
                (None, setControlPlane (<[idx := r3.1.2]> (ControlPlane s)) s,
                 r3.2)
            end
        end
    end.
Proof.
  intros Hfind r1 r2 r3. subst r1 r2 r3. unfold investigateHost.
  rewrite Hfind.
  destruct (detectDockerStatusVersion F L (Hosts s) h conn) as [[e1 h1] c1].
  cbn [fst snd]. destruct e1; [reflexivity |].
  destruct (detectKubeletStatusVersion F L (Hosts s) h1 c1) as [[e2 h2] c2].
  cbn [fst snd]. destruct e2; [reflexivity |].
  destruct (detectKubeletInitialized F h2 c2) as [[e3 h3] c3].
  cbn [fst snd]. destruct e3; reflexivity.
Qed.

Lemma findHost_spec (mem : list HostConfig) (name : string)
    (cp : list Host) (k : nat) :
  match findHost mem name cp k with
  | Some (i, h) =>
      exists j, i = (k + j)%nat /\ cp !! j = Some h
                /\ Hostname (deref mem (Config h)) = name
                /\ forall j' h', (j' < j)%nat -> cp !! j' = Some h' ->
                                 Hostname (deref mem (Config h')) <> name
  | None => forall h, h ∈ cp -> Hostname (deref mem (Config h)) <> name
  end.
Proof.
  revert k. induction cp as [| x cp IH]; intros k; cbn [findHost].
  - intros h Hh. inversion Hh.
  - destruct (String.eqb_spec (Hostname (deref mem (Config x))) name)
      as [Heq | Hne].
    + exists 0%nat. repeat split; [lia | exact Heq |]. intros j' h' Hj. lia.
    + specialize (IH (S k)). destruct (findHost mem name cp (S k)) as [[i h] |].
      * destruct IH as (j & -> & Hj & Hname & Hfirst). exists (S j).
        repeat split; [lia | exact Hj | exact Hname |].
        intros j' h' Hlt Hl. destruct j' as [| j'].
        -- injection Hl as <-. exact Hne.
        -- apply (Hfirst j' h'); [lia | exact Hl].
      * intros h Hh. apply elem_of_cons in Hh as [-> | Hh]; [exact Hne |].
        apply IH, Hh.
Qed.

(** X10. The search of [investigateHost] returns the first live host, by
    index, whose configuration has the host name, and returns none exactly
    when no live host has it. *)
Theorem findHost_first_match (mem : list HostConfig) (name : string)
    (cp : list Host) :
  match findHost mem name cp 0 with
  | Some (i, h) =>
      cp !! i = Some h
      /\ Hostname (deref mem (Config h)) = name
      /\ forall j h', (j < i)%nat -> cp !! j = Some h' ->
                      Hostname (deref mem (Config h')) <> name
  | None => forall h, h ∈ cp -> Hostname (deref mem (Config h)) <> name
  end.
Proof.
  pose proof (findHost_spec mem name cp 0) as H.
  destruct (findHost mem name cp 0) as [[i h] |]; [| exact H].
  destruct H as (j & -> & H). exact H.
Qed.

(** X11. When no live host has the host name of the node, [investigateHost]
    returns the no-match error, runs no command and leaves the state as it
    is. *)
Theorem investigateHost_no_match (s : @State Client) (node : HostConfig)
    (conn : Connection) :
  (forall h, h ∈ ControlPlane s ->
             Hostname (deref (Hosts s) (Config h)) <> Hostname node) ->
  investigateHost F L s node conn = (Some errNoMatch, s, conn).
Proof.
  intros Hnone. unfold investigateHost.
  pose proof (findHost_spec (Hosts s) (Hostname node) (ControlPlane s) 0) as H.
  destruct (findHost _ _ _ 0) as [[i h] |]; [| reflexivity].
  destruct H as (j & _ & Hj & Hname & _). exfalso.
  apply (Hnone h); [eapply list_elem_of_lookup_2, Hj | exact Hname].
Qed.

(** X12. An investigation that returns an error leaves the state as it is:
    what the checks found before the error is not written back. *)
Theorem investigateHost_failure_keeps_state (s : @State Client)
    (node : HostConfig) (conn : Connection) :
  (investigateHost F L s node conn).1.1 <> None ->
  (investigateHost F L s node conn).1.2 = s.
Proof.
  destruct (findHost (Hosts s) (Hostname node) (ControlPlane s) 0)
    as [[idx h] |] eqn:Hfind.
  - rewrite (investigateHost_run s node conn idx h Hfind). cbv zeta.
    repeat match goal with
           | |- context [match ?x with Some _ => _ | None => _ end] =>
               destruct x
           end; cbn; congruence.
  - unfold investigateHost. rewrite Hfind. reflexivity.
Qed.

(** X13. A successful investigation writes one live host, the one the
    search found, and nothing else of the state: the other live hosts, the
    store, the client and the journal are as they were, and the written
    host differs from the found one in its container runtime and kubelet
    only. *)
Theorem investigateHost_success_writes_one
    (s s' : @State Client) (node : HostConfig) (conn conn' : Connection) :
  investigateHost F L s node conn = (None, s', conn') ->
  exists idx h h',
    findHost (Hosts s) (Hostname node) (ControlPlane s) 0 = Some (idx, h)
    /\ s' = setControlPlane (<[idx := h']> (ControlPlane s)) s
    /\ ControlPlane s' !! idx = Some h'
    /\ (forall j, j <> idx -> ControlPlane s' !! j = ControlPlane s !! j)
    /\ sameClusterFields h h'.
Proof.
  intros Hrun.
  destruct (findHost (Hosts s) (Hostname node) (ControlPlane s) 0)
    as [[idx h] |] eqn:Hfind.
  2:{ unfold investigateHost in Hrun. rewrite Hfind in Hrun. discriminate. }
  rewrite (investigateHost_run s node conn idx h Hfind) in Hrun.
  cbv zeta in Hrun.
  pose proof (detectDockerStatusVersion_same F L (Hosts s) h conn) as H1.
  destruct (detectDockerStatusVersion F L (Hosts s) h conn) as [[e1 h1] c1].
  cbn [fst snd] in *. destruct e1; [discriminate |].
  pose proof (detectKubeletStatusVersion_same F L (Hosts s) h1 c1) as H2.
  destruct (detectKubeletStatusVersion F L (Hosts s) h1 c1) as [[e2 h2] c2].
  cbn [fst snd] in *. destruct e2; [discriminate |].
  pose proof (detectKubeletInitialized_same F h2 c2) as H3.
  destruct (detectKubeletInitialized F h2 c2) as [[e3 h3] c3].
  cbn [fst snd] in *. destruct e3; [discriminate |].
  injection Hrun as <- <-.
  pose proof (findHost_spec (Hosts s) (Hostname node) (ControlPlane s) 0) as Hs.
  rewrite Hfind in Hs. destruct Hs as (j & -> & Hj & _).
  exists (0 + j)%nat, h, h3. cbn [Nat.add ControlPlane setControlPlane].
  split; [reflexivity |]. split; [reflexivity |]. split; [| split].
  - apply list_lookup_insert_eq. eapply lookup_lt_Some, Hj.
  - intros j' Hne. apply list_lookup_insert_ne. congruence.
  - eapply sameClusterFields_trans; [| exact H3].
    eapply sameClusterFields_trans; [exact H1 | exact H2].
Qed.

Lemma probeTrace_docker (dv kv : list string) :
  probeTrace dv kv
  = (systemdShowStatusCMD "docker" :: dv)
    ++ systemdShowStatusCMD "kubelet" :: kv ++ [kubeletInitializedCMD].
Proof. reflexivity. Qed.

Lemma probeTrace_kubelet (dv kv : list string) :
  probeTrace dv kv
  = ((systemdShowStatusCMD "docker" :: dv)
     ++ systemdShowStatusCMD "kubelet" :: kv) ++ [kubeletInitializedCMD].
Proof. rewrite <- app_assoc. reflexivity. Qed.

(** X14. An investigation runs its commands in one fixed order: the docker
    status query, at most one docker version query, the kubelet status
    query, at most one kubelet version query, the marker-file test.  It
    stops at the first check that fails, so the commands it has run are a
    prefix of that sequence, and the whole sequence when it succeeds; it
    never changes what the remote host answers. *)
Theorem investigateHost_command_order (s : @State Client) (node : HostConfig)
    (conn : Connection) :
  let res := investigateHost F L s node conn in
  respond res.2 = respond conn
  /\ exists dv kv t,
      atMostOneOf dockerVersionCommands dv
      /\ atMostOneOf kubeletVersionCommands kv
      /\ issued res.2 = issued conn ++ t
      /\ t `prefix_of` probeTrace dv kv
      /\ (res.1.1 = None -> t = probeTrace dv kv).
Proof.
  intros res. subst res.
  destruct (findHost (Hosts s) (Hostname node) (ControlPlane s) 0)
    as [[idx h] |] eqn:Hfind.
  2:{ unfold investigateHost. rewrite Hfind. cbn. split; [reflexivity |].
      exists [], [], []. rewrite app_nil_r.
      repeat split; try (left; reflexivity); try discriminate.
      apply prefix_nil. }
  rewrite (investigateHost_run s node conn idx h Hfind). cbv zeta.
  destruct (detectDockerStatusVersion_issued (Hosts s) h conn)
    as (Hr1 & dv & Hi1 & Hdv).
  destruct (detectDockerStatusVersion F L (Hosts s) h conn) as [[e1 h1] c1].
  cbn [fst snd] in *.
  destruct e1 as [e1 |].
  { cbn [fst snd]. split; [exact Hr1 |].
    exists dv, [], (systemdShowStatusCMD "docker" :: dv).
    repeat split; try assumption; try (left; reflexivity); try discriminate.
    rewrite probeTrace_docker. apply prefix_app_r. reflexivity. }
  destruct (detectKubeletStatusVersion_issued (Hosts s) h1 c1)
    as (Hr2 & kv & Hi2 & Hkv).
  destruct (detectKubeletStatusVersion F L (Hosts s) h1 c1) as [[e2 h2] c2].
  cbn [fst snd] in *.
  destruct e2 as [e2 |].
  { cbn [fst snd]. split; [congruence |].
    exists dv, kv, ((systemdShowStatusCMD "docker" :: dv)
                    ++ systemdShowStatusCMD "kubelet" :: kv).
    repeat split; try assumption; try discriminate.
    - rewrite Hi2, Hi1, <- app_assoc. reflexivity.
    - rewrite probeTrace_kubelet. apply prefix_app_r. reflexivity. }
  pose proof (detectKubeletInitialized_issued h2 c2) as Hi3.
  destruct (detectKubeletInitialized F h2 c2) as [[e3 h3] c3].
  cbn [fst snd] in *. subst c3.
  assert (Hall : issued c2 ++ [kubeletInitializedCMD]
                 = issued conn ++ probeTrace dv kv).
  { rewrite probeTrace_kubelet, Hi2, Hi1, <- !app_assoc. reflexivity. }
  destruct e3 as [e3 |]; cbn [fst snd respond issued];
    (split; [congruence |]); exists dv, kv, (probeTrace dv kv);
    repeat split; try assumption; try reflexivity.
Qed.

(** X15. After a successful investigation the Initialized flag of the
    written host says what the marker-file test said and nothing older: it
    is set exactly when the test exited with code 0, whatever flag the host
    carried before. *)
Theorem investigateHost_initialized_flag
    (s s' : @State Client) (node : HostConfig) (conn conn' : Connection)
    (idx : nat) (h : Host) :
  independentFlags F = true ->
  investigateHost F L s node conn = (None, s', conn') ->
  findHost (Hosts s) (Hostname node) (ControlPlane s) 0 = Some (idx, h) ->
  exists h',
    ControlPlane s' !! idx = Some h'
    /\ (isSet (CStatus (Kubelet h')) (KubeletInitialized F) = true
        <-> exitcode (respond conn kubeletInitializedCMD) = 0).
Proof.
  intros HF Hrun Hfind.
  rewrite (investigateHost_run s node conn idx h Hfind) in Hrun.
  cbv zeta in Hrun.
  destruct (detectDockerStatusVersion_issued (Hosts s) h conn) as (Hr1 & _).
  destruct (detectDockerStatusVersion F L (Hosts s) h conn) as [[e1 h1] c1].
  cbn [fst snd] in *. destruct e1; [discriminate |].
  destruct (detectKubeletStatusVersion_issued (Hosts s) h1 c1) as (Hr2 & _).
  pose proof (detectKubeletStatusVersion_word (Hosts s) h1 c1) as Hword.
  destruct (systemdStatus_word F L c1 "kubelet" HF) as (_ & Hunset & _).
  destruct (detectKubeletStatusVersion F L (Hosts s) h1 c1) as [[e2 h2] c2].
  cbn [fst snd] in *. destruct e2; [discriminate |].
  rewrite <- Hword in Hunset.
  assert (Hresp : respond c2 kubeletInitializedCMD
                  = respond conn kubeletInitializedCMD) by congruence.
  assert (Hinit : forall st, isSet (Z.lor st (KubeletInitialized F))
                               (KubeletInitialized F) = true).
  { intros st. rewrite isSet_lor.
    pose proof (flags_positive F HF) as Hpos. unfold allFlags in Hpos.
    rewrite !Forall_cons in Hpos. destruct_and!.
    rewrite (isSet_self (KubeletInitialized F)) by assumption.
    apply orb_true_r. }
  unfold detectKubeletInitialized, Exec in Hrun. rewrite Hresp in Hrun.
  cbn [fst snd] in Hrun.
  destruct (execErr (respond conn kubeletInitializedCMD)) as [e |];
    cbn [notNil andb] in Hrun;
    destruct (Z.leb_spec (exitcode (respond conn kubeletInitializedCMD)) 0)
      as [Hle | Hgt];
    destruct (Z.eqb_spec (exitcode (respond conn kubeletInitializedCMD)) 0)
      as [H0 | Hn0];
    cbn [fst snd] in Hrun; try discriminate; try lia;
    injection Hrun as <- <-; cbn [ControlPlane setControlPlane];
    eexists; (split;
      [apply list_lookup_insert_eq;
       pose proof (findHost_spec (Hosts s) (Hostname node) (ControlPlane s) 0)
         as Hs; rewrite Hfind in Hs; destruct Hs as (j & -> & Hj & _);
       eapply lookup_lt_Some, Hj |]);
    cbn [Kubelet setKubelet CStatus]; rewrite ?Hinit, ?Hunset;
    split; intros; try reflexivity; try discriminate; try lia.
Qed.

Lemma lookup_total_seq_fmap {A : Type} `{!Inhabited A} (l : list A) :
  (fun i => l !!! i) <$> seq 0 (length l) = l.
Proof.
  apply list_eq. intros i. rewrite list_lookup_fmap.
  destruct (l !! i) as [x |] eqn:Hi.
  - rewrite (lookup_seq_lt 0 (length l) i) by (eapply lookup_lt_Some, Hi).
    cbn. rewrite (list_lookup_total_correct l i x Hi). reflexivity.
  - rewrite lookup_seq_ge by (apply lookup_ge_None, Hi). reflexivity.
Qed.

(** X16. The live cluster [runProbes] builds mirrors the configured hosts:
    as many live hosts, the live host at an index points at the
    configuration at that index, so the host names come in the configured
    order; the addresses are distinct and in range, and no host is marked or
    has a pod flag. *)
Theorem newLiveCluster_mirrors (hosts : list HostConfig)
    (c : option Client) (j : list Event) :
  length (newLiveCluster hosts) = length hosts
  /\ (forall i, (i < length hosts)%nat ->
                newLiveCluster hosts !! i = Some (newHost i))
  /\ hostnames hosts (newLiveCluster hosts) = Hostname <$> hosts
  /\ wellFormed (mkState hosts (newLiveCluster hosts) c j) = true
  /\ Forall unmarked (newLiveCluster hosts).
Proof.
  split; [| split; [| split; [| split]]].
  - unfold newLiveCluster. rewrite length_fmap, length_seq. reflexivity.
  - intros i Hi. unfold newLiveCluster.
    rewrite list_lookup_fmap, lookup_seq_lt by exact Hi. reflexivity.
  - unfold hostnames, newLiveCluster. rewrite <- list_fmap_compose.
    transitivity (Hostname <$> ((fun i => hosts !!! i)
                                  <$> seq 0 (length hosts))).
    + rewrite <- list_fmap_compose. reflexivity.
    + rewrite lookup_total_seq_fmap. reflexivity.
  - apply newLiveCluster_wellFormed.
  - apply newLiveCluster_unmarked.
Qed.

(** An investigation changes the live hosts only. *)
Lemma investigateHost_rest (s : @State Client) (node : HostConfig)
    (conn : Connection) :
  DynamicClient (investigateHost F L s node conn).1.2 = DynamicClient s
  /\ journal (investigateHost F L s node conn).1.2 = journal s.
Proof.
  destruct (findHost (Hosts s) (Hostname node) (ControlPlane s) 0)
    as [[idx h] |] eqn:Hfind.
  - rewrite (investigateHost_run s node conn idx h Hfind). cbv zeta.
    repeat match goal with
           | |- context [match ?x with Some _ => _ | None => _ end] =>
               destruct x
           end; split; reflexivity.
  - unfold investigateHost. rewrite Hfind. split; reflexivity.
Qed.

(** What every state reached by investigations of hosts keeps of the live
    cluster [runProbes] builds. *)
Lemma probed_invariant (hosts : list HostConfig) (c : option Client)
    (j : list Event) (s : @State Client) :
  probed F L (mkState hosts (newLiveCluster hosts) c j) s ->
  Hosts s = hosts /\ DynamicClient s = c /\ journal s = j
  /\ Config <$> ControlPlane s = seq 0 (length hosts)
  /\ Forall unmarked (ControlPlane s).
Proof.
  induction 1 as [| s' node conn _ IH].
  - cbn. repeat split.
    + unfold newLiveCluster. rewrite <- list_fmap_compose.
      rewrite (list_fmap_ext _ id (seq 0 (length hosts))) by reflexivity.
      apply list_fmap_id.
    + apply newLiveCluster_unmarked.
  - destruct IH as (Hm & Hc & Hj & Hcfg & Hun).
    destruct (investigateHost_preserves F L s' node conn) as [Hmem Hcp].
    destruct (investigateHost_rest s' node conn) as [Hc' Hj'].
    rewrite Hmem, Hc', Hj'. repeat split; try assumption.
    + rewrite (sameClusterFields_configs _ _ Hcp). exact Hcfg.
    + apply investigateHost_unmarked, Hun.
Qed.

(** X17. Investigating hosts, any number of times and in any order, keeps
    the live cluster [runProbes] builds in shape: the store, the client and
    the journal are untouched, the live host at an index still points at
    the configuration at that index, and no host is marked or has a pod
    flag.  So every configured host is found by the search of
    [investigateHost], and when the configured host names are distinct it
    is found at its own index. *)
Theorem probed_cluster_keeps_shape (hosts : list HostConfig)
    (c : option Client) (j : list Event) (s : @State Client) :
  probed F L (mkState hosts (newLiveCluster hosts) c j) s ->
  (Hosts s = hosts /\ DynamicClient s = c /\ journal s = j)
  /\ Config <$> ControlPlane s = seq 0 (length hosts)
  /\ wellFormed s = true
  /\ Forall unmarked (ControlPlane s)
  /\ (forall node, node ∈ hosts ->
        findHost (Hosts s) (Hostname node) (ControlPlane s) 0 <> None)
  /\ (NoDup (Hostname <$> hosts) ->
      forall i node, hosts !! i = Some node ->
        exists h, findHost (Hosts s) (Hostname node) (ControlPlane s) 0
                  = Some (i, h)
                  /\ Config h = i).
Proof.
  intros Hp. destruct (probed_invariant hosts c j s Hp)
    as (Hm & Hc & Hj & Hcfg & Hun).
  assert (Hat : forall i h, ControlPlane s !! i = Some h -> Config h = i).
  { intros i h Hi.
    assert (H : (Config <$> ControlPlane s) !! i = Some (Config h))
      by (rewrite list_lookup_fmap, Hi; reflexivity).
    rewrite Hcfg in H. apply lookup_seq in H as [H _]. cbn in H. exact H. }
  assert (Hlen : length (ControlPlane s) = length hosts).
  { rewrite <- (length_fmap Config), Hcfg. apply length_seq. }
  assert (Hfound : forall i node, hosts !! i = Some node ->
            exists h, ControlPlane s !! i = Some h
                      /\ Hostname (deref (Hosts s) (Config h)) = Hostname node).
  { intros i node Hi.
    destruct (ControlPlane s !! i) as [h |] eqn:Hh.
    - exists h. split; [reflexivity |]. rewrite (Hat i h Hh), Hm.
      unfold deref. rewrite (list_lookup_total_correct hosts i node Hi).
      reflexivity.
    - apply lookup_ge_None in Hh. apply lookup_lt_Some in Hi. lia. }
  split; [auto |]. split; [exact Hcfg |]. split; [| split; [exact Hun |]].
  - unfold wellFormed. rewrite Hcfg, Hm. apply andb_true_iff. split.
    + apply bool_decide_eq_true, NoDup_seq.
    + apply forallb_forall. intros h Hh. apply list_elem_of_In in Hh.
      apply list_elem_of_lookup in Hh as [i Hi]. rewrite (Hat i h Hi).
      apply Nat.ltb_lt. apply lookup_lt_Some in Hi. lia.
  - split.
    + intros node Hnode Hnone.
      apply list_elem_of_lookup in Hnode as [i Hi].
      destruct (Hfound i node Hi) as (h & Hh & Hname).
      pose proof (findHost_spec (Hosts s) (Hostname node) (ControlPlane s) 0)
        as Hs.
      rewrite Hnone in Hs.
      apply (Hs h); [eapply list_elem_of_lookup_2, Hh | exact Hname].
    + intros Hnd i node Hi.
      destruct (Hfound i node Hi) as (h & Hh & Hname).
      pose proof (findHost_spec (Hosts s) (Hostname node) (ControlPlane s) 0)
        as Hs.
      destruct (findHost _ _ _ 0) as [[i' h'] |].
      * destruct Hs as (k & -> & Hk & Hname' & _). cbn [Nat.add].
        assert (Hik : k = i).
        { eapply (NoDup_lookup (Hostname <$> hosts) k i (Hostname node));
            [exact Hnd | |]; rewrite list_lookup_fmap.
          - pose proof (Hat k h' Hk) as Hc'.
            rewrite Hc', Hm in Hname'. unfold deref in Hname'.
            destruct (hosts !! k) as [x |] eqn:Hx.
            + rewrite (list_lookup_total_correct hosts k x Hx) in Hname'.
              cbn. congruence.
            + apply lookup_ge_None in Hx. apply lookup_lt_Some in Hk. lia.
          - rewrite Hi. reflexivity. }
        subst k. exists h'. split; [reflexivity |]. apply (Hat i h' Hk).
      * exfalso.
        apply (Hs h); [eapply list_elem_of_lookup_2, Hh | exact Hname].
Qed.

End HostInvestigation.

(* ===================================================================== *)
(** ** More on the reconciliation *)

Lemma land_lor_absorb (a f : Z) : Z.land a (Z.lor a f) = a.
Proof.
  apply Z.bits_inj'. intros n Hn. rewrite Z.land_spec, Z.lor_spec.
  destruct (Z.testbit a n), (Z.testbit f n); reflexivity.
Qed.

Lemma grows_refl (h : Host) : grows h h.
Proof. unfold grows. rewrite !Z.land_diag. auto 10. Qed.

Lemma grows_trans (a b c : Host) : grows a b -> grows b c -> grows a c.
Proof.
  unfold grows. intros (A1 & A2 & A3 & A4 & A5 & A6) (B1 & B2 & B3 & B4 & B5 & B6).
  repeat split; try congruence.
  - rewrite <- A4 at 1. rewrite <- Z.land_assoc, B4. exact A4.
  - rewrite <- A5 at 1. rewrite <- Z.land_assoc, B5. exact A5.
  - auto.
Qed.

Lemma grows_orAPIServer (f : Z) (h : Host) : grows h (orAPIServer f h).
Proof.
  unfold grows. cbn. rewrite land_lor_absorb, Z.land_diag. auto 10.
Qed.

Lemma grows_orEtcd (f : Z) (h : Host) : grows h (orEtcd f h).
Proof.
  unfold grows. cbn. rewrite land_lor_absorb, Z.land_diag. auto 10.
Qed.

Lemma grows_markInCluster (h : Host) : grows h (markInCluster h).
Proof. unfold grows. cbn. rewrite !Z.land_diag. auto 10. Qed.

Lemma Forall2_fmap_self {A : Type} (R : A -> A -> Prop) (f : A -> A)
    (l : list A) :
  (forall x, R x (f x)) -> Forall2 R l (f <$> l).
Proof. intros H. induction l; cbn; constructor; auto. Qed.

Lemma lookup_clearAll (ptrs : list nat) (mem : list HostConfig) (p : nat) :
  clearAll ptrs mem !! p
  = (if bool_decide (p ∈ ptrs) then setIsLeader false else id) <$> mem !! p.
Proof.
  revert mem. induction ptrs as [| a ptrs IH]; intros mem.
  - cbn. destruct (mem !! p); reflexivity.
  - change (clearAll (a :: ptrs) mem)
      with (clearAll ptrs (alter (setIsLeader false) a mem)).
    rewrite IH, list_lookup_alter.
    destruct (decide (a = p)) as [-> | Hne].
    + rewrite (bool_decide_eq_true_2 (p ∈ p :: ptrs)) by left.
      destruct (mem !! p) as [x |]; [| destruct (bool_decide _); reflexivity].
      destruct (bool_decide (p ∈ ptrs)); reflexivity.
    + destruct (bool_decide (p ∈ ptrs)) eqn:Hin.
      * apply bool_decide_eq_true in Hin.
        rewrite bool_decide_eq_true_2 by (right; exact Hin). reflexivity.
      * apply bool_decide_eq_false in Hin.
        rewrite bool_decide_eq_false_2; [reflexivity |].
        rewrite elem_of_cons. intros [Heq | Hin']; [congruence | tauto].
Qed.

(** Clearing forgets a flag written behind a cleared address. *)
Lemma clearAll_alter (ptrs : list nat) (mem : list HostConfig) (b : bool)
    (a : nat) :
  a ∈ ptrs ->
  clearAll ptrs (alter (setIsLeader b) a mem) = clearAll ptrs mem.
Proof.
  intros Ha. apply list_eq. intros p.
  rewrite !lookup_clearAll, list_lookup_alter.
  destruct (decide (a = p)) as [-> | Hne]; [| reflexivity].
  rewrite bool_decide_eq_true_2 by exact Ha.
  destruct (mem !! p); reflexivity.
Qed.

Section ClusterExtras.

Context {Members Client : Type}.
Variable F : StatusFlags.
Variable W : @Collaborators Members Client.

(** The election changes the API-server word of a live host, if
    anything. *)
Lemma electOver_grows (hosts : list Host) (b : bool) (mem : list HostConfig) :
  Forall2 grows hosts (electOver F W hosts b mem).1.2.
Proof.
  revert b mem. induction hosts as [| h hosts IH]; intros b mem;
    [constructor |].
  cbn [electOver]. destruct (healthyAt W mem h).
  - specialize (IH true (if b then mem
                         else alter (setIsLeader true) (Config h) mem)).
    destruct (electOver F W hosts true _) as [[[b' mem'] hs] evs].
    cbn [fst snd] in *. constructor; [apply grows_orAPIServer | exact IH].
  - specialize (IH b mem).
    destruct (electOver F W hosts b mem) as [[[b' mem'] hs] evs].
    cbn [fst snd] in *. constructor; [apply grows_refl | exact IH].
Qed.

(** The calls of the election are health queries. *)
Lemma electOver_events (hosts : list Host) (b : bool) (mem : list HostConfig) :
  Forall (fun ev => exists node, ev = CallApiserverGet node)
         (electOver F W hosts b mem).2.
Proof.
  revert b mem. induction hosts as [| h hosts IH]; intros b mem;
    [constructor |].
  cbn [electOver]. destruct (healthyAt W mem h).
  - specialize (IH true (if b then mem
                         else alter (setIsLeader true) (Config h) mem)).
    destruct (electOver F W hosts true _) as [[[b' mem'] hs] evs].
    cbn [fst snd] in *. constructor; [eexists; reflexivity | exact IH].
  - specialize (IH b mem).
    destruct (electOver F W hosts b mem) as [[[b' mem'] hs] evs].
    cbn [fst snd] in *. constructor; [eexists; reflexivity | exact IH].
Qed.

(** The loops write the leader flag of a configuration and nothing else of
    it, and keep the length of the store. *)
Lemma electOver_store (hosts : list Host) (b : bool) (mem : list HostConfig) :
  length (electOver F W hosts b mem).1.1.2 = length mem
  /\ forall p, OperatingSystem (deref (electOver F W hosts b mem).1.1.2 p)
               = OperatingSystem (deref mem p).
Proof.
  revert b mem. induction hosts as [| h hosts IH]; intros b mem;
    [split; reflexivity |].
  cbn [electOver]. destruct (healthyAt W mem h).
  - specialize (IH true (if b then mem
                         else alter (setIsLeader true) (Config h) mem)).
    destruct (electOver F W hosts true _) as [[[b' mem'] hs] evs].
    cbn [fst snd] in *. destruct IH as [IH1 IH2]. split.
    + rewrite IH1. destruct b; [reflexivity | apply length_alter].
    + intros p. rewrite IH2. destruct b; [reflexivity |].
      rewrite deref_alter_setIsLeader. case_decide; reflexivity.
  - specialize (IH b mem).
    destruct (electOver F W hosts b mem) as [[[b' mem'] hs] evs].
    cbn [fst snd] in *. exact IH.
Qed.

(** X18. The reconciliation of a cluster that is not provisioned fails with
    the error of that case and leaves the state as it is: no leader flag is
    cleared and no collaborator is called. *)
Theorem not_provisioned_is_refused (s : @State Client) :
  IsProvisioned W (Hosts s) (ControlPlane s) = false ->
  investigateCluster F W s = (Failed errNotProvisioned, s).
Proof.
  intros H. destruct s as [mem cp c j]. cbn [Hosts ControlPlane] in H.
  rewrite investigateCluster_run, H. reflexivity.
Qed.

(** X19. In the reconciliation of a provisioned cluster every host reported
    healthy gets the PodRunning flag in its API-server status word, the
    elected one and the others alike, and a host not reported healthy keeps
    its word; so the leader is always a host with the flag. *)
Theorem healthy_hosts_get_PodRunning (s : @State Client) :
  independentFlags F = true ->
  wellFormed s = true ->
  IsProvisioned W (Hosts s) (ControlPlane s) = true ->
  let s' := (investigateCluster F W s).2 in
  forall i h h',
    ControlPlane s !! i = Some h -> ControlPlane s' !! i = Some h' ->
    PStatus (APIServer h')
    = (if reported W (Hosts s) h
       then Z.lor (PStatus (APIServer h)) (PodRunning F)
       else PStatus (APIServer h))
    /\ (isSet (PStatus (APIServer h)) (PodRunning F) = false ->
        (isSet (PStatus (APIServer h')) (PodRunning F) = true
         <-> reported W (Hosts s) h = true))
    /\ (leaderFlag s' h' = true ->
        isSet (PStatus (APIServer h')) (PodRunning F) = true).
Proof.
  intros HF Hwf Hprov s' i h h' Hi Hi'.
  pose proof (wellFormed_NoDup s Hwf) as Hnd.
  pose proof (investigateCluster_configs F W s) as Hcfg. fold s' in Hcfg.
  pose proof (lookup_fmap_eq Config _ _ i h h' Hcfg Hi Hi') as Hc.
  assert (Hpod : forall st, isSet (Z.lor st (PodRunning F)) (PodRunning F)
                            = true).
  { intros st. rewrite isSet_lor.
    pose proof (flags_positive F HF) as Hpos. unfold allFlags in Hpos.
    rewrite !Forall_cons in Hpos. destruct_and!.
    rewrite (isSet_self (PodRunning F)) by assumption. apply orb_true_r. }
  subst s'. destruct s as [mem cp c j]. cbn [Hosts ControlPlane] in *.
  assert (Hin : h ∈ cp) by (eapply list_elem_of_lookup_2, Hi).
  pose proof (healthyAt_cleared W cp mem h Hin) as Hhealth.
  pose proof (investigateCluster_proj F W APIServer mem cp c j
                ltac:(reflexivity) ltac:(reflexivity) Hprov) as Hapi.
  rewrite electOver_spec in Hapi by exact Hnd. cbn [fst snd] in Hapi.
  assert (Hi2 : (apiUpdate F W (clearAll (Config <$> cp) mem) <$> cp) !! i
                = Some (apiUpdate F W (clearAll (Config <$> cp) mem) h))
    by (rewrite list_lookup_fmap, Hi; reflexivity).
  pose proof (lookup_fmap_eq APIServer _ _ i _ h' Hapi Hi2 Hi') as Ha.
  assert (Hword : PStatus (APIServer h')
                  = if reported W mem h
                    then Z.lor (PStatus (APIServer h)) (PodRunning F)
                    else PStatus (APIServer h)).
  { rewrite Ha. unfold apiUpdate. rewrite Hhealth.
    destruct (reported W mem h); reflexivity. }
  split; [exact Hword |]. split.
  - intros Hunset. rewrite Hword. destruct (reported W mem h).
    + rewrite Hpod. tauto.
    + rewrite Hunset. tauto.
  - intros Hlead. unfold leaderFlag in Hlead.
    rewrite investigateCluster_store in Hlead by exact Hprov.
    rewrite electOver_spec in Hlead by exact Hnd. cbn [fst snd] in Hlead.
    rewrite Hc in Hlead.
    apply leader_after_election in Hlead as (l & Hl & Hlc & _); [| exact Hin].
    apply find_some in Hl as [_ Hl].
    rewrite (healthyAt_Config W _ h l Hlc), Hhealth in Hl.
    rewrite Hword, Hl. apply Hpod.
Qed.

Lemma not_build_app (l k : list Event) :
  CallBuildKubernetesClientset ∉ l -> CallBuildKubernetesClientset ∉ k ->
  CallBuildKubernetesClientset ∉ l ++ k.
Proof. rewrite elem_of_app. tauto. Qed.

Lemma electOver_no_build (hosts : list Host) (b : bool)
    (mem : list HostConfig) :
  CallBuildKubernetesClientset ∉ (electOver F W hosts b mem).2.
Proof.
  intros Hin. pose proof (electOver_events hosts b mem) as Hev.
  rewrite Forall_forall in Hev. destruct (Hev _ Hin) as [node H].
  discriminate.
Qed.

(** X20. A reconciliation that starts with a client keeps it and never
    builds another one: the journal grows by calls none of which is the
    client build. *)
Theorem existing_client_is_reused (s : @State Client) (client : Client) :
  DynamicClient s = Some client ->
  let res := investigateCluster F W s in
  DynamicClient res.2 = Some client
  /\ exists evs, journal res.2 = journal s ++ evs
                 /\ CallBuildKubernetesClientset ∉ evs.
Proof.
  intros Hc res. subst res. destruct s as [mem cp c j].
  cbn [DynamicClient journal] in *. subst c.
  rewrite investigateCluster_run.
  destruct (negb (IsProvisioned W mem cp)).
  { split; [reflexivity |]. exists []. rewrite app_nil_r.
    split; [reflexivity | apply not_elem_of_nil]. }
  pose proof (electOver_no_build cp false (clearAll (Config <$> cp) mem))
    as Hev.
  destruct (electOver F W cp false _) as [[[b mem2] cp2] evs].
  cbn [snd] in Hev.
  destruct (negb b).
  { split; [reflexivity |]. exists evs. split; [reflexivity | exact Hev]. }
  assert (Hml : CallBuildKubernetesClientset ∉ [CallEtcdMemberList]).
  { rewrite list_elem_of_singleton. discriminate. }
  assert (Hln : CallBuildKubernetesClientset ∉ [CallListNodes]).
  { rewrite list_elem_of_singleton. discriminate. }
  destruct (etcdstatus_MemberList W) as [etcdMembers | err].
  2:{ split; [reflexivity |]. exists (evs ++ [CallEtcdMemberList]).
      split; [cbn; rewrite <- app_assoc; reflexivity |].
      apply not_build_app; assumption. }
  cbn zeta. unfold clientset. cbn [DynamicClient fst snd].
  assert (Hq : CallBuildKubernetesClientset
               ∉ (fun h => CallEtcdGet (deref mem2 (Config h))) <$> cp2).
  { intros Hin. apply list_elem_of_fmap in Hin as (x & Hx & _).
    discriminate. }
  destruct (DynamicClient_List W client) as [nodes | err];
    cbn [snd DynamicClient journal record];
    (split; [reflexivity |]);
    exists (evs ++ [CallEtcdMemberList]
            ++ ((fun h => CallEtcdGet (deref mem2 (Config h))) <$> cp2)
            ++ [CallListNodes]);
    (split; [rewrite <- !app_assoc; reflexivity |]);
    repeat apply not_build_app; assumption.
Qed.

(** X21. When the reconciliation has no client and the build of one fails,
    it fails with the error of the build after the etcd phase and before
    the node list: the calls it made end with the client build, no node is
    listed, no host is marked and the state stays without a client. *)
Theorem client_build_failure (s : @State Client) (etcdMembers : Members)
    (err : error) :
  wellFormed s = true ->
  IsProvisioned W (Hosts s) (ControlPlane s) = true ->
  existsb (reported W (Hosts s)) (ControlPlane s) = true ->
  etcdstatus_MemberList W = inl etcdMembers ->
  DynamicClient s = None ->
  BuildKubernetesClientset W = inr err ->
  let res := investigateCluster F W s in
  res.1 = Failed err
  /\ DynamicClient res.2 = None
  /\ journal res.2
     = journal s ++ healthQueries s ++ [CallEtcdMemberList]
       ++ ((fun h => CallEtcdGet (deref (Hosts res.2) (Config h)))
             <$> ControlPlane s)
       ++ [CallBuildKubernetesClientset]
  /\ IsInCluster <$> ControlPlane res.2 = IsInCluster <$> ControlPlane s.
Proof.
  intros Hwf Hprov Hex Hlist Hc Hbuild res. subst res.
  pose proof (wellFormed_NoDup s Hwf) as Hnd.
  destruct s as [mem cp c j]. cbn [Hosts ControlPlane DynamicClient journal] in *.
  subst c. rewrite investigateCluster_run, Hprov. cbn [negb].
  rewrite (elected_when_reported F W mem cp Hnd Hex). cbn [negb].
  rewrite Hlist. cbn zeta. unfold clientset.
  cbn [DynamicClient]. rewrite Hbuild. unfold record.
  cbn [fst snd Hosts ControlPlane DynamicClient journal].
  split; [reflexivity |]. split; [reflexivity |]. split.
  - unfold healthQueries. cbn [Hosts ControlPlane].
    rewrite <- !app_assoc. do 3 f_equal. f_equal.
    rewrite <- list_fmap_compose. apply list_fmap_ext. intros i x _. cbn.
    destruct (apiUpdate_cases F W (clearAll (Config <$> cp) mem) x)
      as [-> | ->]; reflexivity.
  - rewrite etcdUpdate_proj by reflexivity.
    rewrite <- list_fmap_compose. apply list_fmap_ext. intros i x _. cbn.
    destruct (apiUpdate_cases F W (clearAll (Config <$> cp) mem) x)
      as [-> | ->]; reflexivity.
Qed.

(** X22. When the node list fails, the reconciliation fails with that error
    wrapped as "unable to list nodes"; no host is marked, and the client it
    used, built on the way if there was none, stays in the state. *)
Theorem node_list_failure (s : @State Client) (etcdMembers : Members)
    (client : Client) (err : error) :
  wellFormed s = true ->
  IsProvisioned W (Hosts s) (ControlPlane s) = true ->
  existsb (reported W (Hosts s)) (ControlPlane s) = true ->
  etcdstatus_MemberList W = inl etcdMembers ->
  (clientset W s).1 = inl client ->
  DynamicClient_List W client = inr err ->
  let res := investigateCluster F W s in
  res.1 = Failed (errors_Wrap err "unable to list nodes")
  /\ DynamicClient res.2 = Some client
  /\ IsInCluster <$> ControlPlane res.2 = IsInCluster <$> ControlPlane s
  /\ (exists evs, journal res.2 = journal s ++ evs ++ [CallListNodes]).
Proof.
  intros Hwf Hprov Hex Hlist Hclient Herr res. subst res.
  pose proof (wellFormed_NoDup s Hwf) as Hnd.
  destruct s as [mem cp c j]. cbn [Hosts ControlPlane DynamicClient journal] in *.
  rewrite investigateCluster_run, Hprov. cbn [negb].
  rewrite (elected_when_reported F W mem cp Hnd Hex). cbn [negb].
  rewrite Hlist. cbn zeta.
  assert (Hin : forall m2 (l : list Host),
             IsInCluster <$> (etcdUpdate F W m2 etcdMembers
                                <$> (apiUpdate F W (clearAll (Config <$> cp) mem)
                                       <$> l))
             = IsInCluster <$> l).
  { intros m2 l. rewrite etcdUpdate_proj by reflexivity.
    rewrite <- list_fmap_compose. apply list_fmap_ext. intros i x _. cbn.
    destruct (apiUpdate_cases F W (clearAll (Config <$> cp) mem) x)
      as [-> | ->]; reflexivity. }
  unfold clientset in *. cbn [DynamicClient fst snd record] in *.
  destruct c as [c0 |].
  - cbn [fst] in Hclient. injection Hclient as ->. cbn [fst snd]. rewrite Herr.
    unfold record. cbn [fst snd Hosts ControlPlane DynamicClient journal].
    split; [reflexivity |]. split; [reflexivity |]. split; [apply Hin |].
    exists (healthQueries (@mkState Client mem cp None [])
            ++ [CallEtcdMemberList]
            ++ ((fun h => CallEtcdGet
                            (deref (electedStore W cp false
                                      (clearAll (Config <$> cp) mem))
                                   (Config h)))
                  <$> (apiUpdate F W (clearAll (Config <$> cp) mem) <$> cp))).
    rewrite <- !app_assoc. reflexivity.
  - destruct (BuildKubernetesClientset W) as [c0 | e]; [| discriminate].
    cbn [fst] in Hclient. injection Hclient as ->. cbn [fst snd]. rewrite Herr.
    unfold record, setDynamicClient.
    cbn [fst snd Hosts ControlPlane DynamicClient journal].
    split; [reflexivity |]. split; [reflexivity |]. split; [apply Hin |].
    exists (healthQueries (@mkState Client mem cp None [])
            ++ [CallEtcdMemberList]
            ++ ((fun h => CallEtcdGet
                            (deref (electedStore W cp false
                                      (clearAll (Config <$> cp) mem))
                                   (Config h)))
                  <$> (apiUpdate F W (clearAll (Config <$> cp) mem) <$> cp))
            ++ [CallBuildKubernetesClientset]).
    rewrite <- !app_assoc. reflexivity.
Qed.

Lemma os_clearAll (ptrs : list nat) (mem : list HostConfig) (p : nat) :
  OperatingSystem (deref (clearAll ptrs mem) p)
  = OperatingSystem (deref mem p).
Proof.
  rewrite deref_clearAll. destruct (bool_decide (p ∈ ptrs)); reflexivity.
Qed.

(** What a reconciliation keeps, whatever it returns. *)
Lemma investigateCluster_keeps (s : @State Client) :
  let s' := (investigateCluster F W s).2 in
  Forall2 grows (ControlPlane s) (ControlPlane s')
  /\ length (Hosts s') = length (Hosts s)
  /\ (forall p,
        Hostname (deref (Hosts s') p) = Hostname (deref (Hosts s) p)
        /\ OperatingSystem (deref (Hosts s') p)
           = OperatingSystem (deref (Hosts s) p))
  /\ journal s `prefix_of` journal s'.
Proof.
  intros s'. subst s'. destruct s as [mem cp c j].
  cbn [Hosts ControlPlane journal].
  assert (Hrefl : Forall2 grows cp cp).
  { apply Forall_Forall2_diag, Forall_forall. intros x _. apply grows_refl. }
  rewrite investigateCluster_run.
  destruct (negb (IsProvisioned W mem cp)).
  { cbn. repeat split; auto. }
  pose proof (electOver_grows cp false (clearAll (Config <$> cp) mem)) as Hg.
  pose proof (electOver_store cp false (clearAll (Config <$> cp) mem))
    as [Hlen Hos].
  pose proof (hostname_electOver F W cp false (clearAll (Config <$> cp) mem))
    as Hname.
  destruct (electOver F W cp false _) as [[[b mem2] cp2] evs].
  cbn [fst snd] in *.
  assert (Hstore : length mem2 = length mem
                   /\ forall p,
                       Hostname (deref mem2 p) = Hostname (deref mem p)
                       /\ OperatingSystem (deref mem2 p)
                          = OperatingSystem (deref mem p)).
  { split; [rewrite Hlen; apply length_clearAll |].
    intros p. rewrite Hname, Hos, hostname_clearAll, os_clearAll. auto. }
  destruct Hstore as [Hl Hid].
  destruct (negb b).
  { cbn. repeat split; try apply Hid; auto. exists evs. reflexivity. }
  destruct (etcdstatus_MemberList W) as [etcdMembers | err].
  2:{ cbn. repeat split; try apply Hid; auto.
      exists (evs ++ [CallEtcdMemberList]). rewrite <- app_assoc.
      reflexivity. }
  cbn zeta.
  assert (Hg3 : Forall2 grows cp (etcdUpdate F W mem2 etcdMembers <$> cp2)).
  { eapply Forall2_trans; [| exact Hg |].
    - intros x y z. apply grows_trans.
    - apply Forall2_fmap_self. intros x.
      destruct (etcdUpdate_cases F W mem2 etcdMembers x) as [-> | ->];
        [apply grows_refl | apply grows_orEtcd]. }
  match goal with
  | |- context [clientset W ?s0] =>
      destruct (clientset_state W s0) as (Hm & Hcp & (evs' & Hj & _) & _);
      set (cs := clientset W s0) in *
  end.
  cbn [Hosts ControlPlane journal] in Hm, Hcp, Hj.
  assert (Hpre : j `prefix_of` journal cs.2).
  { rewrite Hj.
    exists (evs ++ [CallEtcdMemberList]
            ++ ((fun h => CallEtcdGet (deref mem2 (Config h))) <$> cp2)
            ++ evs').
    rewrite <- !app_assoc. reflexivity. }
  destruct cs.1 as [client | err].
  - destruct (DynamicClient_List W client) as [nodes | err];
      cbn [snd Hosts ControlPlane journal record].
    + repeat split; try apply Hid; auto.
      * eapply Forall2_trans; [| exact Hg3 |].
        -- intros x y z. apply grows_trans.
        -- apply Forall2_fmap_self. intros x.
           match goal with
           | |- grows x (markNodes ?k ?m ?n x) =>
               destruct (markNodes_cases k m n x) as [-> | ->]
           end; [apply grows_refl | apply grows_markInCluster].
      * destruct Hpre as [k Hk]. rewrite Hk. exists (k ++ [CallListNodes]).
        rewrite <- app_assoc. reflexivity.
    + rewrite Hm, Hcp. repeat split; try apply Hid; auto.
      destruct Hpre as [k Hk]. rewrite Hk. exists (k ++ [CallListNodes]).
      rewrite <- app_assoc. reflexivity.
  - cbn [snd]. rewrite Hm, Hcp. repeat split; try apply Hid; auto.
Qed.

(** X23. A reconciliation only adds: whatever it returns, every live host
    keeps its address, its container runtime and its kubelet, its pod
    status words keep every bit they had, and a host that was marked stays
    marked; the store keeps its length and every configuration its host
    name and operating system; the journal keeps what it held. *)
Theorem reconciliation_only_adds (s : @State Client) :
  let s' := (investigateCluster F W s).2 in
  Forall2 grows (ControlPlane s) (ControlPlane s')
  /\ length (Hosts s') = length (Hosts s)
  /\ (forall p,
        Hostname (deref (Hosts s') p) = Hostname (deref (Hosts s) p)
        /\ OperatingSystem (deref (Hosts s') p)
           = OperatingSystem (deref (Hosts s) p))
  /\ journal s `prefix_of` journal s'.
Proof. exact (investigateCluster_keeps s). Qed.

(** X24. The leader flags the configurations carry before a reconciliation
    of a provisioned cluster do not matter: writing the flag of any live
    host's configuration beforehand gives the same result and the same
    state, when the cluster counts as provisioned either way. *)
Theorem stale_leader_flags_do_not_matter (s : @State Client) (b : bool)
    (i : nat) :
  (i < length (ControlPlane s))%nat ->
  IsProvisioned W (Hosts s) (ControlPlane s) = true ->
  IsProvisioned W (Hosts (storeIsLeader b i s)) (ControlPlane s) = true ->
  investigateCluster F W (storeIsLeader b i s) = investigateCluster F W s.
Proof.
  intros Hi Hp Hp'. destruct s as [mem cp c j].
  unfold storeIsLeader, setHosts in *.
  cbn [Hosts ControlPlane DynamicClient journal] in *.
  rewrite !investigateCluster_run, Hp, Hp'. cbn [negb].
  rewrite clearAll_alter; [reflexivity |].
  apply list_elem_of_fmap_2. apply list_elem_of_lookup_total_2, Hi.
Qed.

End ClusterExtras.

(* ===================================================================== *)
(** ** A second reconciliation *)

Lemma clearAll_idempotent (ptrs : list nat) (mem : list HostConfig) :
  clearAll ptrs (clearAll ptrs mem) = clearAll ptrs mem.
Proof.
  apply list_eq. intros p. rewrite !lookup_clearAll.
  destruct (bool_decide (p ∈ ptrs)), (mem !! p); reflexivity.
Qed.

Lemma existsb_fmap_inv (f : Host -> bool) (g : Host -> Host) (l : list Host) :
  (forall h, f (g h) = f h) -> existsb f (g <$> l) = existsb f l.
Proof.
  intros H. induction l as [| h l IH]; [reflexivity |].
  cbn [fmap list_fmap existsb]. rewrite H. f_equal. exact IH.
Qed.

Lemma find_fmap_inv (f : Host -> bool) (g : Host -> Host) (l : list Host) :
  (forall h, f (g h) = f h) -> List.find f (g <$> l) = g <$> List.find f l.
Proof.
  intros H. induction l as [| h l IH]; [reflexivity |].
  cbn [fmap list_fmap List.find]. rewrite H.
  destruct (f h); [reflexivity | exact IH].
Qed.

Section SecondReconciliation.

Context {Members Client : Type}.
Variable F : StatusFlags.
Variable W : @Collaborators Members Client.

(** The loop over the node names marks a host exactly when its name is a
    node's and a known one. *)
Lemma markNodes_eq (known : gset string) (mem : list HostConfig)
    (nodes : list string) (h : Host) :
  markNodes known mem nodes h
  = if bool_decide (Hostname (deref mem (Config h)) ∈ nodes
                    /\ Hostname (deref mem (Config h)) ∈ known)
    then markInCluster h else h.
Proof.
  pose proof (markNodes_IsInCluster known mem nodes h) as Hi.
  destruct (markNodes_cases known mem nodes h) as [E | E];
    rewrite E in Hi |- *; destruct (bool_decide _); try reflexivity;
    destruct h as [c r k a e i]; cbn in Hi |- *.
  - rewrite orb_true_r in Hi. subst i. reflexivity.
  - rewrite orb_false_r in Hi. subst i. reflexivity.
Qed.

Lemma reconciled_Config (mem1 mem2 : list HostConfig) (m : Members)
    (known : gset string) (nodes : list string) (h : Host) :
  Config (reconciled F W mem1 mem2 m known nodes h) = Config h.
Proof.
  unfold reconciled. rewrite markNodes_eq. unfold etcdUpdate, apiUpdate.
  destruct (bool_decide _), (etcdOK _ _ _ _), (healthyAt _ _ _); reflexivity.
Qed.

Lemma reconciled_idempotent (mem1 mem2 : list HostConfig) (m : Members)
    (known : gset string) (nodes : list string) (h : Host) :
  reconciled F W mem1 mem2 m known nodes
    (reconciled F W mem1 mem2 m known nodes h)
  = reconciled F W mem1 mem2 m known nodes h.
Proof.
  unfold reconciled. rewrite !markNodes_eq.
  unfold etcdUpdate, apiUpdate, etcdOK, healthyAt.
  destruct h as [c r k a e i].
  repeat match goal with
         | |- context [if ?b then _ else _] =>
             destruct b eqn:?;
             cbn [Config orAPIServer orEtcd markInCluster ContainerRuntime
                  Kubelet APIServer Etcd IsInCluster PStatus] in *
         end;
    try congruence;
    unfold orAPIServer, orEtcd, markInCluster;
    cbn [Config ContainerRuntime Kubelet APIServer Etcd IsInCluster PStatus];
    rewrite <- ?Z.lor_assoc, ?Z.lor_diag; reflexivity.
Qed.

Lemma reconciled_fmap (mem1 mem2 : list HostConfig) (m : Members)
    (known : gset string) (nodes : list string) (cp : list Host) :
  markNodes known mem2 nodes
    <$> (etcdUpdate F W mem2 m <$> (apiUpdate F W mem1 <$> cp))
  = reconciled F W mem1 mem2 m known nodes <$> cp.
Proof. rewrite <- !list_fmap_compose. reflexivity. Qed.

Lemma electedStore_cleared (ptrs : list nat) (cp : list Host)
    (mem : list HostConfig) :
  Config <$> cp = ptrs ->
  clearAll ptrs (electedStore W cp false (clearAll ptrs mem))
  = clearAll ptrs mem.
Proof.
  intros <-. unfold electedStore.
  destruct (List.find _ cp) as [l |] eqn:Hfind;
    [| apply clearAll_idempotent].
  apply find_some in Hfind as [Hin _].
  rewrite clearAll_alter; [apply clearAll_idempotent |].
  apply list_elem_of_fmap_2, list_elem_of_In, Hin.
Qed.

(** What a reporting reconciliation returns, in closed form. *)
Lemma investigateCluster_reports (mem : list HostConfig) (cp : list Host)
    (c : option Client) (j : list Event) (s1 : @State Client)
    (missing extra : gset string) :
  NoDup (Config <$> cp) ->
  investigateCluster F W (mkState mem cp c j) = (Reported missing extra, s1) ->
  let mem1 := clearAll (Config <$> cp) mem in
  let mem2 := electedStore W cp false mem1 in
  exists (m : Members) (client : Client) (nodes : list string),
    let known : gset string :=
      list_to_set (hostnames mem2 (etcdUpdate F W mem2 m
                                     <$> (apiUpdate F W mem1 <$> cp))) in
    IsProvisioned W mem cp = true
    /\ existsb (healthyAt W mem1) cp = true
    /\ etcdstatus_MemberList W = inl m
    /\ DynamicClient_List W client = inl nodes
    /\ missing = known ∖ list_to_set nodes
    /\ extra = list_to_set nodes ∖ known
    /\ Hosts s1 = mem2
    /\ ControlPlane s1 = reconciled F W mem1 mem2 m known nodes <$> cp
    /\ DynamicClient s1 = Some client.
Proof.
  intros Hnd Hrun mem1 mem2. rewrite investigateCluster_run in Hrun.
  destruct (IsProvisioned W mem cp) eqn:Hprov; cbn [negb] in Hrun;
    [| discriminate].
  rewrite electOver_spec in Hrun by exact Hnd. cbn [orb] in Hrun.
  fold mem1 in Hrun. fold mem2 in Hrun.
  destruct (existsb (healthyAt W mem1) cp) eqn:Hex; cbn [negb] in Hrun;
    [| discriminate].
  destruct (etcdstatus_MemberList W) as [m | err] eqn:Hm; [| discriminate].
  cbn zeta in Hrun.
  match type of Hrun with
  | context [clientset W ?s0] =>
      destruct (clientset_state W s0) as (_ & _ & _ & Hcl);
      destruct (clientset W s0).1 as [client | err']; [| discriminate]
  end.
  destruct (DynamicClient_List W client) as [nodes | err'] eqn:Hlist;
    [| discriminate].
  injection Hrun as Hmiss Hextra Hs1. subst s1.
  exists m, client, nodes. cbn zeta.
  cbn [Hosts ControlPlane DynamicClient].
  rewrite reconciled_fmap. rewrite (Hcl client eq_refl). auto 10.
Qed.

(** X25. Reconciling again, against the same answers, the state a
    reporting reconciliation of well-formed live hosts left: the second run
    reports the same two sets and leaves the store, the live hosts and the
    client as the first run left them. *)
Theorem second_reconciliation_changes_nothing (s s1 : @State Client)
    (missing extra : gset string) :
  wellFormed s = true ->
  investigateCluster F W s = (Reported missing extra, s1) ->
  IsProvisioned W (Hosts s1) (ControlPlane s1) = true ->
  (investigateCluster F W s1).1 = Reported missing extra
  /\ Hosts (investigateCluster F W s1).2 = Hosts s1
  /\ ControlPlane (investigateCluster F W s1).2 = ControlPlane s1
  /\ DynamicClient (investigateCluster F W s1).2 = DynamicClient s1.
Proof.
  intros Hwf Hrun Hprov. apply wellFormed_NoDup in Hwf.
  destruct s as [mem cp c j]. cbn [ControlPlane] in Hwf.
  destruct (investigateCluster_reports mem cp c j s1 missing extra Hwf Hrun)
    as (m & client & nodes & _ & Hex & Hm & Hlist & -> & -> & Hh & Hcp & Hc).
  cbn zeta in *.
  destruct s1 as [mem' cp' c' j'].
  cbn [Hosts ControlPlane DynamicClient] in *. subst mem' cp' c'.
  set (mem1 := clearAll (Config <$> cp) mem) in *.
  set (mem2 := electedStore W cp false mem1) in *.
  set (known := list_to_set (hostnames mem2 _)) in *.
  set (G := reconciled F W mem1 mem2 m known nodes) in *.
  assert (HG : forall h, Config (G h) = Config h)
    by (intros h; apply reconciled_Config).
  assert (Hconf : Config <$> (G <$> cp) = Config <$> cp).
  { rewrite <- list_fmap_compose. apply list_fmap_ext. intros i x _. apply HG. }
  assert (Hhealthy : forall h, healthyAt W mem1 (G h) = healthyAt W mem1 h).
  { intros h. unfold healthyAt. rewrite HG. reflexivity. }
  rewrite investigateCluster_run, Hprov. cbn [negb].
  rewrite electOver_spec by (rewrite Hconf; exact Hwf).
  rewrite Hconf.
  replace (clearAll (Config <$> cp) mem2) with mem1
    by (symmetry; apply electedStore_cleared; reflexivity).
  rewrite existsb_fmap_inv by exact Hhealthy. rewrite Hex. cbn [orb negb].
  replace (electedStore W (G <$> cp) false mem1) with mem2.
  2:{ unfold mem2, electedStore. rewrite find_fmap_inv by exact Hhealthy.
      destruct (List.find _ cp); cbn; [rewrite HG |]; reflexivity. }
  rewrite Hm. cbn zeta. cbn [clientset DynamicClient fst snd].
  rewrite Hlist. rewrite reconciled_fmap.
  assert (Hknown : forall cp1 cp2 : list Host,
             Config <$> cp1 = Config <$> cp2 ->
             hostnames mem2 cp1 = hostnames mem2 cp2).
  { intros cp1 cp2 E. apply hostnames_eq; [reflexivity | exact E]. }
  match goal with
  | |- context [list_to_set (hostnames mem2 ?l)] =>
      replace (list_to_set (hostnames mem2 l) : gset string) with known
  end.
  2:{ subst known. f_equal. apply Hknown.
      rewrite <- !list_fmap_compose. apply list_fmap_ext. intros i x _.
      cbn. unfold etcdUpdate, apiUpdate.
      repeat match goal with
             | |- context [if ?b then _ else _] => destruct b
             end; cbn; rewrite ?HG; reflexivity. }
  cbn [fst snd Hosts ControlPlane DynamicClient].
  repeat split.
  fold G. rewrite <- list_fmap_compose. apply list_fmap_ext. intros i x _.
  apply reconciled_idempotent.
Qed.

End SecondReconciliation.

(* ===================================================================== *)
(** ** The calls and the errors of a reconciliation *)

Section CallsAndErrors.

Context {Members Client : Type}.
Variable F : StatusFlags.
Variable W : @Collaborators Members Client.

(** Where the error of a failed reconciliation comes from. *)
Lemma investigateCluster_failure (s s' : @State Client) (err : error) :
  investigateCluster F W s = (Failed err, s') ->
  (IsProvisioned W (Hosts s) (ControlPlane s) = false
   /\ err = errNotProvisioned)
  \/ (IsProvisioned W (Hosts s) (ControlPlane s) = true
      /\ (err = errQuorumLost
          \/ etcdstatus_MemberList W = inr err
          \/ (DynamicClient s = None /\ BuildKubernetesClientset W = inr err)
          \/ exists client e,
               DynamicClient_List W client = inr e
               /\ err = errors_Wrap e "unable to list nodes")).
Proof.
  destruct s as [mem cp c j]. cbn [Hosts ControlPlane DynamicClient].
  rewrite investigateCluster_run.
  destruct (IsProvisioned W mem cp); cbn [negb];
    [| intros H; injection H as <- _; left; auto].
  intros H. right. split; [reflexivity |].
  destruct (electOver F W cp false _) as [[[b mem2] cp2] evs].
  destruct (negb b); [injection H as <- _; auto |].
  destruct (etcdstatus_MemberList W) as [m | e];
    [| injection H as <- _; auto].
  cbn zeta in H. unfold clientset in H. cbn [DynamicClient] in H.
  destruct c as [client |]; cbn [fst snd] in H.
  - destruct (DynamicClient_List W client) as [nodes | e] eqn:Hl;
      [discriminate |].
    injection H as <- _. right. right. right. exists client, e. auto.
  - destruct (BuildKubernetesClientset W) as [client | e] eqn:Hb;
      cbn [fst snd] in H.
    + destruct (DynamicClient_List W client) as [nodes | e] eqn:Hl;
        [discriminate |].
      injection H as <- _. right. right. right. exists client, e. auto.
    + injection H as <- _. auto.
Qed.

(** X26. The calls of a reconciliation that reports, in order: one health
    query per live host, each on the configuration with its leader flag
    cleared; the member list; one etcd query per live host, each on the
    configuration as the election left it; the client build, when the
    state had no client; the node list. *)
Theorem reporting_call_order (s s' : @State Client)
    (missing extra : gset string) :
  wellFormed s = true ->
  investigateCluster F W s = (Reported missing extra, s') ->
  journal s'
  = journal s ++ healthQueries s ++ [CallEtcdMemberList]
    ++ ((fun h => CallEtcdGet (deref (Hosts s') (Config h)))
          <$> ControlPlane s)
    ++ match DynamicClient s with
       | Some _ => []
       | None => [CallBuildKubernetesClientset]
       end
    ++ [CallListNodes].
Proof.
  intros Hwf Hrun. apply wellFormed_NoDup in Hwf.
  destruct s as [mem cp c j]. cbn [Hosts ControlPlane DynamicClient journal] in *.
  rewrite investigateCluster_run in Hrun.
  destruct (IsProvisioned W mem cp); cbn [negb] in Hrun; [| discriminate].
  rewrite electOver_spec, queries_cleared in Hrun by exact Hwf.
  cbn [orb] in Hrun.
  destruct (existsb _ cp); cbn [negb] in Hrun; [| discriminate].
  destruct (etcdstatus_MemberList W) as [m | e]; [| discriminate].
  cbn zeta in Hrun. unfold clientset in Hrun. cbn [DynamicClient] in Hrun.
  assert (Hgets : forall mem2,
             (fun h => CallEtcdGet (deref mem2 (Config h)))
               <$> (apiUpdate F W (clearAll (Config <$> cp) mem) <$> cp)
             = (fun h => CallEtcdGet (deref mem2 (Config h))) <$> cp).
  { intros mem2. rewrite <- list_fmap_compose. apply list_fmap_ext.
    intros i x _. cbn.
    destruct (apiUpdate_cases F W (clearAll (Config <$> cp) mem) x)
      as [-> | ->]; reflexivity. }
  rewrite Hgets in Hrun.
  destruct c as [client |]; cbn [fst snd] in Hrun.
  - destruct (DynamicClient_List W client) as [nodes | e]; [| discriminate].
    injection Hrun as _ _ <-. cbn [Hosts journal].
    unfold healthQueries. cbn [Hosts ControlPlane].
    rewrite <- !app_assoc. reflexivity.
  - destruct (BuildKubernetesClientset W) as [client | e];
      cbn [fst snd] in Hrun; [| discriminate].
    destruct (DynamicClient_List W client) as [nodes | e]; [| discriminate].
    injection Hrun as _ _ <-. unfold record, setDynamicClient.
    cbn [Hosts ControlPlane DynamicClient journal].
    unfold healthQueries. cbn [Hosts ControlPlane].
    rewrite <- !app_assoc. reflexivity.
Qed.

End CallsAndErrors.

(* ===================================================================== *)
(** ** The probe task *)

Section ProbeTask.

Context {Members Client : Type}.
Variable F : StatusFlags.
Variable L : Libraries.
Variable W : @Collaborators Members Client.
Variable RunTask : @State Client -> option error * @State Client.

(** The shape of a state whose live hosts mirror the store is that of a
    well-formed state. *)
Lemma mirror_wellFormed (s : @State Client) :
  Config <$> ControlPlane s = seq 0 (length (Hosts s)) ->
  wellFormed s = true.
Proof.
  intros Hcfg. unfold wellFormed. rewrite Hcfg. apply andb_true_iff. split.
  - apply bool_decide_eq_true, NoDup_seq.
  - apply forallb_forall. intros h Hh. apply list_elem_of_In in Hh.
    apply Nat.ltb_lt.
    assert (Hin : Config h ∈ seq 0 (length (Hosts s)))
      by (rewrite <- Hcfg; apply list_elem_of_fmap_2, Hh).
    apply elem_of_seq in Hin. lia.
Qed.

(** X27. When the version parses and the runner does nothing but
    investigate hosts one after another, [runProbes] leaves, whatever it
    returns, a live cluster that mirrors the configured hosts: the expected
    version is the parsed one, the live host at an index points at the
    configuration at that index, the state is well formed, and the store
    has its length and every configuration its host name and operating
    system. *)
Theorem runProbes_keeps_shape (kubernetes : string) (s : @State Client)
    (v : Version) :
  semver_NewVersion L kubernetes = inl v ->
  probed F L (setControlPlane (newLiveCluster (Hosts s)) s)
         (RunTask (setControlPlane (newLiveCluster (Hosts s)) s)).2 ->
  let res := runProbes F L W RunTask kubernetes s in
  res.1.2 = Some v
  /\ Config <$> ControlPlane res.2 = seq 0 (length (Hosts s))
  /\ wellFormed res.2 = true
  /\ length (Hosts res.2) = length (Hosts s)
  /\ hostnames (Hosts res.2) (ControlPlane res.2) = Hostname <$> Hosts s
  /\ (forall p,
        Hostname (deref (Hosts res.2) p) = Hostname (deref (Hosts s) p)
        /\ OperatingSystem (deref (Hosts res.2) p)
           = OperatingSystem (deref (Hosts s) p)).
Proof.
  intros Hv Hp res.
  assert (Hshape : Config <$> ControlPlane res.2 = seq 0 (length (Hosts s))
                   /\ length (Hosts res.2) = length (Hosts s)
                   /\ (forall p,
                         Hostname (deref (Hosts res.2) p)
                         = Hostname (deref (Hosts s) p)
                         /\ OperatingSystem (deref (Hosts res.2) p)
                            = OperatingSystem (deref (Hosts s) p))
                   /\ res.1.2 = Some v).
  { subst res. unfold runProbes. rewrite Hv. cbv zeta.
    destruct s as [hosts cp c j]. unfold setControlPlane in *.
    cbn [Hosts ControlPlane DynamicClient journal] in *.
    apply probed_invariant in Hp as (Hm & _ & _ & Hcfg & _).
    destruct (RunTask _) as [[err |] s1]; cbn [fst snd] in *.
    { rewrite Hm. auto. }
    destruct (IsProvisioned W (Hosts s1) (ControlPlane s1));
      [| cbn [fst snd]; rewrite Hm; auto].
    pose proof (investigateCluster_configs F W s1) as Hc.
    pose proof (investigateCluster_keeps F W s1) as (_ & Hl & Hn & _).
    destruct (investigateCluster F W s1) as [[err | mis ext] s2];
      cbn [fst snd] in *; rewrite Hc, Hl, Hm;
      (split; [exact Hcfg |]); (split; [reflexivity |]);
      (split; [| reflexivity]); intros p; rewrite <- Hm; apply Hn. }
  destruct Hshape as (Hcfg & Hlen & Hstore & Hver).
  split; [exact Hver |]. split; [exact Hcfg |].
  split; [apply mirror_wellFormed; rewrite Hlen; exact Hcfg |].
  split; [exact Hlen |]. split; [| exact Hstore].
  transitivity (hostnames (Hosts s) (newLiveCluster (Hosts s))).
  - apply hostnames_eq; [intros p; apply Hstore |].
    rewrite Hcfg. unfold newLiveCluster. rewrite <- list_fmap_compose.
    rewrite (list_fmap_ext _ id (seq 0 (length (Hosts s)))) by reflexivity.
    rewrite list_fmap_id. reflexivity.
  - unfold hostnames, newLiveCluster. rewrite <- list_fmap_compose.
    transitivity (Hostname <$> ((fun i => Hosts s !!! i)
                                  <$> seq 0 (length (Hosts s)))).
    + rewrite <- list_fmap_compose. reflexivity.
    + rewrite lookup_total_seq_fmap. reflexivity.
Qed.

(** X28. When the investigations succeed and leave a cluster that is not
    provisioned, [runProbes] returns no error and does not reconcile: the
    state is the one the runner left, no call of a collaborator is
    recorded, no host is marked or has a pod flag, and no leader flag of
    the store has changed. *)
Theorem runProbes_skips_unprovisioned (kubernetes : string)
    (s s1 : @State Client) (v : Version) :
  semver_NewVersion L kubernetes = inl v ->
  RunTask (setControlPlane (newLiveCluster (Hosts s)) s) = (None, s1) ->
  probed F L (setControlPlane (newLiveCluster (Hosts s)) s) s1 ->
  IsProvisioned W (Hosts s1) (ControlPlane s1) = false ->
  runProbes F L W RunTask kubernetes s = (None, Some v, s1)
  /\ journal s1 = journal s
  /\ Hosts s1 = Hosts s
  /\ Forall unmarked (ControlPlane s1).
Proof.
  intros Hv Hrun Hp Hprov. unfold runProbes. rewrite Hv. cbv zeta.
  rewrite Hrun, Hprov. destruct s as [hosts cp c j].
  unfold setControlPlane in Hp. cbn [Hosts ControlPlane DynamicClient journal] in *.
  apply probed_invariant in Hp as (Hm & _ & Hj & _ & Hun). auto.
Qed.

(** X29. Where the errors of [runProbes] come from: the version parser,
    the runner, or a reconciliation of a provisioned cluster, and then the
    election that found no healthy host, the member list, the client build
    or the node list, whose error is wrapped.  The refusal of a cluster
    that is not provisioned is never the source. *)
Theorem runProbes_error_sources (kubernetes : string) (s s' : @State Client)
    (ver : option Version) (err : error) :
  runProbes F L W RunTask kubernetes s = (Some err, ver, s') ->
  semver_NewVersion L kubernetes = inr err
  \/ (RunTask (setControlPlane (newLiveCluster (Hosts s)) s)).1 = Some err
  \/ (IsProvisioned W
        (Hosts (RunTask (setControlPlane (newLiveCluster (Hosts s)) s)).2)
        (ControlPlane (RunTask (setControlPlane (newLiveCluster (Hosts s)) s)).2)
      = true
      /\ (err = errQuorumLost
          \/ etcdstatus_MemberList W = inr err
          \/ BuildKubernetesClientset W = inr err
          \/ exists client e,
               DynamicClient_List W client = inr e
               /\ err = errors_Wrap e "unable to list nodes")).
Proof.
  unfold runProbes.
  destruct (semver_NewVersion L kubernetes) as [v | e];
    [| intros H; injection H as <- _ _; auto].
  cbv zeta.
  destruct (RunTask _) as [[e |] s1]; cbn [fst snd];
    [intros H; injection H as <- _ _; auto |].
  destruct (IsProvisioned W (Hosts s1) (ControlPlane s1)) eqn:Hprov;
    [| discriminate].
  destruct (investigateCluster F W s1) as [[e | mis ext] s2] eqn:Hrun;
    [| discriminate].
  intros H. injection H as <- _ _. right. right. split; [reflexivity |].
  destruct (investigateCluster_failure F W s1 s2 e Hrun)
    as [[Hno _] | [_ Hsrc]]; [congruence |].
  destruct Hsrc as [H | [H | [[_ H] | H]]]; auto.
Qed.

End ProbeTask.

(* ===================================================================== *)
(** ** The statements on concrete inputs *)

Lemma systemdStatus_exactly_one_substate_witness :
  independentFlags flags8 = true
  /\ systemdStatus flags8 libs ubuntuConn "docker"
     = ((56, None), (systemdStatus flags8 libs ubuntuConn "docker").2)
  /\ exists m : gmap string string,
       yaml_Unmarshal libs
         (strings_ReplaceAll
            (stdout (respond ubuntuConn (systemdShowStatusCMD "docker")))
            "="%char ": ")
       = inl m
       /\ length (List.filter (isSet 56) (subStateFlags flags8)) = 1%nat
       /\ (isSet 56 (SystemDStatusRunning flags8) = true
           <-> index m "SubState" = "running")
       /\ (isSet 56 (SystemDStatusRestarting flags8) = true
           <-> index m "SubState" = "auto-restart")
       /\ (isSet 56 (SystemdDStatusDead flags8) = true
           <-> index m "SubState" = "dead")
       /\ (isSet 56 (SystemDStatusUnknown flags8) = true
           <-> index m "SubState" <> "running"
               /\ index m "SubState" <> "auto-restart"
               /\ index m "SubState" <> "dead").
Proof.
  split; [reflexivity |]. split; [reflexivity |].
  apply (systemdStatus_exactly_one_substate flags8 libs ubuntuConn
           (systemdStatus flags8 libs ubuntuConn "docker").2 "docker" 56);
    reflexivity.
Defined.

(** An error reported together with exit code 0 is returned, and the bit
    stays off: exit code 0 alone does not make the check succeed. *)
Lemma exit_zero_with_error_fails : ~ exitZeroAlwaysInitializes flags8.
Proof.
  intros H.
  destruct (H (probedHost 0) (markerConn 0 (Some errRefused)) eq_refl)
    as [Herr _].
  discriminate Herr.
Qed.

Lemma detectKubeletInitialized_three_way_witness :
  independentFlags flags8 = true
  /\ (let res := detectKubeletInitialized flags8 (probedHost 0)
                   (markerConn 0 None) in
      res.1.1 = None
      /\ CStatus (Kubelet res.1.2)
         = Z.lor (CStatus (Kubelet (probedHost 0))) (KubeletInitialized flags8)
      /\ isSet (CStatus (Kubelet res.1.2)) (KubeletInitialized flags8) = true)
  /\ (let res := detectKubeletInitialized flags8 (probedHost 0)
                   (markerConn 1 None) in
      res.1.1 = None /\ res.1.2 = probedHost 0)
  /\ (let res := detectKubeletInitialized flags8 (probedHost 0)
                   (markerConn (-1) (Some errRefused)) in
      res.1.1 = Some errRefused /\ res.1.2 = probedHost 0).
Proof.
  split; [reflexivity |]. split; [| split].
  - apply (proj1 (detectKubeletInitialized_three_way flags8 (probedHost 0)
                    (markerConn 0 None) eq_refl)); reflexivity.
  - apply (proj1 (proj2 (detectKubeletInitialized_three_way flags8
                           (probedHost 0) (markerConn 1 None) eq_refl))).
    reflexivity.
  - apply (proj2 (proj2 (detectKubeletInitialized_three_way flags8
                           (probedHost 0)
                           (markerConn (-1) (Some errRefused)) eq_refl))).
    + reflexivity.
    + discriminate.
Defined.

Lemma detectKubeletInitialized_error_branch_witness :
  independentFlags flags8 = true
  /\ isSet (CStatus (Kubelet (probedHost 0))) (KubeletInitialized flags8) = false
  /\ (let res := detectKubeletInitialized flags8 (probedHost 0)
                   (markerConn 0 (Some errRefused)) in
      res.1.1 = Some errRefused /\ res.1.2 = probedHost 0).
Proof.
  split; [reflexivity |]. split; [reflexivity |].
  apply (proj1 (proj2 (proj2 (detectKubeletInitialized_error_branch flags8
                                (probedHost 0)
                                (markerConn 0 (Some errRefused))
                                eq_refl eq_refl)))).
  - discriminate.
  - reflexivity.
Defined.

Lemma version_commands_by_os_family_witness :
  (let res := detectDockerStatusVersion flags8 libs
                (oneHost OperatingSystemNameFlatcar) (probedHost 0)
                flatcarConn in
   res.1.1 = None
   /\ CVersion (ContainerRuntime res.1.2) = Some zeroVersion
   /\ issued res.2 = [systemdShowStatusCMD "docker"])
  /\ issued (detectKubeletStatusVersion flags8 libs
               (oneHost OperatingSystemNameFlatcar) (probedHost 0)
               flatcarConn).2
     = [systemdShowStatusCMD "kubelet"; kubeletVersionCLI]
  /\ (let res := detectKubeletStatusVersion flags8 libs
                   (oneHost (OperatingSystemNameOther "freebsd"))
                   (probedHost 0) ubuntuConn in
      res.1.1 = None
      /\ CVersion (Kubelet res.1.2) = None
      /\ issued res.2 = [systemdShowStatusCMD "kubelet"]).
Proof.
  pose proof (version_commands_by_os_family flags8 libs
                (oneHost OperatingSystemNameFlatcar) (probedHost 0)
                flatcarConn) as [Hdocker Hkubelet].
  pose proof (version_commands_by_os_family flags8 libs
                (oneHost (OperatingSystemNameOther "freebsd")) (probedHost 0)
                ubuntuConn) as [_ Hother].
  split; [| split].
  - destruct (Hdocker 56 (systemdStatus flags8 libs flatcarConn "docker").2
                eq_refl) as [Himm _].
    destruct (Himm eq_refl eq_refl) as [Hres Hiss].
    cbv zeta. rewrite Hres. repeat split.
  - destruct (Hkubelet 56 (systemdStatus flags8 libs flatcarConn "kubelet").2
                eq_refl) as [Himm _].
    exact (Himm eq_refl eq_refl).
  - destruct (Hother 56 (systemdStatus flags8 libs ubuntuConn "kubelet").2
                eq_refl) as [_ Hunk].
    destruct (Hunk eq_refl) as [Hres Hiss].
    cbv zeta. rewrite Hres. repeat split.
Defined.

(** C7. On an Ubuntu host whose package queries answer with a text that is
    no version, the container-runtime check wraps the parser's error with
    the raw output, while the kubelet check returns the parser's error as it
    is, and that error does not carry the output. *)
Example kubelet_version_error_drops_output :
  let raw := "no packages found
" in
  let parseErr := errors_New "Invalid Semantic Version" in
  (detectDockerStatusVersion flags8 libs (oneHost OperatingSystemNameUbuntu)
     (probedHost 0) brokenConn).1.1
  = Some (errors_Wrapf parseErr "version was: %q" raw)
  /\ carries (errors_Wrapf parseErr "version was: %q" raw) raw = true
  /\ (detectKubeletStatusVersion flags8 libs (oneHost OperatingSystemNameUbuntu)
        (probedHost 0) brokenConn).1.1
     = Some parseErr
  /\ carries parseErr raw = false.
Proof. repeat split. Qed.

(** The version both checks store is the parsed, trimmed output. *)
Example versions_are_trimmed :
  CVersion (ContainerRuntime
     (detectDockerStatusVersion flags8 libs (oneHost OperatingSystemNameUbuntu)
        (probedHost 0) ubuntuConn).1.2)
  = Some (mkVersion 0 0 0 "" "" "19.03.5")
  /\ CVersion (Kubelet
       (detectKubeletStatusVersion flags8 libs
          (oneHost OperatingSystemNameUbuntu) (probedHost 0) ubuntuConn).1.2)
     = Some (mkVersion 0 0 0 "" "" "1.17.3").
Proof. split; reflexivity. Qed.

Lemma first_healthy_host_is_leader_witness :
  wellFormed (clusterOf "A" "B" "C") = true
  /\ IsProvisioned abcWorld (Hosts (clusterOf "A" "B" "C"))
       (ControlPlane (clusterOf "A" "B" "C")) = true
  /\ (let s' := (investigateCluster flags8 abcWorld (clusterOf "A" "B" "C")).2 in
      forall k hk, ControlPlane s' !! k = Some hk ->
                   (leaderFlag s' hk = true <-> k = 1%nat)).
Proof.
  split; [reflexivity |]. split; [reflexivity |].
  apply (proj2 (proj2 (first_healthy_host_is_leader flags8 abcWorld
                         (clusterOf "A" "B" "C") eq_refl eq_refl))
           1%nat (probedHost 1)).
  - reflexivity.
  - reflexivity.
  - intros j h' Hj Hl. destruct j as [| j]; [| lia].
    injection Hl as <-. reflexivity.
Defined.

(** Hosts A (unhealthy), B (healthy), C (healthy): B is the leader, C is not,
    and the stale flag of C is gone. *)
Example abc_elects_B :
  let s' := (investigateCluster flags8 abcWorld (clusterOf "A" "B" "C")).2 in
  leaderFlag s' <$> ControlPlane s' = [false; true; false]
  /\ IsLeader <$> Hosts (clusterOf "A" "B" "C") = [false; false; true].
Proof. split; reflexivity. Qed.

Lemma no_healthy_host_quorum_lost_witness :
  IsProvisioned downWorld (Hosts (clusterOf "A" "B" "C"))
    (ControlPlane (clusterOf "A" "B" "C")) = true
  /\ existsb (reported downWorld (Hosts (clusterOf "A" "B" "C")))
       (ControlPlane (clusterOf "A" "B" "C")) = false
  /\ (let res := investigateCluster flags8 downWorld (clusterOf "A" "B" "C") in
      res.1 = Failed errQuorumLost
      /\ journal res.2
         = journal (clusterOf "A" "B" "C") ++ healthQueries (clusterOf "A" "B" "C")
      /\ ControlPlane res.2 = ControlPlane (clusterOf "A" "B" "C")
      /\ DynamicClient res.2 = DynamicClient (clusterOf "A" "B" "C")
      /\ (forall h, h ∈ ControlPlane res.2 -> leaderFlag res.2 h = false)).
Proof.
  split; [reflexivity |]. split; [reflexivity |].
  apply (no_healthy_host_quorum_lost flags8 downWorld (clusterOf "A" "B" "C"));
    reflexivity.
Defined.

(** Every query fails with an error beside a status that reports health:
    the reconciliation does not fail with the quorum error, so a failed
    query alone does not make a host unhealthy. *)
Lemma failed_query_with_healthy_status_is_elected :
  ~ failedQueryIsUnhealthy flags8 staleHealthWorld (clusterOf "A" "B" "C").
Proof.
  intros H. destruct (H eq_refl eq_refl) as [_ Hquorum].
  assert (Hall : forall h, h ∈ ControlPlane (clusterOf "A" "B" "C") ->
            (apiserverstatus_Get staleHealthWorld
               (setIsLeader false
                  (deref (Hosts (clusterOf "A" "B" "C")) (Config h)))).2
            <> None).
  { intros h Hh. cbn in Hh. rewrite !elem_of_cons in Hh.
    destruct Hh as [-> | [-> | [-> | Hh]]]; [discriminate .. |].
    inversion Hh. }
  specialize (Hquorum Hall). vm_compute in Hquorum. discriminate Hquorum.
Qed.

(** On that input host A, whose query failed, is the leader and has the
    PodRunning flag, as have the other hosts, and the reconciliation
    reports. *)
Example stale_health_elects_A :
  let res := investigateCluster flags8 staleHealthWorld (clusterOf "A" "B" "C") in
  (apiserverstatus_Get staleHealthWorld
     (mkHostConfig "A" OperatingSystemNameUbuntu false)).2 = Some errRefused
  /\ leaderFlag res.2 <$> ControlPlane res.2 = [true; false; false]
  /\ (fun h => PStatus (APIServer h)) <$> ControlPlane res.2 = [128; 128; 128]
  /\ res.1 = Reported ∅ ∅.
Proof. vm_compute. repeat split. Qed.

Lemma health_query_error_is_unhealthy_witness :
  wellFormed (clusterOf "A" "B" "C") = true
  /\ IsProvisioned downWorld (Hosts (clusterOf "A" "B" "C"))
       (ControlPlane (clusterOf "A" "B" "C")) = true
  /\ (forall i h h',
        ControlPlane (clusterOf "A" "B" "C") !! i = Some h ->
        ControlPlane
          (investigateCluster flags8 downWorld (clusterOf "A" "B" "C")).2 !! i
        = Some h' ->
        APIServer h' = APIServer h
        /\ leaderFlag
             (investigateCluster flags8 downWorld (clusterOf "A" "B" "C")).2 h'
           = false)
  /\ (investigateCluster flags8 downWorld (clusterOf "A" "B" "C")).1
     = Failed errQuorumLost
  /\ ControlPlane (investigateCluster flags8 downWorld (clusterOf "A" "B" "C")).2
     = ControlPlane (clusterOf "A" "B" "C").
Proof.
  assert (Hfail : forall h, h ∈ ControlPlane (clusterOf "A" "B" "C") ->
            exists e,
              apiserverstatus_Get downWorld
                (setIsLeader false
                   (deref (Hosts (clusterOf "A" "B" "C")) (Config h)))
              = (mkApiserverStatus false, Some e)).
  { intros h Hh. exists errRefused.
    cbn in Hh. rewrite !elem_of_cons in Hh.
    destruct Hh as [-> | [-> | [-> | Hh]]]; [reflexivity .. |].
    inversion Hh. }
  pose proof (health_query_error_is_unhealthy flags8 downWorld
                (clusterOf "A" "B" "C")) as (_ & Hhost & Hall).
  split; [reflexivity |]. split; [reflexivity |]. split.
  - intros i h h' Hi Hi'.
    apply (proj2 (proj2 (Hhost eq_refl eq_refl i h h' Hi Hi'))).
    apply Hfail. eapply list_elem_of_lookup_2, Hi.
  - apply Hall; [reflexivity | exact Hfail].
Defined.


(** The member list cannot be fetched: the reconciliation fails with the
    error of the fetch.  One host's lookup fails: its bit stays off and the
    reconciliation goes on to report. *)
Example etcd_phase_examples :
  (investigateCluster flags8 noMembersWorld (clusterOf "A" "B" "C")).1
  = Failed errRefused
  /\ (let res := investigateCluster flags8 abcWorld (clusterOf "A" "B" "C") in
      etcdstatus_Get abcWorld (mkHostConfig "C" OperatingSystemNameUbuntu false)
                     ["A"; "B"]
      = (None, Some errRefused)
      /\ (fun h => PStatus (Etcd h)) <$> ControlPlane res.2 = [128; 128; 0]
      /\ res.1 = Reported {["A"]} {["D"]}).
Proof. vm_compute. repeat split. Qed.

Lemma node_set_differences_witness :
  let s' := (investigateCluster flags8 driftWorld (clusterOf "h1" "h2" "h3")).2 in
  investigateCluster flags8 driftWorld (clusterOf "h1" "h2" "h3")
  = (Reported {["h1"]} {["h4"]}, s')
  /\ exists client nodes,
      DynamicClient s' = Some client
      /\ DynamicClient_List driftWorld client = inl nodes
      /\ let configured : gset string :=
           list_to_set (hostnames (Hosts (clusterOf "h1" "h2" "h3"))
                          (ControlPlane (clusterOf "h1" "h2" "h3"))) in
         let live : gset string := list_to_set nodes in
         ({["h1"]} : gset string) = configured ∖ live
         /\ ({["h4"]} : gset string) = live ∖ configured
         /\ forall i h h',
             ControlPlane (clusterOf "h1" "h2" "h3") !! i = Some h ->
             ControlPlane s' !! i = Some h' ->
             let name :=
               Hostname (deref (Hosts (clusterOf "h1" "h2" "h3")) (Config h)) in
             IsInCluster h' = IsInCluster h || bool_decide (name ∈ live)
             /\ (IsInCluster h = false ->
                 (IsInCluster h' = true <-> name ∈ live)).
Proof.
  assert (Hrun : investigateCluster flags8 driftWorld (clusterOf "h1" "h2" "h3")
                 = (Reported {["h1"]} {["h4"]},
                    (investigateCluster flags8 driftWorld
                       (clusterOf "h1" "h2" "h3")).2)).
  { vm_compute. reflexivity. }
  split; [exact Hrun |].
  exact (node_set_differences flags8 driftWorld (clusterOf "h1" "h2" "h3") _
           {["h1"]} {["h4"]} Hrun).
Defined.

(** Configured h1, h2, h3 and live h2, h3, h4: h1 is to be provisioned, h4
    is to be removed, and h2 and h3 are the hosts in the cluster. *)
Example drift_h1_h4 :
  let res := investigateCluster flags8 driftWorld (clusterOf "h1" "h2" "h3") in
  res.1 = Reported {["h1"]} {["h4"]}
  /\ IsInCluster <$> ControlPlane res.2 = [false; true; true].
Proof. vm_compute. split; reflexivity. Qed.

(** *** The investigation of a host *)

Lemma systemdStatus_installed_and_active_witness :
  independentFlags flags8 = true
  /\ systemdStatus flags8 libs ubuntuConn "docker"
     = ((56, None), (systemdStatus flags8 libs ubuntuConn "docker").2)
  /\ exists m : gmap string string,
       yaml_Unmarshal libs
         (strings_ReplaceAll
            (stdout (respond ubuntuConn (systemdShowStatusCMD "docker")))
            "="%char ": ")
       = inl m
       /\ (isSet 56 (ComponentInstalled flags8) = true
           <-> index m "LoadState" = "loaded")
       /\ (isSet 56 (SystemDStatusActive flags8) = true
           <-> index m "ActiveState" = "active"
               \/ index m "ActiveState" = "activating").
Proof.
  split; [reflexivity |]. split; [reflexivity |].
  apply (systemdStatus_installed_and_active flags8 libs ubuntuConn
           (systemdStatus flags8 libs ubuntuConn "docker").2 "docker" 56);
    reflexivity.
Defined.

Lemma systemdStatus_word_in_range_witness :
  independentFlags flags8 = true
  /\ (let status := (systemdStatus flags8 libs ubuntuConn "kubelet").1.1 in
      0 <= status < 2 ^ 64
      /\ isSet status (KubeletInitialized flags8) = false
      /\ isSet status (PodRunning flags8) = false).
Proof.
  split; [reflexivity |].
  apply (systemdStatus_word_in_range flags8 libs ubuntuConn "kubelet").
  reflexivity.
Defined.

(** The same status text with the separators written out, under another
    exit code, decodes to the same word. *)
Lemma systemdStatus_reads_normalised_output_witness :
  exitcode (respond ubuntuConn (systemdShowStatusCMD "docker"))
  <> exitcode (respond colonConn (systemdShowStatusCMD "docker"))
  /\ stdout (respond ubuntuConn (systemdShowStatusCMD "docker"))
     <> stdout (respond colonConn (systemdShowStatusCMD "docker"))
  /\ (systemdStatus flags8 libs ubuntuConn "docker").1
     = (systemdStatus flags8 libs colonConn "docker").1.
Proof.
  split; [discriminate |]. split.
  { intros H. apply (f_equal String.length) in H. vm_compute in H.
    discriminate H. }
  apply (systemdStatus_reads_normalised_output flags8 libs ubuntuConn
           colonConn "docker"); vm_compute; reflexivity.
Defined.

(** A host that knows neither service: both checks stop after the status
    query. *)
Lemma not_installed_skips_version_witness :
  isSet 1 (ComponentInstalled flags8) = false
  /\ (let res := detectDockerStatusVersion flags8 libs
                   (oneHost OperatingSystemNameUbuntu) (probedHost 0)
                   silentConn in
      res.1.1 = None
      /\ ContainerRuntime res.1.2 = mkComponentStatus None 1
      /\ issued res.2 = [systemdShowStatusCMD "docker"])
  /\ (let res := detectKubeletStatusVersion flags8 libs
                   (oneHost OperatingSystemNameUbuntu) (probedHost 0)
                   silentConn in
      res.1.1 = None
      /\ Kubelet res.1.2 = mkComponentStatus None 1
      /\ issued res.2 = [systemdShowStatusCMD "kubelet"]).
Proof.
  pose proof (not_installed_skips_version flags8 libs
                (oneHost OperatingSystemNameUbuntu) (probedHost 0) silentConn)
    as H.
  split; [reflexivity |]. split.
  - destruct (proj1 (H (systemdStatus flags8 libs silentConn "docker").2 1
                       eq_refl) eq_refl) as [Hres Hiss].
    cbv zeta. rewrite Hres. repeat split.
  - destruct (proj2 (H (systemdStatus flags8 libs silentConn "kubelet").2 1
                       eq_refl) eq_refl) as [Hres Hiss].
    cbv zeta. rewrite Hres. repeat split.
Defined.

(** A host that cannot be reached: the word of a probed host is back
    at 0. *)
Lemma status_failure_resets_word_witness :
  CStatus (ContainerRuntime (probedHost 0)) = 56
  /\ (let res := detectDockerStatusVersion flags8 libs
                   (oneHost OperatingSystemNameUbuntu) (probedHost 0)
                   unreachableConn in
      res.1.1 = Some errRefused
      /\ CStatus (ContainerRuntime res.1.2) = 0
      /\ issued res.2 = [systemdShowStatusCMD "docker"])
  /\ (let res := detectKubeletStatusVersion flags8 libs
                   (oneHost OperatingSystemNameUbuntu) (probedHost 0)
                   unreachableConn in
      res.1.1 = Some errRefused
      /\ CStatus (Kubelet res.1.2) = 0
      /\ issued res.2 = [systemdShowStatusCMD "kubelet"]).
Proof.
  pose proof (status_failure_resets_word flags8 libs
                (oneHost OperatingSystemNameUbuntu) (probedHost 0)
                unreachableConn errRefused) as [Hd Hk].
  split; [reflexivity |]. split.
  - cbv zeta. rewrite (Hd eq_refl). repeat split.
  - cbv zeta. rewrite (Hk eq_refl). repeat split.
Defined.

Lemma version_command_failure_witness :
  isSet 56 (ComponentInstalled flags8) = true
  /\ execErr (respond failingQueryConn dockerVersionDPKG) = Some errRefused
  /\ (let res := detectDockerStatusVersion flags8 libs
                   (oneHost OperatingSystemNameUbuntu) (probedHost 0)
                   failingQueryConn in
      res.1.1 = Some errRefused
      /\ res.1.2 = probedHost 0
      /\ issued res.2 = [systemdShowStatusCMD "docker"; dockerVersionDPKG]).
Proof.
  split; [reflexivity |]. split; [reflexivity |].
  cbv zeta.
  rewrite (proj1 (version_command_failure flags8 libs
                    (oneHost OperatingSystemNameUbuntu) (probedHost 0)
                    failingQueryConn
                    (systemdStatus flags8 libs failingQueryConn "docker").2
                    56 dockerVersionDPKG errRefused eq_refl eq_refl)
             eq_refl eq_refl).
  repeat split.
Defined.

Lemma version_command_success_witness :
  isSet 56 (ComponentInstalled flags8) = true
  /\ execErr (respond ubuntuConn kubeletVersionDPKG) = None
  /\ semver_NewVersion libs
       (strings_TrimSpace libs (stdout (respond ubuntuConn kubeletVersionDPKG)))
     = inl (mkVersion 0 0 0 "" "" "1.17.3")
  /\ (let res := detectKubeletStatusVersion flags8 libs
                   (oneHost OperatingSystemNameUbuntu) (probedHost 0)
                   ubuntuConn in
      res.1.1 = None
      /\ Kubelet res.1.2
         = mkComponentStatus (Some (mkVersion 0 0 0 "" "" "1.17.3")) 56
      /\ issued res.2 = [systemdShowStatusCMD "kubelet"; kubeletVersionDPKG]).
Proof.
  split; [reflexivity |]. split; [reflexivity |]. split; [reflexivity |].
  cbv zeta.
  rewrite (proj2 (version_command_success flags8 libs
                    (oneHost OperatingSystemNameUbuntu) (probedHost 0)
                    ubuntuConn
                    (systemdStatus flags8 libs ubuntuConn "kubelet").2
                    56 kubeletVersionDPKG (mkVersion 0 0 0 "" "" "1.17.3")
                    eq_refl eq_refl eq_refl)
             eq_refl eq_refl).
  repeat split.
Defined.

Lemma investigateHost_no_match_witness :
  investigateHost flags8 libs (clusterOf "A" "B" "C")
    (mkHostConfig "D" OperatingSystemNameUbuntu false) ubuntuConn
  = (Some errNoMatch, clusterOf "A" "B" "C", ubuntuConn).
Proof.
  apply (investigateHost_no_match flags8 libs (clusterOf "A" "B" "C")
           (mkHostConfig "D" OperatingSystemNameUbuntu false) ubuntuConn).
  intros h Hh. cbn in Hh. rewrite !elem_of_cons in Hh.
  destruct Hh as [-> | [-> | [-> | Hh]]]; [discriminate .. |].
  inversion Hh.
Defined.

(** The package queries of host A answer with a text that is no version:
    the investigation fails and the state is the one before it. *)
Lemma investigateHost_failure_keeps_state_witness :
  (investigateHost flags8 libs (freshCluster "A" "B" "C")
     (mkHostConfig "A" OperatingSystemNameUbuntu false) brokenConn).1.1
  <> None
  /\ (investigateHost flags8 libs (freshCluster "A" "B" "C")
        (mkHostConfig "A" OperatingSystemNameUbuntu false) brokenConn).1.2
     = freshCluster "A" "B" "C".
Proof.
  assert (H : (investigateHost flags8 libs (freshCluster "A" "B" "C")
                 (mkHostConfig "A" OperatingSystemNameUbuntu false)
                 brokenConn).1.1 <> None)
    by (vm_compute; discriminate).
  split; [exact H |].
  exact (investigateHost_failure_keeps_state flags8 libs
           (freshCluster "A" "B" "C")
           (mkHostConfig "A" OperatingSystemNameUbuntu false) brokenConn H).
Defined.

Lemma investigateHost_success_writes_one_witness :
  let s := freshCluster "A" "B" "C" in
  let node := mkHostConfig "B" OperatingSystemNameUbuntu false in
  let s' := (investigateHost flags8 libs s node ubuntuConn).1.2 in
  (investigateHost flags8 libs s node ubuntuConn).1.1 = None
  /\ exists idx h h',
      findHost (Hosts s) (Hostname node) (ControlPlane s) 0 = Some (idx, h)
      /\ s' = setControlPlane (<[idx := h']> (ControlPlane s)) s
      /\ ControlPlane s' !! idx = Some h'
      /\ (forall j, j <> idx -> ControlPlane s' !! j = ControlPlane s !! j)
      /\ sameClusterFields h h'.
Proof.
  split; [reflexivity |].
  apply (investigateHost_success_writes_one flags8 libs
           (freshCluster "A" "B" "C")
           (investigateHost flags8 libs (freshCluster "A" "B" "C")
              (mkHostConfig "B" OperatingSystemNameUbuntu false)
              ubuntuConn).1.2
           (mkHostConfig "B" OperatingSystemNameUbuntu false) ubuntuConn
           (investigateHost flags8 libs (freshCluster "A" "B" "C")
              (mkHostConfig "B" OperatingSystemNameUbuntu false)
              ubuntuConn).2).
  reflexivity.
Defined.

(** The marker file is there, and the written host has the flag. *)
Lemma investigateHost_initialized_flag_witness :
  let s := freshCluster "A" "B" "C" in
  let node := mkHostConfig "B" OperatingSystemNameUbuntu false in
  let s' := (investigateHost flags8 libs s node ubuntuConn).1.2 in
  independentFlags flags8 = true
  /\ (investigateHost flags8 libs s node ubuntuConn).1.1 = None
  /\ findHost (Hosts s) (Hostname node) (ControlPlane s) 0
     = Some (1%nat, newHost 1)
  /\ exists h',
      ControlPlane s' !! 1%nat = Some h'
      /\ (isSet (CStatus (Kubelet h')) (KubeletInitialized flags8) = true
          <-> exitcode (respond ubuntuConn kubeletInitializedCMD) = 0).
Proof.
  split; [reflexivity |]. split; [reflexivity |]. split; [reflexivity |].
  apply (investigateHost_initialized_flag flags8 libs
           (freshCluster "A" "B" "C")
           (investigateHost flags8 libs (freshCluster "A" "B" "C")
              (mkHostConfig "B" OperatingSystemNameUbuntu false)
              ubuntuConn).1.2
           (mkHostConfig "B" OperatingSystemNameUbuntu false) ubuntuConn
           (investigateHost flags8 libs (freshCluster "A" "B" "C")
              (mkHostConfig "B" OperatingSystemNameUbuntu false)
              ubuntuConn).2
           1%nat (newHost 1)); reflexivity.
Defined.

(** Host C investigated, then host A: the live hosts still mirror the
    configured ones. *)
Lemma probed_cluster_keeps_shape_witness :
  let hosts := configsOf "A" "B" "C" in
  let s1 := (investigateHost flags8 libs (freshCluster "A" "B" "C")
               (mkHostConfig "C" OperatingSystemNameUbuntu true)
               ubuntuConn).1.2 in
  let s := (investigateHost flags8 libs s1
              (mkHostConfig "A" OperatingSystemNameUbuntu false)
              ubuntuConn).1.2 in
  ControlPlane s <> ControlPlane (freshCluster "A" "B" "C")
  /\ Config <$> ControlPlane s = seq 0 (length hosts)
  /\ wellFormed s = true
  /\ Forall unmarked (ControlPlane s).
Proof.
  split; [vm_compute; discriminate |].
  destruct (probed_cluster_keeps_shape flags8 libs (configsOf "A" "B" "C")
              (None : option unit) [] _
              (probed_step flags8 libs _ _
                 (mkHostConfig "A" OperatingSystemNameUbuntu false) ubuntuConn
                 (probed_step flags8 libs _ _
                    (mkHostConfig "C" OperatingSystemNameUbuntu true)
                    ubuntuConn (probed_refl flags8 libs _))))
    as (_ & Hconf & Hwf & Hun & _).
  repeat split; assumption.
Defined.

(** *** The reconciliation *)

Lemma not_provisioned_is_refused_witness :
  IsProvisioned abcWorld (Hosts (freshCluster "A" "B" "C"))
    (ControlPlane (freshCluster "A" "B" "C")) = false
  /\ investigateCluster flags8 abcWorld (freshCluster "A" "B" "C")
     = (Failed errNotProvisioned, freshCluster "A" "B" "C").
Proof.
  split; [reflexivity |].
  apply (not_provisioned_is_refused flags8 abcWorld (freshCluster "A" "B" "C")).
  reflexivity.
Defined.

Lemma healthy_hosts_get_PodRunning_witness :
  independentFlags flags8 = true
  /\ wellFormed (clusterOf "A" "B" "C") = true
  /\ IsProvisioned abcWorld (Hosts (clusterOf "A" "B" "C"))
       (ControlPlane (clusterOf "A" "B" "C")) = true
  /\ (let s := clusterOf "A" "B" "C" in
      let s' := (investigateCluster flags8 abcWorld s).2 in
      forall i h h',
        ControlPlane s !! i = Some h -> ControlPlane s' !! i = Some h' ->
        PStatus (APIServer h')
        = (if reported abcWorld (Hosts s) h
           then Z.lor (PStatus (APIServer h)) (PodRunning flags8)
           else PStatus (APIServer h))
        /\ (isSet (PStatus (APIServer h)) (PodRunning flags8) = false ->
            (isSet (PStatus (APIServer h')) (PodRunning flags8) = true
             <-> reported abcWorld (Hosts s) h = true))
        /\ (leaderFlag s' h' = true ->
            isSet (PStatus (APIServer h')) (PodRunning flags8) = true)).
Proof.
  split; [reflexivity |]. split; [reflexivity |]. split; [reflexivity |].
  apply (healthy_hosts_get_PodRunning flags8 abcWorld (clusterOf "A" "B" "C"));
    reflexivity.
Defined.

Lemma existing_client_is_reused_witness :
  DynamicClient (connectedCluster "A" "B" "C") = Some tt
  /\ (let res := investigateCluster flags8 abcWorld
                   (connectedCluster "A" "B" "C") in
      DynamicClient res.2 = Some tt
      /\ exists evs, journal res.2 = journal (connectedCluster "A" "B" "C") ++ evs
                     /\ CallBuildKubernetesClientset ∉ evs).
Proof.
  split; [reflexivity |].
  apply (existing_client_is_reused flags8 abcWorld
           (connectedCluster "A" "B" "C") tt).
  reflexivity.
Defined.

Lemma client_build_failure_witness :
  let s := clusterOf "A" "B" "C" in
  let res := investigateCluster flags8 noClientWorld s in
  BuildKubernetesClientset noClientWorld = inr errRefused
  /\ res.1 = Failed errRefused
  /\ DynamicClient res.2 = None
  /\ journal res.2
     = journal s ++ healthQueries s ++ [CallEtcdMemberList]
       ++ ((fun h => CallEtcdGet (deref (Hosts res.2) (Config h)))
             <$> ControlPlane s)
       ++ [CallBuildKubernetesClientset]
  /\ IsInCluster <$> ControlPlane res.2 = IsInCluster <$> ControlPlane s.
Proof.
  split; [reflexivity |].
  apply (client_build_failure flags8 noClientWorld (clusterOf "A" "B" "C")
           ["A"; "B"] errRefused); reflexivity.
Defined.

Lemma node_list_failure_witness :
  let s := clusterOf "A" "B" "C" in
  let res := investigateCluster flags8 noNodesWorld s in
  DynamicClient_List noNodesWorld tt = inr errRefused
  /\ res.1 = Failed (errors_Wrap errRefused "unable to list nodes")
  /\ DynamicClient res.2 = Some tt
  /\ IsInCluster <$> ControlPlane res.2 = IsInCluster <$> ControlPlane s
  /\ (exists evs, journal res.2 = journal s ++ evs ++ [CallListNodes]).
Proof.
  split; [reflexivity |].
  apply (node_list_failure flags8 noNodesWorld (clusterOf "A" "B" "C")
           ["A"; "B"] tt errRefused); reflexivity.
Defined.

(** Host A carries a leader flag before the reconciliation: the outcome is
    that of the run without the flag. *)
Lemma stale_leader_flags_do_not_matter_witness :
  Hosts (storeIsLeader true 0 (clusterOf "A" "B" "C"))
  <> Hosts (clusterOf "A" "B" "C")
  /\ investigateCluster flags8 abcWorld
       (storeIsLeader true 0 (clusterOf "A" "B" "C"))
     = investigateCluster flags8 abcWorld (clusterOf "A" "B" "C").
Proof.
  split; [discriminate |].
  apply (stale_leader_flags_do_not_matter flags8 abcWorld
           (clusterOf "A" "B" "C") true 0%nat).
  - cbn. lia.
  - reflexivity.
  - reflexivity.
Defined.

Lemma second_reconciliation_changes_nothing_witness :
  let s := clusterOf "h1" "h2" "h3" in
  let s1 := (investigateCluster flags8 driftWorld s).2 in
  wellFormed s = true
  /\ investigateCluster flags8 driftWorld s = (Reported {["h1"]} {["h4"]}, s1)
  /\ (investigateCluster flags8 driftWorld s1).1 = Reported {["h1"]} {["h4"]}
  /\ Hosts (investigateCluster flags8 driftWorld s1).2 = Hosts s1
  /\ ControlPlane (investigateCluster flags8 driftWorld s1).2 = ControlPlane s1
  /\ DynamicClient (investigateCluster flags8 driftWorld s1).2
     = DynamicClient s1.
Proof.
  assert (Hrun : investigateCluster flags8 driftWorld (clusterOf "h1" "h2" "h3")
                 = (Reported {["h1"]} {["h4"]},
                    (investigateCluster flags8 driftWorld
                       (clusterOf "h1" "h2" "h3")).2)).
  { vm_compute. reflexivity. }
  split; [reflexivity |]. split; [exact Hrun |].
  apply (second_reconciliation_changes_nothing flags8 driftWorld
           (clusterOf "h1" "h2" "h3") _ {["h1"]} {["h4"]} eq_refl Hrun).
  vm_compute. reflexivity.
Defined.

Lemma version_parse_failure_witness :
  let raw := "no packages found
" in
  let parseErr := errors_New "Invalid Semantic Version" in
  isSet 56 (ComponentInstalled flags8) = true
  /\ semver_NewVersion libs (strings_TrimSpace libs raw) = inr parseErr
  /\ (detectDockerStatusVersion flags8 libs (oneHost OperatingSystemNameUbuntu)
        (probedHost 0) brokenConn).1.1
     = Some (errors_Wrapf parseErr "version was: %q" raw)
  /\ (detectKubeletStatusVersion flags8 libs (oneHost OperatingSystemNameUbuntu)
        (probedHost 0) brokenConn).1.1
     = Some parseErr.
Proof.
  cbv zeta. split; [reflexivity |]. split; [reflexivity |].
  pose proof (version_parse_failure flags8 libs
                (oneHost OperatingSystemNameUbuntu) (probedHost 0) brokenConn)
    as H.
  split.
  - rewrite (proj1 (H (systemdStatus flags8 libs brokenConn "docker").2 56
                      dockerVersionDPKG (errors_New "Invalid Semantic Version")
                      eq_refl eq_refl eq_refl) eq_refl eq_refl).
    reflexivity.
  - rewrite (proj2 (H (systemdStatus flags8 libs brokenConn "kubelet").2 56
                      kubeletVersionDPKG (errors_New "Invalid Semantic Version")
                      eq_refl eq_refl eq_refl) eq_refl eq_refl).
    reflexivity.
Defined.

Lemma reporting_call_order_witness :
  let s := clusterOf "h1" "h2" "h3" in
  let s' := (investigateCluster flags8 driftWorld s).2 in
  wellFormed s = true
  /\ investigateCluster flags8 driftWorld s = (Reported {["h1"]} {["h4"]}, s')
  /\ journal s'
     = journal s ++ healthQueries s ++ [CallEtcdMemberList]
       ++ ((fun h => CallEtcdGet (deref (Hosts s') (Config h)))
             <$> ControlPlane s)
       ++ match DynamicClient s with
          | Some _ => []
          | None => [CallBuildKubernetesClientset]
          end
       ++ [CallListNodes].
Proof.
  assert (Hrun : investigateCluster flags8 driftWorld (clusterOf "h1" "h2" "h3")
                 = (Reported {["h1"]} {["h4"]},
                    (investigateCluster flags8 driftWorld
                       (clusterOf "h1" "h2" "h3")).2)).
  { vm_compute. reflexivity. }
  split; [reflexivity |]. split; [exact Hrun |].
  exact (reporting_call_order flags8 driftWorld (clusterOf "h1" "h2" "h3") _
           {["h1"]} {["h4"]} eq_refl Hrun).
Defined.

(** *** The probe task *)

(** Hosts A and C are investigated and found installed: the cluster is
    reconciled, and the live hosts still mirror the configured ones. *)
Lemma runProbes_keeps_shape_witness :
  let run := investigateTwo (hostA, ubuntuConn) (hostC, ubuntuConn) in
  let s := freshCluster "A" "B" "C" in
  let res := runProbes flags8 libs abcWorld run "1.17.3" s in
  res.1.1 = None
  /\ res.1.2 = Some (mkVersion 0 0 0 "" "" "1.17.3")
  /\ Config <$> ControlPlane res.2 = seq 0 (length (Hosts s))
  /\ wellFormed res.2 = true
  /\ length (Hosts res.2) = length (Hosts s)
  /\ hostnames (Hosts res.2) (ControlPlane res.2) = Hostname <$> Hosts s
  /\ (forall p,
        Hostname (deref (Hosts res.2) p) = Hostname (deref (Hosts s) p)
        /\ OperatingSystem (deref (Hosts res.2) p)
           = OperatingSystem (deref (Hosts s) p)).
Proof.
  split; [vm_compute; reflexivity |].
  apply (runProbes_keeps_shape flags8 libs abcWorld
           (investigateTwo (hostA, ubuntuConn) (hostC, ubuntuConn))
           "1.17.3" (freshCluster "A" "B" "C")
           (mkVersion 0 0 0 "" "" "1.17.3") eq_refl).
  apply (probed_step flags8 libs _ _ hostC ubuntuConn
           (probed_step flags8 libs _ _ hostA ubuntuConn
              (probed_refl flags8 libs _))).
Defined.

(** Hosts A and C know neither service: nothing is installed, and the
    cluster is not reconciled. *)
Lemma runProbes_skips_unprovisioned_witness :
  let run := investigateTwo (hostA, silentConn) (hostC, silentConn) in
  let s := freshCluster "A" "B" "C" in
  let s1 := (run s).2 in
  IsProvisioned abcWorld (Hosts s1) (ControlPlane s1) = false
  /\ runProbes flags8 libs abcWorld run "1.17.3" s
     = (None, Some (mkVersion 0 0 0 "" "" "1.17.3"), s1)
  /\ journal s1 = journal s
  /\ Hosts s1 = Hosts s
  /\ Forall unmarked (ControlPlane s1).
Proof.
  split; [vm_compute; reflexivity |].
  apply (runProbes_skips_unprovisioned flags8 libs abcWorld
           (investigateTwo (hostA, silentConn) (hostC, silentConn))
           "1.17.3" (freshCluster "A" "B" "C")
           (investigateTwo (hostA, silentConn) (hostC, silentConn)
              (freshCluster "A" "B" "C")).2
           (mkVersion 0 0 0 "" "" "1.17.3") eq_refl).
  - vm_compute. reflexivity.
  - apply (probed_step flags8 libs _ _ hostC silentConn
             (probed_step flags8 libs _ _ hostA silentConn
                (probed_refl flags8 libs _))).
  - vm_compute. reflexivity.
Defined.

(** No host answers the health query: the error of [runProbes] is the one
    of the election. *)
Lemma runProbes_error_sources_witness :
  let run := investigateTwo (hostA, ubuntuConn) (hostC, ubuntuConn) in
  let s := freshCluster "A" "B" "C" in
  (runProbes flags8 libs downWorld run "1.17.3" s).1.1 = Some errQuorumLost
  /\ (semver_NewVersion libs "1.17.3" = inr errQuorumLost
      \/ (run (setControlPlane (newLiveCluster (Hosts s)) s)).1
         = Some errQuorumLost
      \/ (IsProvisioned downWorld
            (Hosts (run (setControlPlane (newLiveCluster (Hosts s)) s)).2)
            (ControlPlane (run (setControlPlane (newLiveCluster (Hosts s)) s)).2)
          = true
          /\ (errQuorumLost = errQuorumLost
              \/ etcdstatus_MemberList downWorld = inr errQuorumLost
              \/ BuildKubernetesClientset downWorld = inr errQuorumLost
              \/ exists client e,
                   DynamicClient_List downWorld client = inr e
                   /\ errQuorumLost = errors_Wrap e "unable to list nodes"))).
Proof.
  split; [vm_compute; reflexivity |].
  apply (runProbes_error_sources flags8 libs downWorld
           (investigateTwo (hostA, ubuntuConn) (hostC, ubuntuConn))
           "1.17.3" (freshCluster "A" "B" "C")
           (runProbes flags8 libs downWorld
              (investigateTwo (hostA, ubuntuConn) (hostC, ubuntuConn))
              "1.17.3" (freshCluster "A" "B" "C")).2
           (Some (mkVersion 0 0 0 "" "" "1.17.3")) errQuorumLost).
  vm_compute. reflexivity.
Defined.
